(** * Code review analysis engine: shallow embedding and verified properties

    The development follows the TypeScript sources of the review engine:
    - [services/code-review/CodeReviewService.ts] (the heuristic scanner),
    - the provider-aware [CodeReviewService] (AI analysis and third-party
      providers),
    - [core/tools/codeReviewTool.ts] (filtering and summary of a result),
    - [services/code-review/third-party-providers.config.ts] (validation and
      storage of provider configurations).

    JavaScript strings are modelled as [string]: a sequence of code units,
    each below 256.  JavaScript integers that count things are [nat] or
    [Z]; the numbers of a provider configuration, which come from outside,
    are rationals, [NaN] or an infinity; the two maintainability formulas,
    which go through [Math.log], are stated over the real numbers. *)

From Stdlib Require Import String Ascii List Bool Arith ZArith NArith QArith Lia.
From Stdlib Require Import Reals Lra.
From Stdlib Require Import DecimalString.
From stdpp Require Import gmap strings.
Import ListNotations.

Open Scope string_scope.
Open Scope list_scope.
Open Scope nat_scope.

(* ===================================================================== *)
(** * JavaScript string primitives *)
(* ===================================================================== *)

Module JS.

Definition chr (n : nat) : ascii := ascii_of_nat n.

Definition tab : ascii := chr 9.
Definition newline : ascii := chr 10.
Definition dquote : ascii := chr 34.
Definition squote : ascii := chr 39.
Definition backslash : ascii := chr 92.

Definition code (c : ascii) : nat := nat_of_ascii c.

(** White space and line terminators of ECMAScript, as far as they lie
    below 256: TAB, LF, VT, FF, CR, SP and NBSP.  This is the set that
    [String.prototype.trim] strips and that [\s] matches. *)
Definition isWhiteSpace (c : ascii) : bool :=
  let n := code c in
  (n =? 9) || (n =? 10) || (n =? 11) || (n =? 12) || (n =? 13)
  || (n =? 32) || (n =? 160).

Definition isDigit (c : ascii) : bool :=
  let n := code c in (48 <=? n) && (n <=? 57).

Definition isUpper (c : ascii) : bool :=
  let n := code c in (65 <=? n) && (n <=? 90).

Definition isLower (c : ascii) : bool :=
  let n := code c in (97 <=? n) && (n <=? 122).

(** [\w] without the unicode flag: [A-Za-z0-9_]. *)
Definition isWordChar (c : ascii) : bool :=
  isUpper c || isLower c || isDigit c || (code c =? 95).

(** [String.prototype.toLowerCase] on one code unit below 256. *)
Definition lowerChar (c : ascii) : ascii :=
  let n := code c in
  if isUpper c then chr (n + 32)
  else if (192 <=? n) && (n <=? 222) && negb (n =? 215) then chr (n + 32)
  else c.

(** Upper-casing restricted to ASCII letters: the canonicalisation that a
    case-insensitive pattern made of ASCII characters can observe. *)
Definition upperAscii (c : ascii) : ascii :=
  if isLower c then chr (code c - 32) else c.

Fixpoint toLowerCase (s : string) : string :=
  match s with
  | EmptyString => EmptyString
  | String c s' => String (lowerChar c) (toLowerCase s')
  end.

Fixpoint startsWith (p s : string) : bool :=
  match p, s with
  | EmptyString, _ => true
  | String _ _, EmptyString => false
  | String a p', String b s' => Ascii.eqb a b && startsWith p' s'
  end.

(** [s.includes(sub)]. *)
Fixpoint includes (sub s : string) : bool :=
  startsWith sub s ||
  match s with
  | EmptyString => false
  | String _ s' => includes sub s'
  end.

Fixpoint trimStart (s : string) : string :=
  match s with
  | EmptyString => EmptyString
  | String c s' => if isWhiteSpace c then trimStart s' else s
  end.

Fixpoint allWhiteSpace (s : string) : bool :=
  match s with
  | EmptyString => true
  | String c s' => isWhiteSpace c && allWhiteSpace s'
  end.

Fixpoint trimEnd (s : string) : string :=
  match s with
  | EmptyString => EmptyString
  | String c s' => if allWhiteSpace s then EmptyString else String c (trimEnd s')
  end.

Definition trim (s : string) : string := trimEnd (trimStart s).

Fixpoint lastChar (s : string) : option ascii :=
  match s with
  | EmptyString => None
  | String c EmptyString => Some c
  | String _ s' => lastChar s'
  end.

(** [s.endsWith(c)] for a one-character needle. *)
Definition endsWithChar (c : ascii) (s : string) : bool :=
  match lastChar s with
  | Some d => Ascii.eqb c d
  | None => false
  end.

(** [s.split(sep)] for a one-character separator: never empty, the pieces
    between consecutive separators, empty pieces kept. *)
Fixpoint splitOn (sep : ascii) (s : string) : list string :=
  match s with
  | EmptyString => [EmptyString]
  | String c s' =>
      if Ascii.eqb c sep then EmptyString :: splitOn sep s'
      else match splitOn sep s' with
           | [] => [String c EmptyString]
           | w :: ws => String c w :: ws
           end
  end.

(** [s.split(/\s+/)]: the pieces between maximal runs of white space; a
    leading or trailing run leaves an empty piece at that end. *)
Fixpoint splitRuns (inRun : bool) (s : string) : list string :=
  match s with
  | EmptyString => [EmptyString]
  | String c s' =>
      if isWhiteSpace c then
        if inRun then splitRuns true s' else EmptyString :: splitRuns true s'
      else match splitRuns false s' with
           | [] => [String c EmptyString]
           | w :: ws => String c w :: ws
           end
  end.

Definition splitWhiteSpace (s : string) : list string := splitRuns false s.

(** Decimal rendering of a non-negative integer, as template literals do. *)
Definition showNat (n : nat) : string := NilEmpty.string_of_uint (Nat.to_uint n).

(** [arr.includes(x)] on an array of strings. *)
Definition arrayIncludes (x : string) (arr : list string) : bool :=
  existsb (String.eqb x) arr.

(** [arr.join(sep)]. *)
Fixpoint join (sep : string) (arr : list string) : string :=
  match arr with
  | [] => EmptyString
  | [x] => x
  | x :: rest => x ++ sep ++ join sep rest
  end.

End JS.

(* ===================================================================== *)
(** * Regular expressions used by the scanner *)
(* ===================================================================== *)

Module RegExp.
Import JS.

(** Members of a character class [[...]]. *)
Inductive class_item : Type :=
| CChar (c : ascii)            (* one literal character *)
| CRange (lo hi : ascii)       (* lo-hi *)
| CWord                        (* \w *)
| CDigit                       (* \d *)
| CSpace.                      (* \s *)

(** The pattern syntax that the sources use. *)
Inductive pattern : Type :=
| Eps
| Lit (c : ascii)
| Class (items : list class_item)
| Cat (p q : pattern)
| Star (p : pattern)                     (* p*  , greedy *)
| Plus (p : pattern)                     (* p+  , greedy *)
| Opt (p : pattern)                      (* p?  , greedy *)
| AtLeast (n : nat) (p : pattern)        (* p{n,} , greedy *)
| NotBehind (items : list class_item)    (* (?<![...]) *)
| NotAhead (items : list class_item).    (* (?![...]) *)

(** A literal word, character by character. *)
Fixpoint word (s : string) : pattern :=
  match s with
  | EmptyString => Eps
  | String c EmptyString => Lit c
  | String c s' => Cat (Lit c) (word s')
  end.

Fixpoint seqs (ps : list pattern) : pattern :=
  match ps with
  | [] => Eps
  | [p] => p
  | p :: ps' => Cat p (seqs ps')
  end.

Definition item_matches (it : class_item) (x : ascii) : bool :=
  match it with
  | CChar c => Ascii.eqb c x
  | CRange lo hi => (code lo <=? code x) && (code x <=? code hi)
  | CWord => isWordChar x
  | CDigit => isDigit x
  | CSpace => isWhiteSpace x
  end.

(** With the [i] flag two characters match when their canonical (upper
    case) forms agree; all patterns here are ASCII. *)
Definition char_matches (ic : bool) (c x : ascii) : bool :=
  if ic then Ascii.eqb (upperAscii c) (upperAscii x) else Ascii.eqb c x.

Definition class_matches (ic : bool) (items : list class_item) (x : ascii) : bool :=
  existsb (fun it => item_matches it x) items
  || (ic && existsb (fun it => item_matches it (upperAscii x)
                               || item_matches it (lowerChar x)) items).

(** A position in the subject: the character just before it (for the
    look-behind) and the characters still to read. *)
Definition position : Type := option ascii * list ascii.

Definition remaining (st : position) : nat := List.length (snd st).

(** Greedy iteration: one more round first, then stopping here.  A round
    that consumes nothing is rejected, as the RepeatMatcher of ECMAScript
    does, so [fuel] above the remaining length is never exhausted. *)
Fixpoint star_loop (step : position -> list position) (fuel : nat)
         (st : position) : list position :=
  match fuel with
  | O => [st]
  | S fuel' =>
      flat_map (fun st' => if remaining st' <? remaining st
                           then star_loop step fuel' st' else [])
               (step st)
      ++ [st]
  end.

Fixpoint iterate (step : position -> list position) (n : nat)
         (st : position) : list position :=
  match n with
  | O => [st]
  | S n' => flat_map (iterate step n') (step st)
  end.

(** All ways to match [p] at [st], in backtracking priority order. *)
Fixpoint run (ic : bool) (p : pattern) (st : position) : list position :=
  match p with
  | Eps => [st]
  | Lit c =>
      match snd st with
      | x :: rest => if char_matches ic c x then [(Some x, rest)] else []
      | [] => []
      end
  | Class items =>
      match snd st with
      | x :: rest => if class_matches ic items x then [(Some x, rest)] else []
      | [] => []
      end
  | Cat p1 p2 => flat_map (run ic p2) (run ic p1 st)
  | Star p1 => star_loop (run ic p1) (S (remaining st)) st
  | Plus p1 =>
      flat_map (fun st' => star_loop (run ic p1) (S (remaining st')) st')
               (run ic p1 st)
  | Opt p1 =>
      List.filter (fun st' => remaining st' <? remaining st) (run ic p1 st) ++ [st]
  | AtLeast n p1 =>
      flat_map (fun st' => star_loop (run ic p1) (S (remaining st')) st')
               (iterate (run ic p1) n st)
  | NotBehind items =>
      match fst st with
      | Some x => if class_matches ic items x then [] else [st]
      | None => [st]
      end
  | NotAhead items =>
      match snd st with
      | x :: _ => if class_matches ic items x then [] else [st]
      | [] => [st]
      end
  end.

(** The first match at or after the current position: where the match
    ends, as the number of characters left after it. *)
Fixpoint search (ic : bool) (p : pattern) (prev : option ascii)
         (rest : list ascii) : option nat :=
  match run ic p (prev, rest) with
  | st :: _ => Some (remaining st)
  | [] =>
      match rest with
      | [] => None
      | x :: rest' => search ic p (Some x) rest'
      end
  end.

(** A RegExp object: its pattern, the [i] and [g] flags and the mutable
    [lastIndex]. *)
Record t : Type := mk {
  compiled : pattern;
  ignoreCase : bool;
  global : bool;
  lastIndex : nat
}.

(** A regular-expression literal evaluates to a new object. *)
Definition literal (p : pattern) (i g : bool) : t :=
  {| compiled := p; ignoreCase := i; global := g; lastIndex := 0 |}.

Definition setLastIndex (re : t) (n : nat) : t :=
  {| compiled := compiled re; ignoreCase := ignoreCase re;
     global := global re; lastIndex := n |}.

Definition prevAt (cs : list ascii) (i : nat) : option ascii :=
  match i with
  | O => None
  | S j => nth_error cs j
  end.

(** [re.test(s)]: the answer and the object afterwards.  Without [g] the
    search starts at 0 and [lastIndex] is left alone; with [g] it starts
    at [lastIndex], which then moves to the end of the match, or back to
    0 when there is none. *)
Definition test (re : t) (s : string) : bool * t :=
  let cs := list_ascii_of_string s in
  let n := List.length cs in
  if global re then
    if n <? lastIndex re then (false, setLastIndex re 0)
    else
      match search (ignoreCase re) (compiled re)
                   (prevAt cs (lastIndex re)) (skipn (lastIndex re) cs) with
      | Some rem => (true, setLastIndex re (n - rem))
      | None => (false, setLastIndex re 0)
      end
  else
    match search (ignoreCase re) (compiled re) None cs with
    | Some _ => (true, re)
    | None => (false, re)
    end.

End RegExp.

(* ===================================================================== *)
(** * Taxonomy: issue types, severities and the issue record *)
(* ===================================================================== *)

(** [enum CodeReviewType]; the older service uses the first five as a
    union of string literals. *)
Inductive CodeReviewType : Type :=
| SECURITY | QUALITY | PERFORMANCE | STYLE | BUG | MAINTAINABILITY.

(** [enum SeverityLevel]; the older service has no [INFO]. *)
Inductive SeverityLevel : Type :=
| CRITICAL | HIGH | MEDIUM | LOW | INFO.

#[global] Instance CodeReviewType_eq_dec : EqDecision CodeReviewType.
Proof. solve_decision. Defined.

#[global] Instance SeverityLevel_eq_dec : EqDecision SeverityLevel.
Proof. solve_decision. Defined.

(** The string value of each enum member. *)
Definition typeValue (t : CodeReviewType) : string :=
  match t with
  | SECURITY => "security" | QUALITY => "quality"
  | PERFORMANCE => "performance" | STYLE => "style"
  | BUG => "bug" | MAINTAINABILITY => "maintainability"
  end.

Definition severityValue (s : SeverityLevel) : string :=
  match s with
  | CRITICAL => "critical" | HIGH => "high" | MEDIUM => "medium"
  | LOW => "low" | INFO => "info"
  end.

(** [interface CodeFix]. *)
Record CodeFix : Type := {
  fix_description : string;
  fix_type : string;
  fix_range : (nat * nat) * (nat * nat);
  fix_newText : option string
}.

(** [interface CodeIssue].  An optional property that an object literal
    does not set is [None]. *)
Record CodeIssue : Type := {
  id : option string;
  type : CodeReviewType;
  severity : SeverityLevel;
  category : option string;
  file : string;
  line : nat;
  column : option nat;
  endLine : option nat;
  endColumn : option nat;
  message : string;
  description : option string;
  suggestion : option string;
  ruleId : option string;
  ruleName : option string;
  ruleDocUrl : option string;
  confidence : option R;
  source : option string;
  tags : option (list string);
  fixes : option (list CodeFix)
}.

(** The summary block of a review result. *)
Record Summary : Type := {
  totalIssues : nat;
  criticalIssues : nat;
  highIssues : nat;
  mediumIssues : nat;
  lowIssues : nat
}.

(** A JavaScript number that is an integer or [Infinity], which is what
    [Math.round] yields on the values met here. *)
Inductive JSInteger : Type :=
| Finite (z : Z)
| Infinity.

(** A JavaScript number as a configuration object carries it: every
    finite double is a rational, and there are [NaN] and the two
    infinities. *)
Inductive JSNumber : Type :=
| Num (q : Q)
| NaN
| PlusInfinity
| MinusInfinity.

Module Number.

(** The number of an integer literal. *)
Definition integer (z : Z) : JSNumber := Num (inject_Z z).

(** A number as a condition: [0] and [NaN] are falsy. *)
Definition truthy (n : JSNumber) : bool :=
  match n with
  | Num q => negb (Qeq_bool q 0)
  | NaN => false
  | PlusInfinity | MinusInfinity => true
  end.

(** [isNaN(n)] *)
Definition isNaN (n : JSNumber) : bool :=
  match n with NaN => true | _ => false end.

(** [n < k] and [n > k] for an integer literal [k]: every comparison
    with [NaN] is false. *)
Definition lessThan (n : JSNumber) (k : Z) : bool :=
  match n with
  | Num q => negb (Qle_bool (inject_Z k) q)
  | MinusInfinity => true
  | NaN | PlusInfinity => false
  end.

Definition greaterThan (n : JSNumber) (k : Z) : bool :=
  match n with
  | Num q => negb (Qle_bool q (inject_Z k))
  | PlusInfinity => true
  | NaN | MinusInfinity => false
  end.

(** A finite number between two integers. *)
Definition within (lo hi : Z) (n : JSNumber) : Prop :=
  match n with
  | Num q => (inject_Z lo <= q)%Q /\ (q <= inject_Z hi)%Q
  | NaN | PlusInfinity | MinusInfinity => False
  end.

End Number.

Record Metrics : Type := {
  linesOfCode : nat;
  complexity : nat;
  maintainabilityIndex : JSInteger
}.

(** The outcome of an [async] function: the value it resolves to, or the
    message of the error it throws. *)
Inductive outcome (A : Type) : Type :=
| Resolved (a : A)
| Thrown (msg : string).
Arguments Resolved {A} a.
Arguments Thrown {A} msg.

(** [issues.filter(p).length] *)
Definition countIf {A : Type} (p : A -> bool) (l : list A) : nat :=
  List.length (List.filter p l).

Definition hasSeverity (s : SeverityLevel) (i : CodeIssue) : bool :=
  bool_decide (severity i = s).

(** [generateSummary]: the same in both services. *)
Definition generateSummary (issues : list CodeIssue) : Summary :=
  {| totalIssues := List.length issues;
     criticalIssues := countIf (hasSeverity CRITICAL) issues;
     highIssues := countIf (hasSeverity HIGH) issues;
     mediumIssues := countIf (hasSeverity MEDIUM) issues;
     lowIssues := countIf (hasSeverity LOW) issues |}.

(* ===================================================================== *)
(** * Metrics *)
(* ===================================================================== *)

Module Metrics.
Import JS.

(** [Math.round]: the nearest integer, halves going up. *)
Definition Math_round (x : R) : Z := Int_part (x + / 2)%R.

Definition complexityKeywords : list string :=
  ["if"; "else"; "while"; "for"; "case"; "catch"; "&&"; "||"; "?"].

(** The pieces of [content.split(/\s+/)] that are a keyword each bump
    the counter, which starts at 1. *)
Definition countComplexity (content : string) : nat :=
  fold_left (fun complexity word =>
               if arrayIncludes word complexityKeywords
               then complexity + 1 else complexity)
            (splitWhiteSpace content) 1.

Definition countLinesOfCode (content : string) : nat :=
  let lines := splitOn newline content in
  let nonEmptyLines := List.filter (fun line => 0 <? String.length (trim line)) lines in
  List.length nonEmptyLines.

(** [Math.round(Math.max(0, 171 - 5.2 * Math.log(loc) - 0.23 * c))];
    [Math.log(0)] is [-Infinity], which makes the whole [Infinity]. *)
Definition fileMaintainability (loc c : nat) : JSInteger :=
  if loc =? 0 then Infinity
  else Finite (Math_round (Rmax 0 (171 - 5.2 * ln (INR loc) - 0.23 * INR c))).

(** [calculateMetrics]: the same in both services. *)
Definition calculateMetrics (content : string) : Metrics :=
  let loc := countLinesOfCode content in
  let c := countComplexity content in
  {| linesOfCode := loc;
     complexity := c;
     maintainabilityIndex := fileMaintainability loc c |}.

(** [calculateMaintainabilityIndex]: the same in both services. *)
Definition calculateMaintainabilityIndex (loc c issueCount : nat) : JSInteger :=
  if loc =? 0 then Infinity
  else
    let base := (171 - 5.2 * ln (INR loc) - 0.23 * INR c - 16.2 * ln (INR loc))%R in
    let penalty := (INR issueCount * 2)%R in
    Finite (Z.max 0 (Math_round (base - penalty))).

End Metrics.

(* ===================================================================== *)
(** * The heuristic scanner ([services/code-review/CodeReviewService.ts]) *)
(* ===================================================================== *)

Module HeuristicService.
Import JS RegExp.

(** The object literals of this service set seven properties. *)
Definition issue (t : CodeReviewType) (sev : SeverityLevel) (msg filePath : string)
           (lineNumber : nat) (sugg rule : string) : CodeIssue :=
  {| id := None; type := t; severity := sev; category := None;
     file := filePath; line := lineNumber; column := None;
     endLine := None; endColumn := None;
     message := msg; description := None; suggestion := Some sugg;
     ruleId := Some rule; ruleName := None; ruleDocUrl := None;
     confidence := None; source := None; tags := None; fixes := None |}.

(** [if (cond) { issues.push(i) }] *)
Definition pushIf (cond : bool) (i : CodeIssue) : list CodeIssue :=
  if cond then [i] else [].

(** [lines.forEach((line, index) => ...)] where the callback pushes
    [body line index] onto the result array. *)
Fixpoint forEachFrom {A B : Type} (body : A -> nat -> list B)
         (index : nat) (lines : list A) : list B :=
  match lines with
  | [] => []
  | l :: rest => body l index ++ forEachFrom body (S index) rest
  end.

Definition forEach {A B : Type} (body : A -> nat -> list B) (lines : list A) : list B :=
  forEachFrom body 0 lines.

Definition webScriptExtensions : list string := [".js"; ".ts"; ".jsx"; ".tsx"].

(** [line.match(/^[\t\s]*/)?.[0]?.length ?? 0]: the pattern always
    matches, and greedily. *)
Definition leadingIndent (l : string) : nat :=
  let cs := list_ascii_of_string l in
  match run false (Star (Class [CChar tab; CSpace])) (None, cs) with
  | st :: _ => List.length cs - remaining st
  | [] => 0
  end.

Definition identStart : list class_item :=
  [CRange "a" "z"; CRange "A" "Z"; CChar "_"; CChar "$"].

(** [/(?<![a-zA-Z_$])\d{2,}(?![a-zA-Z_$])/g] *)
Definition magicNumberPattern : RegExp.t :=
  literal (seqs [NotBehind identStart; AtLeast 2 (Class [CDigit]); NotAhead identStart])
          false true.

Definition qualityAt (filePath fileExtension : string) (l : string) (index : nat)
  : list CodeIssue :=
  let lineNumber := index + 1 in
  let trimmedLine := trim l in
  pushIf (120 <? String.length l)
    (issue QUALITY LOW
       ("Line too long (" ++ showNat (String.length l)
          ++ " characters). Consider breaking it down.")
       filePath lineNumber
       "Break long lines into multiple lines for better readability"
       "line-length")
  ++ pushIf (includes "TODO" trimmedLine || includes "FIXME" trimmedLine
             || includes "HACK" trimmedLine)
    (issue QUALITY MEDIUM
       "Found TODO/FIXME/HACK comment. Consider addressing this technical debt."
       filePath lineNumber
       "Address the technical debt mentioned in the comment"
       "technical-debt")
  (* indentLevel = length / 2, and indentLevel > 6 *)
  ++ pushIf (6 * 2 <? leadingIndent l)
    (issue QUALITY HIGH
       "Deep nesting detected. Consider refactoring to reduce complexity."
       filePath lineNumber
       "Extract nested logic into separate functions"
       "deep-nesting")
  ++ (if arrayIncludes fileExtension webScriptExtensions then
        pushIf (includes "console.log" trimmedLine)
          (issue QUALITY LOW
             "Console.log statement found. Remove debug statements before production."
             filePath lineNumber
             "Use proper logging library or remove debug statements"
             "console-log")
        ++ pushIf (fst (test magicNumberPattern trimmedLine)
                   && negb (includes "const" trimmedLine)
                   && negb (includes "let" trimmedLine))
          (issue QUALITY MEDIUM
             "Magic number detected. Consider using named constants."
             filePath lineNumber
             "Define constants for magic numbers to improve readability"
             "magic-numbers")
      else []).

Definition checkCodeQuality (content filePath fileExtension : string) : list CodeIssue :=
  let lines := splitOn newline content in
  forEach (qualityAt filePath fileExtension) lines.

Definition quoteClass : pattern := Class [CChar dquote; CChar squote].
Definition spaces : pattern := Star (Class [CSpace]).

(** [<name>\s*=\s*["'][<value class>]+["']] with the [i] flag. *)
Definition assignment (name : pattern) (valueClass : list class_item) : RegExp.t :=
  literal (seqs [name; spaces; Lit "="; spaces; quoteClass;
                 Plus (Class valueClass); quoteClass])
          true false.

Definition passwordChars : list class_item :=
  [CWord; CDigit; CChar "@"; CChar "#"; CChar "$"; CChar "%"; CChar "^";
   CChar "&"; CChar "*"; CChar "("; CChar ")"; CChar "_"; CChar "+";
   CChar "-"; CChar "="; CChar "["; CChar "]"; CChar "{"; CChar "}";
   CChar "|"; CChar backslash; CChar ":"; CChar dquote; CChar ";";
   CChar squote; CChar "<"; CChar ">"; CChar "?"; CChar ","; CChar ".";
   CChar "/"].

Definition secretPatterns : list RegExp.t :=
  [ assignment (word "password") passwordChars;
    assignment (seqs [word "api"; Opt (Class [CChar "_"; CChar "-"]); word "key"])
               [CWord; CDigit; CChar "-"; CChar "_"];
    assignment (word "secret") [CWord; CDigit; CChar "-"; CChar "_"];
    assignment (word "token") [CWord; CDigit; CChar "-"; CChar "_"; CChar "."] ].

Definition securityAt (filePath fileExtension : string) (l : string) (index : nat)
  : list CodeIssue :=
  let lineNumber := index + 1 in
  let trimmedLine := trim l in
  flat_map (fun pat =>
              pushIf (fst (test pat trimmedLine))
                (issue SECURITY CRITICAL
                   "Hardcoded secret detected. Secrets should be stored in environment variables."
                   filePath lineNumber
                   "Move secrets to environment variables or secure configuration"
                   "hardcoded-secrets"))
           secretPatterns
  ++ pushIf (includes "query" trimmedLine && includes "+" trimmedLine)
    (issue SECURITY HIGH
       "Potential SQL injection vulnerability. Use parameterized queries."
       filePath lineNumber
       "Use parameterized queries or ORM to prevent SQL injection"
       "sql-injection")
  ++ (if arrayIncludes fileExtension (webScriptExtensions ++ [".html"]) then
        pushIf (includes "innerHTML" trimmedLine
                && negb (includes "textContent" trimmedLine))
          (issue SECURITY HIGH
             "Potential XSS vulnerability. Avoid using innerHTML with user data."
             filePath lineNumber
             "Use textContent or properly sanitize HTML content"
             "xss-vulnerability")
      else [])
  ++ pushIf (includes "Math.random()" trimmedLine
             && (includes "crypto" trimmedLine || includes "password" trimmedLine
                 || includes "token" trimmedLine))
    (issue SECURITY HIGH
       "Math.random() is not cryptographically secure. Use crypto.randomBytes() for security-related randomness."
       filePath lineNumber
       "Use crypto.randomBytes() or crypto.getRandomValues() for secure randomness"
       "insecure-random").

Definition checkSecurity (content filePath fileExtension : string) : list CodeIssue :=
  let lines := splitOn newline content in
  forEach (securityAt filePath fileExtension) lines.

(** [lines[i]?.includes(sub)], falsy when [lines[i]] is undefined. *)
Definition lineIncludes (lines : list string) (i : Z) (sub : string) : bool :=
  if (i <? 0)%Z then false
  else match nth_error lines (Z.to_nat i) with
       | Some l => includes sub l
       | None => false
       end.

Definition performanceAt (filePath fileExtension : string) (lines : list string)
           (l : string) (index : nat) : list CodeIssue :=
  let lineNumber := index + 1 in
  let trimmedLine := trim l in
  if arrayIncludes fileExtension webScriptExtensions then
    pushIf (includes "readFileSync" trimmedLine || includes "writeFileSync" trimmedLine)
      (issue PERFORMANCE MEDIUM
         "Synchronous file operation detected. Consider using async alternatives."
         filePath lineNumber
         "Use readFile/writeFile with promises or async/await"
         "sync-file-ops")
    ++ pushIf (includes "for" trimmedLine && includes "length" trimmedLine
               && negb (includes "const" trimmedLine))
      (issue PERFORMANCE LOW
         "Consider caching array length in loops for better performance."
         filePath lineNumber
         "Store array.length in a variable before the loop"
         "inefficient-loop")
    ++ pushIf ((includes "getElementById" trimmedLine
                || includes "querySelector" trimmedLine)
               && (lineIncludes lines (Z.of_nat index - 1) "getElementById"
                   || lineIncludes lines (Z.of_nat index + 1) "getElementById"))
      (issue PERFORMANCE MEDIUM
         "Frequent DOM queries detected. Consider caching DOM elements."
         filePath lineNumber
         "Cache DOM elements in variables to avoid repeated queries"
         "frequent-dom-queries")
  else [].

Definition checkPerformance (content filePath fileExtension : string) : list CodeIssue :=
  let lines := splitOn newline content in
  forEach (performanceAt filePath fileExtension lines) lines.

Definition styleAt (filePath : string) (l : string) (index : nat) : list CodeIssue :=
  let lineNumber := index + 1 in
  pushIf (includes (String tab "") l && includes "  " l)
    (issue STYLE LOW
       "Mixed indentation detected (tabs and spaces)."
       filePath lineNumber
       "Use consistent indentation (either tabs or spaces)"
       "mixed-indentation")
  ++ pushIf (endsWithChar " " l || endsWithChar tab l)
    (issue STYLE LOW
       "Trailing whitespace detected."
       filePath lineNumber
       "Remove trailing whitespace"
       "trailing-whitespace").

Definition checkCodeStyle (content filePath fileExtension : string) : list CodeIssue :=
  let lines := splitOn newline content in
  forEach (styleAt filePath) lines.

(** The four pushes at the head of [analyzeFile]. *)
Definition scan (content filePath fileExtension : string) : list CodeIssue :=
  checkCodeQuality content filePath fileExtension
  ++ checkSecurity content filePath fileExtension
  ++ checkPerformance content filePath fileExtension
  ++ checkCodeStyle content filePath fileExtension.

Record CodeReviewResult : Type := {
  summary : Summary;
  issues : list CodeIssue;
  metrics : Metrics
}.

Section Host.
(** [fs.promises.readFile(path, "utf-8")] and [path.extname]. *)
Variable readFile : string -> outcome string.
Variable extname : string -> string.

(** [analyzeFile].  Its [catch] shows the message in the editor and throws
    the error again; only the error is kept here. *)
Definition analyzeFile (filePath : string) : outcome CodeReviewResult :=
  match readFile filePath with
  | Thrown e => Thrown e
  | Resolved content =>
      let fileExtension := toLowerCase (extname filePath) in
      let found := scan content filePath fileExtension in
      Resolved {| summary := generateSummary found;
                  issues := found;
                  metrics := Metrics.calculateMetrics content |}
  end.
End Host.

End HeuristicService.

(* ===================================================================== *)
(** * The provider-aware review service *)
(* ===================================================================== *)

Module ReviewService.
Import JS.

Record SupportedLanguage : Type := {
  name : string;
  extensions : list string;
  aliases : list string
}.

(** [interface AnalysisOptions]; the two loosely typed members
    ([languageSpecific], [customRules]) are only handed on to providers
    and are left out. *)
Record AnalysisOptions : Type := {
  reviewTypes : option (list CodeReviewType);
  severityFilter : option (list SeverityLevel);
  excludeRules : option (list string)
}.

Record AnalysisStatistics : Type := {
  totalLines : nat;
  codeLines : nat;
  commentLines : nat;
  blankLines : nat;
  stat_complexity : nat;
  stat_maintainabilityIndex : nat;
  issuesByType : CodeReviewType -> nat;
  issuesBySeverity : SeverityLevel -> nat
}.

Record CodeSuggestion : Type := {
  sugg_type : string;
  title : string;
  sugg_description : string;
  impact : string;
  effort : string
}.

(** [interface ThirdPartyAnalysisResult], without the raw response. *)
Record ThirdPartyAnalysisResult : Type := {
  providerId : string;
  providerVersion : string;
  analysisId : string;
  timestamp : string;
  processingTime : nat;
  tp_issues : list CodeIssue;
  statistics : AnalysisStatistics;
  suggestions : list CodeSuggestion
}.

(** What the service uses of a [ThirdPartyCodeReviewProvider]: its
    [analyzeFile], which resolves to a result or throws. *)
Record Provider : Type := {
  provider_id : string;
  provider_analyzeFile :
    string -> string -> option AnalysisOptions -> outcome ThirdPartyAnalysisResult
}.

Record CodeReviewResult : Type := {
  summary : Summary;
  issues : list CodeIssue;
  metrics : Metrics;
  thirdPartyResults : list ThirdPartyAnalysisResult
}.

(** The [options] argument of [analyzeFile] and [analyzeDirectory]. *)
Record Options : Type := {
  enableThirdParty : option bool;
  providers : option (list string);
  analysisOptions : option AnalysisOptions
}.

(** ** [Map<string, V>] with its insertion order *)

Definition OrderedMap (V : Type) : Type := list (string * V).

Fixpoint mapSet {V : Type} (k : string) (v : V) (m : OrderedMap V) : OrderedMap V :=
  match m with
  | [] => [(k, v)]
  | (k', v') :: rest =>
      if String.eqb k k' then (k, v) :: rest else (k', v') :: mapSet k v rest
  end.

Fixpoint mapGet {V : Type} (k : string) (m : OrderedMap V) : option V :=
  match m with
  | [] => None
  | (k', v') :: rest => if String.eqb k k' then Some v' else mapGet k rest
  end.

Definition mapKeys {V : Type} (m : OrderedMap V) : list string := map fst m.

(** ** Supported languages *)

Definition languages : list SupportedLanguage :=
  [ {| name := "JavaScript"; extensions := [".js"; ".jsx"]; aliases := ["js"; "javascript"] |};
    {| name := "TypeScript"; extensions := [".ts"; ".tsx"]; aliases := ["ts"; "typescript"] |};
    {| name := "Python"; extensions := [".py"]; aliases := ["py"; "python"] |};
    {| name := "Java"; extensions := [".java"]; aliases := ["java"] |};
    {| name := "Go"; extensions := [".go"]; aliases := ["go"; "golang"] |};
    {| name := "Rust"; extensions := [".rs"]; aliases := ["rs"; "rust"] |} ].

(** [initializeSupportedLanguages]: every extension of every language is
    set to that language. *)
Definition initializeSupportedLanguages : gmap string SupportedLanguage :=
  fold_left (fun m lang =>
               fold_left (fun m' ext => <[ext := lang]> m') (extensions lang) m)
            languages ∅.

(** ** The AI analysis *)

(** One element of the [issues] array in the model's JSON answer. *)
Record RawIssue : Type := {
  raw_type : string;
  raw_severity : string;
  raw_message : string;
  raw_line : nat;
  raw_suggestion : option string
}.

(** How the request to the language model ends. *)
Inductive Completion : Type :=
| RequestFails                       (* createMessage or the stream throws *)
| NotJSON                            (* JSON.parse throws *)
| NoIssuesArray                      (* valid JSON without an issues array *)
| IssuesArray (raw : list RawIssue).

(** [mapLegacyType] and [mapLegacySeverity] of the service: a lookup in an
    object literal with a default.  Their results are of the declared
    enum types; a label that names a member of [Object.prototype] is not
    considered. *)
Definition mapLegacyType (legacyType : string) : CodeReviewType :=
  if String.eqb legacyType "quality" then QUALITY
  else if String.eqb legacyType "security" then SECURITY
  else if String.eqb legacyType "performance" then PERFORMANCE
  else if String.eqb legacyType "style" then STYLE
  else if String.eqb legacyType "bug" then BUG
  else QUALITY.

Definition mapLegacySeverity (legacySeverity : string) : SeverityLevel :=
  if String.eqb legacySeverity "low" then LOW
  else if String.eqb legacySeverity "medium" then MEDIUM
  else if String.eqb legacySeverity "high" then HIGH
  else if String.eqb legacySeverity "critical" then CRITICAL
  else MEDIUM.

Definition aiIssue (filePath : string) (raw : RawIssue) : CodeIssue :=
  {| id := None; type := mapLegacyType (raw_type raw);
     severity := mapLegacySeverity (raw_severity raw); category := None;
     file := filePath; line := raw_line raw; column := None;
     endLine := None; endColumn := None;
     message := raw_message raw; description := None;
     suggestion := raw_suggestion raw;
     ruleId := None; ruleName := None; ruleDocUrl := None;
     confidence := None; source := Some "AI"; tags := None; fixes := None |}.

(** ** Directory listings *)

(** What [readdir(..., { withFileTypes: true })] shows below a directory:
    plain entries, directories with their own listing, and directories
    whose listing cannot be read. *)
Inductive Dirent : Type :=
| FileEntry (entryName : string)
| Directory (entryName : string) (entries : list Dirent)
| Unreadable (entryName : string) (err : string).

Definition skippedDirectories : list string :=
  ["node_modules"; ".git"; "dist"; "build"; ".vscode"].

Definition walkerExtensions : list string :=
  [".js"; ".ts"; ".jsx"; ".tsx"; ".py"; ".java"; ".cpp"; ".c"; ".go"; ".rs"].

Section Service.
(** The host: [fs.promises.readFile], [path.extname], [path.join] and
    the language model behind [apiHandler], asked about a file's
    content for a language. *)
Variable readFile : string -> outcome string.
Variable extname : string -> string.
Variable join : string -> string -> string.
Variable complete : SupportedLanguage -> string -> Completion.

(** The instance field [thirdPartyProviders]. *)
Variable thirdPartyProviders : OrderedMap Provider.

Definition supportedLanguages : gmap string SupportedLanguage :=
  initializeSupportedLanguages.

(** [performAIAnalysis] never throws: every failure ends in [[]]. *)
Definition performAIAnalysis (content filePath : string)
           (language : SupportedLanguage) : list CodeIssue :=
  match complete language content with
  | IssuesArray raw => map (aiIssue filePath) raw
  | RequestFails | NotJSON | NoIssuesArray => []
  end.

(** [options.providers || Array.from(this.thirdPartyProviders.keys())] *)
Definition providersToUse (options : Options) : list string :=
  match providers options with
  | Some ids => ids
  | None => mapKeys thirdPartyProviders
  end.

(** One round of the provider loop: the state is the pair of arrays
    [thirdPartyResults] and [issues]. *)
Definition providerStep (filePath content : string) (options : Options)
           (acc : list ThirdPartyAnalysisResult * list CodeIssue)
           (providerId : string)
  : list ThirdPartyAnalysisResult * list CodeIssue :=
  match mapGet providerId thirdPartyProviders with
  | Some provider =>
      match provider_analyzeFile provider filePath content (analysisOptions options) with
      | Resolved result => (fst acc ++ [result], snd acc ++ tp_issues result)
      | Thrown _ => acc                  (* console.warn only *)
      end
  | None => acc
  end.

Definition isTruthy (b : option bool) : bool :=
  match b with Some true => true | _ => false end.

(** [analyzeFile].  Its outer [catch] shows the message in the editor and
    throws the error again; the error is kept here, what is shown and
    logged is in [Notices] below. *)
Definition analyzeFile (filePath : string) (options : option Options)
  : outcome CodeReviewResult :=
  match readFile filePath with
  | Thrown e => Thrown e
  | Resolved content =>
      let fileExtension := toLowerCase (extname filePath) in
      match supportedLanguages !! fileExtension with
      | None => Thrown ("Unsupported file type: " ++ fileExtension)
      | Some language =>
          let aiIssues := performAIAnalysis content filePath language in
          let '(results, found) :=
            match options with
            | Some o =>
                if isTruthy (enableThirdParty o)
                then fold_left (providerStep filePath content o)
                               (providersToUse o) ([], aiIssues)
                else ([], aiIssues)
            | None => ([], aiIssues)
            end in
          Resolved {| summary := generateSummary found;
                      issues := found;
                      metrics := Metrics.calculateMetrics content;
                      thirdPartyResults := results |}
      end
  end.

(** [findFiles]: the walk below [currentPath]. *)
Fixpoint scanEntry (currentPath : string) (entry : Dirent) : outcome (list string) :=
  match entry with
  | FileEntry entryName =>
      let extension := toLowerCase (extname entryName) in
      if arrayIncludes extension walkerExtensions
      then Resolved [join currentPath entryName] else Resolved []
  | Directory entryName entries =>
      if arrayIncludes entryName skippedDirectories then Resolved []
      else
        (fix scanAll (es : list Dirent) : outcome (list string) :=
           match es with
           | [] => Resolved []
           | e :: rest =>
               match scanEntry (join currentPath entryName) e with
               | Thrown m => Thrown m
               | Resolved files =>
                   match scanAll rest with
                   | Thrown m => Thrown m
                   | Resolved more => Resolved (files ++ more)
                   end
               end
           end) entries
  | Unreadable entryName err =>
      if arrayIncludes entryName skippedDirectories then Resolved [] else Thrown err
  end.

Fixpoint scanAll (currentPath : string) (es : list Dirent) : outcome (list string) :=
  match es with
  | [] => Resolved []
  | e :: rest =>
      match scanEntry currentPath e with
      | Thrown m => Thrown m
      | Resolved files =>
          match scanAll currentPath rest with
          | Thrown m => Thrown m
          | Resolved more => Resolved (files ++ more)
          end
      end
  end.

(** The listing of [dirPath] itself may fail too. *)
Definition findFiles (dirPath : string) (listing : outcome (list Dirent))
  : outcome (list string) :=
  match listing with
  | Thrown m => Thrown m
  | Resolved es => scanAll dirPath es
  end.

(** The accumulators of the loop in [analyzeDirectory]. *)
Record Totals : Type := {
  allIssues : list CodeIssue;
  allThirdPartyResults : list ThirdPartyAnalysisResult;
  totalLoc : nat;
  totalComplexity : nat
}.

Definition noTotals : Totals :=
  {| allIssues := []; allThirdPartyResults := []; totalLoc := 0; totalComplexity := 0 |}.

(** One round of the loop over the files found. *)
Definition directoryStep (options : option Options) (acc : Totals) (f : string) : Totals :=
  match analyzeFile f options with
  | Resolved result =>
      {| allIssues := allIssues acc ++ issues result;
         allThirdPartyResults := allThirdPartyResults acc ++ thirdPartyResults result;
         totalLoc := totalLoc acc + linesOfCode (metrics result);
         totalComplexity := totalComplexity acc + complexity (metrics result) |}
  | Thrown _ => acc                      (* console.warn only *)
  end.

(** The body of [analyzeDirectory] once [findFiles] has returned. *)
Definition analyzeFiles (files : list string) (options : option Options)
  : CodeReviewResult :=
  let t := fold_left (directoryStep options) files noTotals in
  {| summary := generateSummary (allIssues t);
     issues := allIssues t;
     metrics := {| linesOfCode := totalLoc t;
                   complexity := totalComplexity t;
                   maintainabilityIndex :=
                     Metrics.calculateMaintainabilityIndex
                       (totalLoc t) (totalComplexity t) (List.length (allIssues t)) |};
     thirdPartyResults := allThirdPartyResults t |}.

Definition analyzeDirectory (dirPath : string) (listing : outcome (list Dirent))
           (options : option Options) : outcome CodeReviewResult :=
  match findFiles dirPath listing with
  | Thrown m => Thrown m
  | Resolved files => Resolved (analyzeFiles files options)
  end.

End Service.

(** [registerProvider] *)
Definition registerProvider (p : Provider) (m : OrderedMap Provider) : OrderedMap Provider :=
  mapSet (provider_id p) p m.

End ReviewService.

(* ===================================================================== *)
(** * The review tool ([core/tools/codeReviewTool.ts]) *)
(* ===================================================================== *)

Module ReviewTool.
Import JS.

(** [mapLegacyIssueType] and [mapLegacySeverity] of the tool: a lookup in
    an object literal with a default.  Their results are of the declared
    enum types; a label that names a member of [Object.prototype], for
    which the lookup gives the inherited member, is not considered. *)
Definition mapLegacyIssueType (legacyType : string) : CodeReviewType :=
  if String.eqb legacyType "quality" then QUALITY
  else if String.eqb legacyType "security" then SECURITY
  else if String.eqb legacyType "performance" then PERFORMANCE
  else if String.eqb legacyType "style" then STYLE
  else if String.eqb legacyType "bug" then BUG
  else if String.eqb legacyType "maintainability" then MAINTAINABILITY
  else QUALITY.

Definition mapLegacySeverity (legacySeverity : string) : SeverityLevel :=
  if String.eqb legacySeverity "critical" then CRITICAL
  else if String.eqb legacySeverity "high" then HIGH
  else if String.eqb legacySeverity "medium" then MEDIUM
  else if String.eqb legacySeverity "low" then LOW
  else if String.eqb legacySeverity "info" then INFO
  else MEDIUM.

(** [arr.indexOf(x)]: the first index of [x], or -1. *)
Fixpoint indexOf {A : Type} `{EqDecision A} (x : A) (arr : list A) : Z :=
  match arr with
  | [] => (-1)%Z
  | y :: rest =>
      if bool_decide (y = x) then 0%Z
      else let i := indexOf x rest in
           if (i <? 0)%Z then (-1)%Z else (i + 1)%Z
  end.

Definition severityLevels : list SeverityLevel := [INFO; LOW; MEDIUM; HIGH; CRITICAL].

(** [mappedIssueTypes.includes(issue.type)] *)
Definition typeAllowed (mappedIssueTypes : list CodeReviewType) (i : CodeIssue) : bool :=
  existsb (fun t => bool_decide (t = type i)) mappedIssueTypes.

Definition filterIssues (issues : list CodeIssue) (severityFilter : string)
           (issueTypes : list string) : list CodeIssue :=
  let mappedIssueTypes := map mapLegacyIssueType issueTypes in
  let filtered := List.filter (typeAllowed mappedIssueTypes) issues in
  if negb (String.eqb severityFilter "all") then
    let minLevel := indexOf (mapLegacySeverity severityFilter) severityLevels in
    List.filter (fun i => (minLevel <=? indexOf (severity i) severityLevels)%Z) filtered
  else filtered.

(** The [filteredResult] of [executeCodeReview]: the service's result
    with its issues and the five summary counts replaced. *)
Definition filteredResult (result : ReviewService.CodeReviewResult)
           (severityFilter : string) (issueTypes : list string)
  : ReviewService.CodeReviewResult :=
  let filteredIssues := filterIssues (ReviewService.issues result) severityFilter issueTypes in
  {| ReviewService.summary :=
       {| totalIssues := List.length filteredIssues;
          criticalIssues := countIf (hasSeverity CRITICAL) filteredIssues;
          highIssues := countIf (hasSeverity HIGH) filteredIssues;
          mediumIssues := countIf (hasSeverity MEDIUM) filteredIssues;
          lowIssues := countIf (hasSeverity LOW) filteredIssues |};
     ReviewService.issues := filteredIssues;
     ReviewService.metrics := ReviewService.metrics result;
     ReviewService.thirdPartyResults := ReviewService.thirdPartyResults result |}.

Definition defaultIssueTypes : list string :=
  ["quality"; "security"; "performance"; "style"].

End ReviewTool.

(* ===================================================================== *)
(** * Provider configuration ([third-party-providers.config.ts]) *)
(* ===================================================================== *)

Module ProviderConfig.
Import JS.

(** [interface ThirdPartyProviderConfig].  The two numbers that the
    validators read are any JavaScript number; the rate limits are only
    stored. *)
Record ThirdPartyProviderConfig : Type := {
  apiKey : option string;
  endpoint : option string;
  timeout : option JSNumber;
  retryAttempts : option JSNumber;
  customHeaders : option (list (string * string));
  rateLimits : option (Z * Z)
}.

(** The part of [ProviderConfigTemplate] that validation reads. *)
Record ProviderConfigTemplate : Type := {
  templateName : string;
  requiredConfig : list string;
  optionalConfig : list string
}.

Definition PROVIDER_TEMPLATES : list (string * ProviderConfigTemplate) :=
  [ ("sonarqube",
     {| templateName := "SonarQube";
        requiredConfig := ["endpoint"; "apiKey"];
        optionalConfig := ["timeout"; "retryAttempts"; "customHeaders"; "projectKey"] |});
    ("codeclimate",
     {| templateName := "CodeClimate";
        requiredConfig := ["apiKey"];
        optionalConfig := ["timeout"; "retryAttempts"; "repoId"] |});
    ("eslint",
     {| templateName := "ESLint";
        requiredConfig := [];
        optionalConfig := ["configPath"; "rulesDir"; "extensions"] |});
    ("semgrep",
     {| templateName := "Semgrep";
        requiredConfig := ["apiKey"];
        optionalConfig := ["timeout"; "rules"; "configPath"] |});
    ("codeql",
     {| templateName := "CodeQL";
        requiredConfig := ["apiKey"; "endpoint"];
        optionalConfig := ["timeout"; "database"; "queries"] |}) ].

(** Names that every object literal inherits from [Object.prototype]:
    [PROVIDER_TEMPLATES[id]] is a truthy value for them, though not a
    template. *)
Definition objectPrototypeKeys : list string :=
  ["constructor"; "hasOwnProperty"; "isPrototypeOf"; "propertyIsEnumerable";
   "toLocaleString"; "toString"; "valueOf"; "__proto__";
   "__defineGetter__"; "__defineSetter__"; "__lookupGetter__"; "__lookupSetter__"].

Inductive TemplateLookup : Type :=
| OwnTemplate (t : ProviderConfigTemplate)
| Inherited
| Undefined.

(** [PROVIDER_TEMPLATES[providerId]] *)
Definition lookupTemplate (providerId : string) : TemplateLookup :=
  match ReviewService.mapGet providerId PROVIDER_TEMPLATES with
  | Some t => OwnTemplate t
  | None => if arrayIncludes providerId objectPrototypeKeys then Inherited else Undefined
  end.

(** [(required in config) && config[required]] is truthy. *)
Definition hasValue (config : ThirdPartyProviderConfig) (key : string) : bool :=
  if String.eqb key "apiKey" then
    match apiKey config with Some s => negb (String.eqb s "") | None => false end
  else if String.eqb key "endpoint" then
    match endpoint config with Some s => negb (String.eqb s "") | None => false end
  else if String.eqb key "timeout" then
    match timeout config with Some n => Number.truthy n | None => false end
  else if String.eqb key "retryAttempts" then
    match retryAttempts config with Some n => Number.truthy n | None => false end
  else if String.eqb key "customHeaders" then
    match customHeaders config with Some _ => true | None => false end
  else if String.eqb key "rateLimits" then
    match rateLimits config with Some _ => true | None => false end
  else false.

Record Validation : Type := {
  isValid : bool;
  errors : list string
}.

Definition isEmpty {A : Type} (l : list A) : bool :=
  match l with [] => true | _ => false end.

Section Validator.
(** Whether [new URL(s)] returns rather than throws. *)
Variable parsesAsURL : string -> bool.

Definition requiredErrors (t : ProviderConfigTemplate)
           (config : ThirdPartyProviderConfig) : list string :=
  flat_map (fun required =>
              if negb (hasValue config required)
              then [("Missing required configuration: " ++ required)%string] else [])
           (requiredConfig t).

Definition endpointErrors (config : ThirdPartyProviderConfig) : list string :=
  match endpoint config with
  | Some e =>
      if negb (String.eqb e "") && negb (parsesAsURL e)
      then ["Invalid endpoint URL format"] else []
  | None => []
  end.

(** [config.timeout && (...)]: a timeout of 0 or [NaN] is falsy and goes
    unchecked. *)
Definition timeoutErrors (config : ThirdPartyProviderConfig) : list string :=
  match timeout config with
  | Some n =>
      if Number.truthy n && (Number.lessThan n 1000 || Number.greaterThan n 300000)
      then ["Timeout must be between 1000ms and 300000ms"] else []
  | None => []
  end.

Definition retryErrors (config : ThirdPartyProviderConfig) : list string :=
  match retryAttempts config with
  | Some n =>
      if Number.truthy n && (Number.lessThan n 0 || Number.greaterThan n 10)
      then ["Retry attempts must be between 0 and 10"] else []
  | None => []
  end.

(** [ConfigValidator.validateProviderConfig].  For an inherited key the
    loop over [template.requiredConfig], which is undefined, throws. *)
Definition validateProviderConfig (providerId : string)
           (config : ThirdPartyProviderConfig) : outcome Validation :=
  match lookupTemplate providerId with
  | Undefined =>
      Resolved {| isValid := false; errors := [("Unknown provider: " ++ providerId)%string] |}
  | Inherited => Thrown "template.requiredConfig is not iterable"
  | OwnTemplate t =>
      let errs := requiredErrors t config ++ endpointErrors config
                  ++ timeoutErrors config ++ retryErrors config in
      Resolved {| isValid := isEmpty errs; errors := errs |}
  end.

(** The fields of [ThirdPartyProvidersSettingsManager].  The map of the
    code holds the objects it was given; here it holds their values at
    the time of the call, and a caller that changes an object later is
    not followed. *)
Record Settings : Type := {
  providers : gmap string ThirdPartyProviderConfig;
  enabledProviders : gset string
}.

(** [setProviderConfig]: the outcome and the fields afterwards;
    [saveToSettings] does nothing. *)
Definition setProviderConfig (st : Settings) (providerId : string)
           (config : ThirdPartyProviderConfig) : outcome unit * Settings :=
  match validateProviderConfig providerId config with
  | Thrown e => (Thrown e, st)
  | Resolved validation =>
      if negb (isValid validation) then
        (Thrown ("Configuration validation failed: " ++ join ", " (errors validation)), st)
      else
        (Resolved tt,
         {| providers := <[providerId := config]> (providers st);
            enabledProviders := enabledProviders st |})
  end.

(** [getProviderConfig] *)
Definition getProviderConfig (st : Settings) (providerId : string)
  : option ThirdPartyProviderConfig :=
  providers st !! providerId.

End Validator.

(** Whether [SettingsUIHelpers.validateConfigField] reports an error for
    the [timeout] field, which no template requires:
    [value !== undefined && (isNaN(value) || value < 1000 || value > 300000)]. *)
Definition timeoutFieldRejected (value : option JSNumber) : bool :=
  match value with
  | Some n => Number.isNaN n || Number.lessThan n 1000 || Number.greaterThan n 300000
  | None => false
  end.

End ProviderConfig.

(* ===================================================================== *)
(** * Host functions used in the examples *)
(* ===================================================================== *)

Module Node.
Import JS.

(** The state of the backwards scan in [path.extname] (POSIX). *)
Record ExtScan : Type := {
  startDot : option nat;
  startPart : nat;
  endAt : option nat;
  matchedSlash : bool;
  preDotState : Z
}.

(** [rest] are the characters before index [length rest], last first. *)
Fixpoint extScan (chars : list ascii) (st : ExtScan) : ExtScan :=
  match chars with
  | [] => st
  | c :: rest =>
      let i := List.length rest in
      if Ascii.eqb c "/" then
        if negb (matchedSlash st) then
          {| startDot := startDot st; startPart := i + 1; endAt := endAt st;
             matchedSlash := matchedSlash st; preDotState := preDotState st |}
        else extScan rest st
      else
        let st1 :=
          match endAt st with
          | None => {| startDot := startDot st; startPart := startPart st;
                       endAt := Some (i + 1); matchedSlash := false;
                       preDotState := preDotState st |}
          | Some _ => st
          end in
        let st2 :=
          if Ascii.eqb c "." then
            match startDot st1 with
            | None => {| startDot := Some i; startPart := startPart st1;
                         endAt := endAt st1; matchedSlash := matchedSlash st1;
                         preDotState := preDotState st1 |}
            | Some _ => {| startDot := startDot st1; startPart := startPart st1;
                           endAt := endAt st1; matchedSlash := matchedSlash st1;
                           preDotState := 1 |}
            end
          else
            match startDot st1 with
            | Some _ => {| startDot := startDot st1; startPart := startPart st1;
                           endAt := endAt st1; matchedSlash := matchedSlash st1;
                           preDotState := (-1) |}
            | None => st1
            end in
        extScan rest st2
  end.

(** [path.extname] of Node.js, POSIX flavour. *)
Definition extname (p : string) : string :=
  let st := extScan (rev (list_ascii_of_string p))
              {| startDot := None; startPart := 0; endAt := None;
                 matchedSlash := true; preDotState := 0 |} in
  match startDot st, endAt st with
  | Some d, Some e =>
      if (preDotState st =? 0)%Z
         || ((preDotState st =? 1)%Z && (d =? e - 1) && (d =? startPart st + 1))
      then ""
      else substring d (e - d) p
  | _, _ => ""
  end.

(** [path.join] on a normalised directory and a plain entry name. *)
Definition join (dir entry : string) : string :=
  if String.eqb dir "/" then "/" ++ entry else dir ++ "/" ++ entry.

(** A stand-in for [new URL(s)] that decides by the scheme alone: a
    letter, then letters, digits, [+], [-] or [.], then a colon. *)
Fixpoint schemeRest (s : string) : bool :=
  match s with
  | EmptyString => false
  | String c s' =>
      if Ascii.eqb c ":" then true
      else if isUpper c || isLower c || isDigit c
              || Ascii.eqb c "+" || Ascii.eqb c "-" || Ascii.eqb c "."
      then schemeRest s' else false
  end.

Definition hasScheme (s : string) : bool :=
  match s with
  | EmptyString => false
  | String c s' => (isUpper c || isLower c) && schemeRest s'
  end.

(** A file system with the given files and nothing else. *)
Definition readFileFrom (files : list (string * string)) (p : string) : outcome string :=
  match ReviewService.mapGet p files with
  | Some content => Resolved content
  | None => Thrown ("ENOENT: no such file or directory, open '" ++ p ++ "'")
  end.

End Node.

(* ===================================================================== *)
(** * Vocabulary of the statements *)
(* ===================================================================== *)

Module Spec.
Import JS.

(** The number of places in [s] where [kw] occurs as a substring. *)
Fixpoint occurrences (kw s : string) : nat :=
  (if startsWith kw s then 1 else 0) +
  match s with
  | EmptyString => 0
  | String _ s' => occurrences kw s'
  end.

(** Occurrences of all complexity keywords together. *)
Definition keywordOccurrences (content : string) : nat :=
  list_sum (map (fun kw => occurrences kw content) Metrics.complexityKeywords).

(** The words of [content.split(/\s+/)] that are a complexity keyword. *)
Definition keywordWords (content : string) : nat :=
  countIf (fun w => arrayIncludes w Metrics.complexityKeywords) (splitWhiteSpace content).

(** The aggregate index as the per-file formula less two points per
    issue: [max(0, round(171 - 5.2 ln L - 0.23 C) - 2 N)]. *)
Definition perFileFormulaWithPenalty (L C N : nat) : Z :=
  Z.max 0 (Metrics.Math_round (171 - 5.2 * ln (INR L) - 0.23 * INR C) - 2 * Z.of_nat N).

(** The same with the second logarithmic term of the directory formula:
    [max(0, round(171 - 5.2 ln L - 0.23 C - 16.2 ln L) - 2 N)]. *)
Definition directoryFormula (L C N : nat) : Z :=
  Z.max 0 (Metrics.Math_round (171 - 5.2 * ln (INR L) - 0.23 * INR C - 16.2 * ln (INR L))
           - 2 * Z.of_nat N).

(** The line of the hard-coded secret scenario. *)
Definition apiKeyLine : string :=
  "const apiKey = " ++ String dquote ("sk-1234567890" ++ String dquote "").

(** An issue as the scenario describes it, up to the [source]. *)
Definition isHardcodedSecret (i : CodeIssue) : Prop :=
  type i = SECURITY /\ severity i = CRITICAL /\ ruleId i = Some "hardcoded-secrets".

(** The issue that the hard-coded secret rule pushes. *)
Definition secretIssue (filePath : string) (lineNumber : nat) : CodeIssue :=
  HeuristicService.issue SECURITY CRITICAL
    "Hardcoded secret detected. Secrets should be stored in environment variables."
    filePath lineNumber
    "Move secrets to environment variables or secure configuration"
    "hardcoded-secrets".

Definition supportedByAnalyzeFile : list string :=
  [".js"; ".jsx"; ".ts"; ".tsx"; ".py"; ".java"; ".go"; ".rs"].

Section Providers.
Import ReviewService.
Variable registry : OrderedMap Provider.
Variables filePath content : string.
Variable options : Options.

(** What one provider id contributes to [thirdPartyResults]: the result
    of a registered provider that resolves, nothing otherwise. *)
Definition attempt (providerId : string) : list ThirdPartyAnalysisResult :=
  match mapGet providerId registry with
  | Some p =>
      match provider_analyzeFile p filePath content (analysisOptions options) with
      | Resolved result => [result]
      | Thrown _ => []
      end
  | None => []
  end.

Definition successes (ids : list string) : list ThirdPartyAnalysisResult :=
  flat_map attempt ids.

Definition isRegistered (providerId : string) : bool :=
  match mapGet providerId registry with Some _ => true | None => false end.

(** A registered provider whose [analyzeFile] throws. *)
Definition fails (providerId : string) : bool :=
  match mapGet providerId registry with
  | Some p =>
      match provider_analyzeFile p filePath content (analysisOptions options) with
      | Resolved _ => false
      | Thrown _ => true
      end
  | None => false
  end.

(** The issues one provider id contributes to the merged list. *)
Definition contribution (providerId : string) : list CodeIssue :=
  flat_map tp_issues (attempt providerId).
End Providers.

(** The providers a run goes through, in this order. *)
Definition runOrder (registry : ReviewService.OrderedMap ReviewService.Provider)
           (options : option ReviewService.Options) : list string :=
  match options with
  | Some o =>
      if ReviewService.isTruthy (ReviewService.enableThirdParty o) then
        match ReviewService.providers o with
        | Some ids => ids
        | None => ReviewService.mapKeys registry
        end
      else []
  | None => []
  end.

Definition optionsOrDefault (options : option ReviewService.Options) : ReviewService.Options :=
  match options with
  | Some o => o
  | None => {| ReviewService.enableThirdParty := None;
               ReviewService.providers := None;
               ReviewService.analysisOptions := None |}
  end.

End Spec.

(* ===================================================================== *)
(** * Concrete inputs used by the examples *)
(* ===================================================================== *)

Module Fixtures.
Import JS ReviewService.

(** Two lines of code without any keyword. *)
Definition twoLines : string := "a" ++ String newline "b".

Definition workspace : list (string * string) :=
  [ ("/w/a.ts", "let x = 1");
    ("/w/two.ts", twoLines);
    ("/w/pad.js", "x ");
    ("/w/key.js", Spec.apiKeyLine);
    ("/w/main.c", "int main() { return 0; }") ].

Definition readFile : string -> outcome string := Node.readFileFrom workspace.

(** A language model that answers without an issues array. *)
Definition quiet : SupportedLanguage -> string -> Completion :=
  fun _ _ => NoIssuesArray.

Definition noStatistics : AnalysisStatistics :=
  {| totalLines := 0; codeLines := 0; commentLines := 0; blankLines := 0;
     stat_complexity := 0; stat_maintainabilityIndex := 0;
     issuesByType := fun _ => 0; issuesBySeverity := fun _ => 0 |}.

Definition reported (providerName filePath msg : string) (sev : SeverityLevel) : CodeIssue :=
  {| id := None; type := QUALITY; severity := sev; category := None;
     file := filePath; line := 1; column := None; endLine := None; endColumn := None;
     message := msg; description := None; suggestion := None;
     ruleId := None; ruleName := None; ruleDocUrl := None;
     confidence := None; source := Some providerName; tags := None; fixes := None |}.

(** A provider that reports one issue of the given severity. *)
Definition reporting (providerName : string) (sev : SeverityLevel) : Provider :=
  {| provider_id := providerName;
     provider_analyzeFile := fun filePath _ _ =>
       Resolved {| providerId := providerName; providerVersion := "1.0.0";
                   analysisId := "analysis_1"; timestamp := "2025-01-01T00:00:00.000Z";
                   processingTime := 0;
                   tp_issues := [reported providerName filePath "finding" sev];
                   statistics := noStatistics; suggestions := [] |} |}.

(** A provider whose request times out. *)
Definition timingOut (providerName : string) : Provider :=
  {| provider_id := providerName;
     provider_analyzeFile := fun _ _ _ => Thrown "Request timed out" |}.

(** Three registered providers; the second fails. *)
Definition threeProviders : OrderedMap Provider :=
  registerProvider (reporting "gamma" LOW)
    (registerProvider (timingOut "beta")
       (registerProvider (reporting "alpha" HIGH) [])).

Definition infoProvider : OrderedMap Provider :=
  registerProvider (reporting "lint" INFO) [].

Definition withThirdParty : Options :=
  {| enableThirdParty := Some true; providers := None; analysisOptions := None |}.

Definition sonarqubeBadEndpoint : ProviderConfig.ThirdPartyProviderConfig :=
  {| ProviderConfig.apiKey := Some "squ_0123456789abcdef";
     ProviderConfig.endpoint := Some "not a url";
     ProviderConfig.timeout := None; ProviderConfig.retryAttempts := None;
     ProviderConfig.customHeaders := None; ProviderConfig.rateLimits := None |}.

Definition onlyBadEndpoint : ProviderConfig.ThirdPartyProviderConfig :=
  {| ProviderConfig.apiKey := None;
     ProviderConfig.endpoint := Some "not a url";
     ProviderConfig.timeout := None; ProviderConfig.retryAttempts := None;
     ProviderConfig.customHeaders := None; ProviderConfig.rateLimits := None |}.

Definition zeroTimeout : ProviderConfig.ThirdPartyProviderConfig :=
  {| ProviderConfig.apiKey := None; ProviderConfig.endpoint := None;
     ProviderConfig.timeout := Some (Number.integer 0); ProviderConfig.retryAttempts := None;
     ProviderConfig.customHeaders := None; ProviderConfig.rateLimits := None |}.

Definition noSettings : ProviderConfig.Settings :=
  {| ProviderConfig.providers := ∅; ProviderConfig.enabledProviders := ∅ |}.

End Fixtures.

(* ===================================================================== *)
(** * The settings manager and the other validators *)
(* ===================================================================== *)

Module SettingsManager.
Import JS ProviderConfig.

(** The argument of [importConfig] and the value of [exportConfig]: the
    entries of the [providers] object and the array of enabled ids. *)
Record ConfigBundle : Type := {
  bundleProviders : list (string * ThirdPartyProviderConfig);
  bundleEnabled : list string
}.

(** [removeProviderConfig] *)
Definition removeProviderConfig (st : Settings) (providerId : string)
  : outcome unit * Settings :=
  (Resolved tt,
   {| providers := delete providerId (providers st);
      enabledProviders := enabledProviders st ∖ {[providerId]} |}).

(** [enableProvider] *)
Definition enableProvider (st : Settings) (providerId : string)
  : outcome unit * Settings :=
  match providers st !! providerId with
  | None => (Thrown ("Provider " ++ providerId ++ " is not configured"), st)
  | Some _ =>
      (Resolved tt,
       {| providers := providers st;
          enabledProviders := {[providerId]} ∪ enabledProviders st |})
  end.

(** [disableProvider] *)
Definition disableProvider (st : Settings) (providerId : string)
  : outcome unit * Settings :=
  (Resolved tt,
   {| providers := providers st;
      enabledProviders := enabledProviders st ∖ {[providerId]} |}).

(** [isProviderEnabled] *)
Definition isProviderEnabled (st : Settings) (providerId : string) : bool :=
  bool_decide (providerId ∈ enabledProviders st).

(** [exportConfig]: the entries of the map and the members of the set, in
    the order the containers hold them. *)
Definition exportConfig (st : Settings) : ConfigBundle :=
  {| bundleProviders := map_to_list (providers st);
     bundleEnabled := elements (enabledProviders st) |}.

Section Calls.
Variable parsesAsURL : string -> bool.

(** The first loop of [importConfig]: every entry is validated, and the
    first that fails ends the call. *)
Fixpoint validateEntries (entries : list (string * ThirdPartyProviderConfig))
  : outcome unit :=
  match entries with
  | [] => Resolved tt
  | (providerId, providerConfig) :: rest =>
      match validateProviderConfig parsesAsURL providerId providerConfig with
      | Thrown e => Thrown e
      | Resolved validation =>
          if negb (isValid validation) then
            Thrown ("Invalid configuration for " ++ providerId ++ ": "
                    ++ join ", " (errors validation))
          else validateEntries rest
      end
  end.

(** [this.providers.set] for every entry, starting from the cleared map. *)
Definition setEntries (entries : list (string * ThirdPartyProviderConfig))
  : gmap string ThirdPartyProviderConfig :=
  fold_left (fun m entry => <[fst entry := snd entry]> m) entries ∅.

(** The enabled ids that have a configuration are added to the cleared
    set. *)
Definition addEnabled (configured : gmap string ThirdPartyProviderConfig)
           (ids : list string) : gset string :=
  fold_left (fun s providerId =>
               match configured !! providerId with
               | Some _ => {[providerId]} ∪ s
               | None => s
               end) ids ∅.

(** [importConfig] *)
Definition importConfig (st : Settings) (config : ConfigBundle)
  : outcome unit * Settings :=
  match validateEntries (bundleProviders config) with
  | Thrown e => (Thrown e, st)
  | Resolved _ =>
      let configured := setEntries (bundleProviders config) in
      (Resolved tt,
       {| providers := configured;
          enabledProviders := addEnabled configured (bundleEnabled config) |})
  end.

(** The calls that change the settings. *)
Inductive Command : Type :=
| SetProviderConfig (providerId : string) (config : ThirdPartyProviderConfig)
| RemoveProviderConfig (providerId : string)
| EnableProvider (providerId : string)
| DisableProvider (providerId : string)
| ImportConfig (config : ConfigBundle).

Definition execute (st : Settings) (c : Command) : outcome unit * Settings :=
  match c with
  | SetProviderConfig providerId config => setProviderConfig parsesAsURL st providerId config
  | RemoveProviderConfig providerId => removeProviderConfig st providerId
  | EnableProvider providerId => enableProvider st providerId
  | DisableProvider providerId => disableProvider st providerId
  | ImportConfig config => importConfig st config
  end.

(** The settings after a series of calls, whether they succeed or not,
    on a manager that starts empty. *)
Definition afterCalls (cs : list Command) : Settings :=
  fold_left (fun st c => snd (execute st c)) cs
            {| providers := ∅; enabledProviders := ∅ |}.

(** What [SettingsUIHelpers.validateConfigField] can object to; the
    messages themselves are Chinese texts. *)
Inductive FieldProblem : Type :=
| UnknownProviderProblem          (* "未知的提供商" *)
| RequiredFieldProblem            (* "此字段为必需字段" *)
| UrlFormatProblem                (* "请输入有效的URL格式" *)
| TimeoutRangeProblem             (* "超时时间必须在1000-300000毫秒之间" *)
| RetryRangeProblem               (* "重试次数必须在0-10之间" *)
| ShortKeyProblem.                (* "API密钥长度似乎过短，请检查" *)

(** [SettingsUIHelpers.validateConfigField(providerId, fieldName, value)]
    where [value] is the member [fieldName] of [config]: [None] stands for
    the returned [null]. *)
Definition validateConfigField (providerId fieldName : string)
           (config : ThirdPartyProviderConfig) : outcome (option FieldProblem) :=
  match lookupTemplate providerId with
  | Undefined => Resolved (Some UnknownProviderProblem)
  | Inherited => Thrown "Cannot read properties of undefined (reading 'includes')"
  | OwnTemplate t =>
      if arrayIncludes fieldName (requiredConfig t) && negb (hasValue config fieldName)
      then Resolved (Some RequiredFieldProblem)
      else if String.eqb fieldName "endpoint" then
        match endpoint config with
        | Some e => if negb (String.eqb e "") && negb (parsesAsURL e)
                    then Resolved (Some UrlFormatProblem) else Resolved None
        | None => Resolved None
        end
      else if String.eqb fieldName "timeout" then
        match timeout config with
        | Some n => if Number.isNaN n || Number.lessThan n 1000 || Number.greaterThan n 300000
                    then Resolved (Some TimeoutRangeProblem) else Resolved None
        | None => Resolved None
        end
      else if String.eqb fieldName "retryAttempts" then
        match retryAttempts config with
        | Some n => if Number.isNaN n || Number.lessThan n 0 || Number.greaterThan n 10
                    then Resolved (Some RetryRangeProblem) else Resolved None
        | None => Resolved None
        end
      else if String.eqb fieldName "apiKey" then
        match apiKey config with
        | Some k => if negb (String.eqb k "") && (String.length k <? 10)
                    then Resolved (Some ShortKeyProblem) else Resolved None
        | None => Resolved None
        end
      else Resolved None
  end.

End Calls.

(** [BaseThirdPartyProvider.validateConfig]: the first required key
    without a value ends the call. *)
Fixpoint validateConfig (required : list string) (config : ThirdPartyProviderConfig)
  : outcome unit :=
  match required with
  | [] => Resolved tt
  | key :: rest =>
      if negb (hasValue config key)
      then Thrown ("Missing required configuration: " ++ key)
      else validateConfig rest config
  end.

(** The [configExample] member of each template. *)
Definition configExamples : list (string * ThirdPartyProviderConfig) :=
  [ ("sonarqube",
     {| apiKey := Some "your-sonarqube-token";
        endpoint := Some "https://sonarqube.example.com";
        timeout := Some (Number.integer 30000); retryAttempts := Some (Number.integer 3);
        customHeaders := Some [("X-Project-Key", "your-project-key")];
        rateLimits := None |});
    ("codeclimate",
     {| apiKey := Some "your-codeclimate-token"; endpoint := None;
        timeout := Some (Number.integer 30000); retryAttempts := Some (Number.integer 3);
        customHeaders := Some [("Content-Type", "application/vnd.api+json")];
        rateLimits := None |});
    ("eslint",
     {| apiKey := None; endpoint := None;
        timeout := Some (Number.integer 10000); retryAttempts := None;
        customHeaders := Some []; rateLimits := None |});
    ("semgrep",
     {| apiKey := Some "your-semgrep-token";
        endpoint := Some "https://semgrep.dev/api/v1";
        timeout := Some (Number.integer 60000); retryAttempts := Some (Number.integer 2);
        customHeaders := None; rateLimits := None |});
    ("codeql",
     {| apiKey := Some "your-github-token";
        endpoint := Some "https://api.github.com";
        timeout := Some (Number.integer 120000); retryAttempts := Some (Number.integer 2);
        customHeaders := Some [("Accept", "application/vnd.github.v3+json")];
        rateLimits := None |}) ].

(** [ConfigValidator.generateConfigExample] and
    [SettingsUIHelpers.generateDefaultConfig]: a copy of the example, or
    [null]. *)
Definition generateDefaultConfig (providerId : string) : option ThirdPartyProviderConfig :=
  match lookupTemplate providerId with
  | OwnTemplate _ => ReviewService.mapGet providerId configExamples
  | Inherited =>
      Some {| apiKey := None; endpoint := None; timeout := None; retryAttempts := None;
              customHeaders := None; rateLimits := None |}
  | Undefined => None
  end.

(** An enabled provider has a configuration. *)
Definition enabledAreConfigured (st : Settings) : Prop :=
  forall providerId, providerId ∈ enabledProviders st -> is_Some (providers st !! providerId).

(** Every stored configuration passes the validator. *)
Definition allValid (parsesAsURL : string -> bool) (st : Settings) : Prop :=
  forall providerId config,
    providers st !! providerId = Some config ->
    validateProviderConfig parsesAsURL providerId config
    = Resolved {| isValid := true; errors := [] |}.

(** What a stored configuration looks like. *)
Definition withinBounds (parsesAsURL : string -> bool) (t : ProviderConfigTemplate)
           (config : ThirdPartyProviderConfig) : Prop :=
  (forall key, In key (requiredConfig t) -> hasValue config key = true)
  /\ (forall e, endpoint config = Some e -> e = "" \/ parsesAsURL e = true)
  /\ (forall n, timeout config = Some n ->
        Number.truthy n = false \/ Number.within 1000 300000 n)
  /\ (forall n, retryAttempts config = Some n ->
        Number.truthy n = false \/ Number.within 0 10 n).

End SettingsManager.

Module ManagerFixtures.
Import ProviderConfig SettingsManager.

Definition eslintConfig : ThirdPartyProviderConfig :=
  {| apiKey := None; endpoint := None; timeout := Some (Number.integer 10000); retryAttempts := None;
     customHeaders := None; rateLimits := None |}.

Definition semgrepConfig : ThirdPartyProviderConfig :=
  {| apiKey := Some "sgp_0123456789"; endpoint := Some "https://semgrep.dev/api/v1";
     timeout := Some (Number.integer 60000); retryAttempts := Some (Number.integer 2);
     customHeaders := None; rateLimits := None |}.

(** A session: one accepted configuration, one rejected, two enablings and
    a removal of something that is not there. *)
Definition session : list Command :=
  [ SetProviderConfig "eslint" eslintConfig;
    SetProviderConfig "vendorX" Fixtures.onlyBadEndpoint;
    EnableProvider "eslint";
    EnableProvider "vendorX";
    RemoveProviderConfig "codeql" ].

Definition eslintOnly : Settings :=
  {| providers := {[ "eslint" := eslintConfig ]}; enabledProviders := {[ "eslint" ]} |}.

Definition twoProviders : ConfigBundle :=
  {| bundleProviders := [("eslint", eslintConfig); ("semgrep", semgrepConfig)];
     bundleEnabled := ["semgrep"; "codeql"] |}.

End ManagerFixtures.

(* ===================================================================== *)
(** * The SonarQube provider of the provider-aware service *)
(* ===================================================================== *)

Module SonarQube.
Import JS.

Definition providerId : string := "sonarqube".
Definition version : string := "1.0.0".

(** One element of [response.issues] with the members that
    [transformSonarQubeResponse] reads, typed as the SonarQube API sends
    them; [line] and [column] may be absent. *)
Record SonarIssue : Type := {
  key : option string;
  sonarType : string;
  sonarSeverity : string;
  component : string;
  sonarLine : option nat;
  sonarColumn : option nat;
  sonarMessage : string;
  rule : option string
}.

(** The JSON answer of the search request; [issues] may be absent. *)
Record Response : Type := {
  responseIssues : option (list SonarIssue)
}.

(** [mapSonarQubeType] and [mapSonarQubeSeverity]: a lookup in an object
    literal with a default.  A label that names a member of
    [Object.prototype] is not considered. *)
Definition mapSonarQubeType (sonarType : string) : CodeReviewType :=
  if String.eqb sonarType "BUG" then BUG
  else if String.eqb sonarType "VULNERABILITY" then SECURITY
  else if String.eqb sonarType "CODE_SMELL" then QUALITY
  else if String.eqb sonarType "SECURITY_HOTSPOT" then SECURITY
  else QUALITY.

Definition mapSonarQubeSeverity (sonarSeverity : string) : SeverityLevel :=
  if String.eqb sonarSeverity "BLOCKER" then CRITICAL
  else if String.eqb sonarSeverity "CRITICAL" then CRITICAL
  else if String.eqb sonarSeverity "MAJOR" then HIGH
  else if String.eqb sonarSeverity "MINOR" then MEDIUM
  else if String.eqb sonarSeverity "INFO" then LOW
  else MEDIUM.

(** [issue.line || 1] *)
Definition lineOrOne (l : option nat) : nat :=
  match l with
  | Some (S n) => S n
  | Some 0 | None => 1
  end.

(** The object literal inside [response.issues?.map(...)]. *)
Definition transformIssue (issue : SonarIssue) : CodeIssue :=
  {| id := key issue;
     type := mapSonarQubeType (sonarType issue);
     severity := mapSonarQubeSeverity (sonarSeverity issue);
     category := None;
     file := component issue;
     line := lineOrOne (sonarLine issue);
     column := sonarColumn issue;
     endLine := None; endColumn := None;
     message := sonarMessage issue;
     description := None; suggestion := None;
     ruleId := rule issue; ruleName := None; ruleDocUrl := None;
     confidence := None; source := Some providerId; tags := None; fixes := None |}.

(** [calculateStatistics]: one count for each member of the two enums. *)
Definition calculateStatistics (issues : list CodeIssue) : ReviewService.AnalysisStatistics :=
  {| ReviewService.totalLines := 0;
     ReviewService.codeLines := 0;
     ReviewService.commentLines := 0;
     ReviewService.blankLines := 0;
     ReviewService.stat_complexity := 0;
     ReviewService.stat_maintainabilityIndex := 0;
     ReviewService.issuesByType :=
       fun t => countIf (fun issue => bool_decide (type issue = t)) issues;
     ReviewService.issuesBySeverity :=
       fun s => countIf (fun issue => bool_decide (severity issue = s)) issues |}.

(** A reading of the clock: [Date.now()] and [new Date().toISOString()]. *)
Record Clock : Type := {
  millis : nat;
  iso : string
}.

(** [transformSonarQubeResponse] *)
Definition transformSonarQubeResponse (clock : Clock) (response : Response)
  : ReviewService.ThirdPartyAnalysisResult :=
  let issues :=
    match responseIssues response with
    | Some raw => map transformIssue raw
    | None => []
    end in
  {| ReviewService.providerId := providerId;
     ReviewService.providerVersion := version;
     ReviewService.analysisId := "analysis_" ++ showNat (millis clock);
     ReviewService.timestamp := iso clock;
     ReviewService.processingTime := 0;
     ReviewService.tp_issues := issues;
     ReviewService.statistics := calculateStatistics issues;
     ReviewService.suggestions := [] |}.

(** The accumulator of [calculateOverallStatistics]: its two maps start
    as empty objects, so a count may be unset. *)
Record OverallStatistics : Type := {
  overallTotalLines : nat;
  overallCodeLines : nat;
  overallCommentLines : nat;
  overallBlankLines : nat;
  overallComplexity : nat;
  overallMaintainabilityIndex : nat;
  overallByType : CodeReviewType -> option nat;
  overallBySeverity : SeverityLevel -> option nat
}.

Definition noOverallStatistics : OverallStatistics :=
  {| overallTotalLines := 0; overallCodeLines := 0; overallCommentLines := 0;
     overallBlankLines := 0; overallComplexity := 0; overallMaintainabilityIndex := 0;
     overallByType := fun _ => None; overallBySeverity := fun _ => None |}.

(** [x || 0] *)
Definition orZero (x : option nat) : nat :=
  match x with Some n => n | None => 0 end.

(** The callback of the [reduce]. *)
Definition addStatistics (acc : OverallStatistics)
           (result : ReviewService.ThirdPartyAnalysisResult) : OverallStatistics :=
  let st := ReviewService.statistics result in
  {| overallTotalLines := overallTotalLines acc + ReviewService.totalLines st;
     overallCodeLines := overallCodeLines acc + ReviewService.codeLines st;
     overallCommentLines := overallCommentLines acc + ReviewService.commentLines st;
     overallBlankLines := overallBlankLines acc + ReviewService.blankLines st;
     overallComplexity := overallComplexity acc + ReviewService.stat_complexity st;
     overallMaintainabilityIndex := overallMaintainabilityIndex acc;
     overallByType :=
       fun t => Some (orZero (overallByType acc t) + ReviewService.issuesByType st t);
     overallBySeverity :=
       fun s => Some (orZero (overallBySeverity acc s) + ReviewService.issuesBySeverity st s) |}.

Definition calculateOverallStatistics (results : list ReviewService.ThirdPartyAnalysisResult)
  : OverallStatistics :=
  fold_left addStatistics results noOverallStatistics.

Record FileInput : Type := {
  filePath : string;
  content : string
}.

Record FileError : Type := {
  errorFilePath : string;
  error : string
}.

Record ThirdPartyBatchResult : Type := {
  batchProviderId : string;
  batchId : string;
  batchTimestamp : string;
  totalFiles : nat;
  processedFiles : nat;
  failedFiles : list FileError;
  results : list ReviewService.ThirdPartyAnalysisResult;
  overallStatistics : OverallStatistics
}.

Section Remote.
(** [callSonarQubeAPI] for one file: the JSON answer, or the error of a
    failed request.  [clockAt n] is the clock when the answer for the
    file at index [n] of a batch is transformed. *)
Variable callSonarQubeAPI : string -> string -> outcome Response.
Variable clockAt : nat -> Clock.

(** [analyzeFile] *)
Definition analyzeFile (clock : Clock) (path text : string)
  : outcome ReviewService.ThirdPartyAnalysisResult :=
  match callSonarQubeAPI path text with
  | Resolved response => Resolved (transformSonarQubeResponse clock response)
  | Thrown e => Thrown e
  end.

(** One round of the loop of [analyzeBatch] over the files, with the two
    arrays [results] and [failedFiles] as state. *)
Definition batchStep (acc : list ReviewService.ThirdPartyAnalysisResult * list FileError)
           (indexed : nat * FileInput)
  : list ReviewService.ThirdPartyAnalysisResult * list FileError :=
  let '(index, f) := indexed in
  match analyzeFile (clockAt index) (filePath f) (content f) with
  | Resolved result => (fst acc ++ [result], snd acc)
  | Thrown e => (fst acc, snd acc ++ [{| errorFilePath := filePath f; error := e |}])
  end.

(** [analyzeBatch]; [start] is the clock when the batch begins and
    [finish] the clock when its result is built. *)
Definition analyzeBatch (start finish : Clock) (files : list FileInput)
  : ThirdPartyBatchResult :=
  let '(rs, failed) :=
    fold_left batchStep (combine (seq 0 (List.length files)) files) ([], []) in
  {| batchProviderId := providerId;
     batchId := "batch_" ++ showNat (millis start);
     batchTimestamp := iso finish;
     totalFiles := List.length files;
     processedFiles := List.length rs;
     failedFiles := failed;
     results := rs;
     overallStatistics := calculateOverallStatistics rs |}.

End Remote.

(** The request for a file of a batch fails. *)
Definition requestFails (call : string -> string -> outcome Response) (f : FileInput) : bool :=
  match call (filePath f) (content f) with
  | Resolved _ => false
  | Thrown _ => true
  end.

(** The statistics of a result are those of its issues. *)
Definition consistent (r : ReviewService.ThirdPartyAnalysisResult) : Prop :=
  ReviewService.statistics r = calculateStatistics (ReviewService.tp_issues r).

(** The labels of an issue are keys of the two object literals, or at
    least no members of [Object.prototype]. *)
Definition plainLabels (issue : SonarIssue) : Prop :=
  arrayIncludes (sonarType issue) ProviderConfig.objectPrototypeKeys = false
  /\ arrayIncludes (sonarSeverity issue) ProviderConfig.objectPrototypeKeys = false.

End SonarQube.

(* ===================================================================== *)
(** * The registry of providers and the directory walk *)
(* ===================================================================== *)

Module Registry.
Import JS ReviewService.

(** [initializeDefaultProviders]: the constructor registers the SonarQube
    provider, whatever its [analyzeFile] does. *)
Definition initializeDefaultProviders (sonarQubeProvider : Provider) : OrderedMap Provider :=
  mapSet (provider_id sonarQubeProvider) sonarQubeProvider [].

(** A run of [registerProvider] calls, first call first. *)
Definition registerAll (ps : list Provider) (m : OrderedMap Provider) : OrderedMap Provider :=
  fold_left (fun acc p => registerProvider p acc) ps m.

(** [getAvailableProviders]: [Array.from(this.thirdPartyProviders.values())] *)
Definition getAvailableProviders (m : OrderedMap Provider) : list Provider :=
  map snd m.

(** The results of the files whose analysis resolves, in the order of
    the files. *)
Definition analysed (readFile : string -> outcome string) (extname : string -> string)
           (complete : SupportedLanguage -> string -> Completion)
           (registry : OrderedMap Provider) (options : option Options)
           (files : list string) : list CodeReviewResult :=
  flat_map (fun f => match analyzeFile readFile extname complete registry f options with
                     | Resolved r => [r]
                     | Thrown _ => []
                     end) files.

(** Some directory that cannot be listed is reached by the walk: it lies
    outside every skipped directory. *)
Fixpoint reachesUnreadable (entry : Dirent) : bool :=
  match entry with
  | FileEntry _ => false
  | Directory entryName entries =>
      negb (arrayIncludes entryName skippedDirectories)
      && existsb reachesUnreadable entries
  | Unreadable entryName _ => negb (arrayIncludes entryName skippedDirectories)
  end.

(** The names of the plain entries that the walk visits. *)
Fixpoint visitedFiles (entry : Dirent) : list string :=
  match entry with
  | FileEntry entryName => [entryName]
  | Directory entryName entries =>
      if arrayIncludes entryName skippedDirectories then []
      else flat_map visitedFiles entries
  | Unreadable _ _ => []
  end.

(** The number of visited entries whose extension the walk accepts. *)
Definition walked (extname : string -> string) (es : list Dirent) : nat :=
  countIf (fun n => arrayIncludes (toLowerCase (extname n)) walkerExtensions)
          (flat_map visitedFiles es).

End Registry.

(* ===================================================================== *)
(** * The report of the review tool: grade and grouping *)
(* ===================================================================== *)

Module ToolReport.
Import JS ReviewService.

(** The [grade] member of what [getQualityGrade] returns; the emoji and
    the description go with it. *)
Inductive QualityGrade : Type :=
| GradeAPlus | GradeA | GradeB | GradeC | GradeD.

Definition gradeName (g : QualityGrade) : string :=
  match g with
  | GradeAPlus => "A+" | GradeA => "A" | GradeB => "B" | GradeC => "C" | GradeD => "D"
  end.

(** [maintainabilityIndex >= k] and [maintainabilityIndex < k] for an
    index that may be [Infinity]. *)
Definition atLeast (x : JSInteger) (k : Z) : bool :=
  match x with
  | Finite z => (k <=? z)%Z
  | Infinity => true
  end.

Definition below (x : JSInteger) (k : Z) : bool :=
  match x with
  | Finite z => (z <? k)%Z
  | Infinity => false
  end.

(** [getQualityGrade] *)
Definition getQualityGrade (maintainabilityIndex : JSInteger) (totalIssues : nat)
  : QualityGrade :=
  if atLeast maintainabilityIndex 80 && (totalIssues =? 0) then GradeAPlus
  else if atLeast maintainabilityIndex 70 && (totalIssues <=? 5) then GradeA
  else if atLeast maintainabilityIndex 60 && (totalIssues <=? 15) then GradeB
  else if atLeast maintainabilityIndex 40 && (totalIssues <=? 30) then GradeC
  else GradeD.

(** The grade that the report of a result shows. *)
Definition reportGrade (result : CodeReviewResult) : QualityGrade :=
  getQualityGrade (maintainabilityIndex (metrics result)) (totalIssues (summary result)).

(** [groupIssuesByType]: an object keyed by the type's string value; its
    keys keep the order in which they were first set. *)
Definition groupIssuesByType (issues : list CodeIssue) : OrderedMap nat :=
  fold_left (fun groups issue =>
               let k := typeValue (type issue) in
               mapSet k (match mapGet k groups with Some n => n | None => 0 end + 1) groups)
            issues [].

Definition hasType (t : CodeReviewType) (i : CodeIssue) : bool :=
  bool_decide (type i = t).

(** What the loop of [groupIssuesByType] has built after a prefix of
    the issues. *)
Definition grouped (groups : OrderedMap nat) (seen : list CodeIssue) : Prop :=
  (forall t, mapGet (typeValue t) groups
             = if countIf (hasType t) seen =? 0 then None
               else Some (countIf (hasType t) seen))
  /\ list_sum (map snd groups) = List.length seen
  /\ NoDup (mapKeys groups).

(** The values that the tool's schema allows for [severity_filter] and
    for the members of [issue_types]. *)
Definition severityFilters : list string :=
  ["all"; "critical"; "high"; "medium"; "low"; "info"].

Definition issueTypeNames : list string :=
  ["quality"; "security"; "performance"; "style"; "bug"; "maintainability"].

(** The position of a severity in the tool's scale, [INFO] lowest. *)
Definition severityRank (s : SeverityLevel) : Z :=
  match s with
  | INFO => 0 | LOW => 1 | MEDIUM => 2 | HIGH => 3 | CRITICAL => 4
  end.

(** The least rank that a filter lets through. *)
Definition threshold (severityFilter : string) : Z :=
  if String.eqb severityFilter "all" then 0%Z
  else severityRank (ReviewTool.mapLegacySeverity severityFilter).

(** The order of the grades, [GradeD] lowest. *)
Definition gradeRank (g : QualityGrade) : nat :=
  match g with
  | GradeD => 0 | GradeC => 1 | GradeB => 2 | GradeA => 3 | GradeAPlus => 4
  end.

(** [x <= y] on indices, with [Infinity] on top. *)
Definition indexLe (x y : JSInteger) : Prop :=
  match x, y with
  | Finite a, Finite b => (a <= b)%Z
  | _, Infinity => True
  | Infinity, Finite _ => False
  end.

End ToolReport.

(* ===================================================================== *)
(** * The first review tool, on top of the heuristic scanner *)
(* ===================================================================== *)

Module LegacyTool.
Import JS.

Definition severityLevels : list string := ["low"; "medium"; "high"; "critical"].

(** [filterIssues] of the first tool: types and severities are compared
    as the strings they are. *)
Definition filterIssues (issues : list CodeIssue) (severityFilter : string)
           (issueTypes : list string) : list CodeIssue :=
  let filtered :=
    List.filter (fun issue => arrayIncludes (typeValue (type issue)) issueTypes) issues in
  if negb (String.eqb severityFilter "all") then
    let minLevel := ReviewTool.indexOf severityFilter severityLevels in
    List.filter (fun issue =>
                   (minLevel <=? ReviewTool.indexOf (severityValue (severity issue))
                                                    severityLevels)%Z)
                filtered
  else filtered.

(** The [filteredResult] of the first [executeCodeReview]. *)
Definition filteredResult (result : HeuristicService.CodeReviewResult)
           (severityFilter : string) (issueTypes : list string)
  : HeuristicService.CodeReviewResult :=
  let filteredIssues := filterIssues (HeuristicService.issues result) severityFilter issueTypes in
  {| HeuristicService.summary :=
       {| totalIssues := List.length filteredIssues;
          criticalIssues := countIf (hasSeverity CRITICAL) filteredIssues;
          highIssues := countIf (hasSeverity HIGH) filteredIssues;
          mediumIssues := countIf (hasSeverity MEDIUM) filteredIssues;
          lowIssues := countIf (hasSeverity LOW) filteredIssues |};
     HeuristicService.issues := filteredIssues;
     HeuristicService.metrics := HeuristicService.metrics result |}.

(** The values that the first tool's schema allows. *)
Definition severityFilters : list string := ["all"; "critical"; "high"; "medium"; "low"].

Definition issueTypeNames : list string :=
  ["quality"; "security"; "performance"; "style"; "bug"].

End LegacyTool.

(* ===================================================================== *)
(** * More fixtures *)
(* ===================================================================== *)

Module ReviewFixtures.
Import JS.

Definition blocker : SonarQube.SonarIssue :=
  {| SonarQube.key := Some "AX1"; SonarQube.sonarType := "VULNERABILITY";
     SonarQube.sonarSeverity := "BLOCKER"; SonarQube.component := "src/a.ts";
     SonarQube.sonarLine := Some 7; SonarQube.sonarColumn := None;
     SonarQube.sonarMessage := "Use a parameterized query";
     SonarQube.rule := Some "ts:S3649" |}.

(** An issue on the file as a whole: no line. *)
Definition fileLevel : SonarQube.SonarIssue :=
  {| SonarQube.key := Some "AX2"; SonarQube.sonarType := "CODE_SMELL";
     SonarQube.sonarSeverity := "INFO"; SonarQube.component := "src/a.ts";
     SonarQube.sonarLine := None; SonarQube.sonarColumn := None;
     SonarQube.sonarMessage := "Add a header";
     SonarQube.rule := None |}.

Definition answer : SonarQube.Response :=
  {| SonarQube.responseIssues := Some [blocker; fileLevel] |}.

(** A server that knows [src/a.ts] and [src/b.ts] and fails on anything
    else. *)
Definition server (path text : string) : outcome SonarQube.Response :=
  if String.eqb path "src/a.ts" then Resolved answer
  else if String.eqb path "src/b.ts"
       then Resolved {| SonarQube.responseIssues := None |}
       else Thrown "SonarQube API error: 404 Not Found".

Definition clockAt (n : nat) : SonarQube.Clock :=
  {| SonarQube.millis := 1000 + n; SonarQube.iso := "1970-01-01T00:00:01.000Z" |}.

Definition batch : list SonarQube.FileInput :=
  [ {| SonarQube.filePath := "src/a.ts"; SonarQube.content := "let a = 1" |};
    {| SonarQube.filePath := "src/gone.ts"; SonarQube.content := "" |};
    {| SonarQube.filePath := "src/b.ts"; SonarQube.content := "let b = 2" |} ].

(** A checkout with a dependency directory and a directory that cannot
    be listed inside it. *)
Definition listing : list ReviewService.Dirent :=
  [ ReviewService.FileEntry "index.ts";
    ReviewService.FileEntry "README.md";
    ReviewService.Directory "src"
      [ ReviewService.FileEntry "util.py"; ReviewService.FileEntry "main.c" ];
    ReviewService.Directory "node_modules"
      [ ReviewService.FileEntry "dep.js"; ReviewService.Unreadable "locked" "EACCES" ] ].

(** What the scanners of the heuristic service could report, two of
    them. *)
Definition secret : CodeIssue := Spec.secretIssue "/w/key.js" 1.

Definition trailing : CodeIssue :=
  HeuristicService.issue STYLE LOW "Trailing whitespace detected." "/w/pad.js" 1
    "Remove trailing whitespace" "trailing-whitespace".

End ReviewFixtures.

(* ===================================================================== *)
(** * The heuristic scanner with its RegExp objects *)
(* ===================================================================== *)

(** The checks of the scanner evaluate regular-expression literals and
    call [test] on the objects, which may move their [lastIndex].  Here
    the objects live in a heap that outlasts a scan, so that one scan
    can be followed by another. *)
Module ScanRuns.
Import JS RegExp.

(** The RegExp objects made so far, by address. *)
Definition Heap : Type := list RegExp.t.

(** A computation that reads and changes the heap. *)
Definition Run (A : Type) : Type := Heap -> A * Heap.

Definition ret {A : Type} (a : A) : Run A := fun heap => (a, heap).

Definition bind {A B : Type} (m : Run A) (k : A -> Run B) : Run B :=
  fun heap => let (a, heap') := m heap in k a heap'.

Notation "'run' x <- m ;; k" := (bind m (fun x => k))
  (at level 10, x name, m at level 99, k at level 200).

(** Evaluating a regular-expression literal makes a new object, with
    [lastIndex] 0, and yields its address. *)
Definition evaluate (re : RegExp.t) : Run nat :=
  fun heap => (List.length heap, heap ++ [re]).

(** [pattern.test(s)] for the object at an address: the answer, and the
    object as [test] leaves it.  No object at the address cannot happen:
    addresses come from [evaluate]. *)
Definition testAt (address : nat) (s : string) : Run bool :=
  fun heap =>
    match heap !! address with
    | Some re => let (answer, re') := test re s in (answer, <[address := re']> heap)
    | None => (false, heap)
    end.

(** An array literal of regular-expression literals. *)
Fixpoint evaluateAll (res : list RegExp.t) : Run (list nat) :=
  match res with
  | [] => ret []
  | re :: rest =>
      run address <- evaluate re ;;
      run addresses <- evaluateAll rest ;;
      ret (address :: addresses)
  end.

(** [array.forEach(callback)] where the callback pushes issues. *)
Fixpoint forEachOf {A B : Type} (body : A -> Run (list B)) (array : list A) : Run (list B) :=
  match array with
  | [] => ret []
  | x :: rest =>
      run pushed <- body x ;;
      run more <- forEachOf body rest ;;
      ret (pushed ++ more)
  end.

(** [lines.forEach((line, index) => ...)] *)
Fixpoint forEachFrom {A B : Type} (body : A -> nat -> Run (list B))
         (index : nat) (lines : list A) : Run (list B) :=
  match lines with
  | [] => ret []
  | l :: rest =>
      run pushed <- body l index ;;
      run more <- forEachFrom body (S index) rest ;;
      ret (pushed ++ more)
  end.

Definition forEach {A B : Type} (body : A -> nat -> Run (list B)) (lines : list A)
  : Run (list B) :=
  forEachFrom body 0 lines.

(** [/^[\t\s]*/]: the object that [line.match] is given.  The anchor is
    not part of the pattern syntax here; [leadingIndent] matches from the
    first character on, and [match] without the [g] flag leaves the
    object alone. *)
Definition indentPattern : RegExp.t :=
  literal (Star (Class [CChar tab; CSpace])) false false.

(** The callback of [checkCodeQuality]. *)
Definition qualityAt (filePath fileExtension : string) (l : string) (index : nat)
  : Run (list CodeIssue) :=
  let lineNumber := index + 1 in
  let trimmedLine := trim l in
  let lineLength :=
    HeuristicService.pushIf (120 <? String.length l)
      (HeuristicService.issue QUALITY LOW
         ("Line too long (" ++ showNat (String.length l)
            ++ " characters). Consider breaking it down.")
         filePath lineNumber
         "Break long lines into multiple lines for better readability"
         "line-length") in
  let technicalDebt :=
    HeuristicService.pushIf (includes "TODO" trimmedLine || includes "FIXME" trimmedLine
                             || includes "HACK" trimmedLine)
      (HeuristicService.issue QUALITY MEDIUM
         "Found TODO/FIXME/HACK comment. Consider addressing this technical debt."
         filePath lineNumber
         "Address the technical debt mentioned in the comment"
         "technical-debt") in
  run _ <- evaluate indentPattern ;;
  let deepNesting :=
    HeuristicService.pushIf (6 * 2 <? HeuristicService.leadingIndent l)
      (HeuristicService.issue QUALITY HIGH
         "Deep nesting detected. Consider refactoring to reduce complexity."
         filePath lineNumber
         "Extract nested logic into separate functions"
         "deep-nesting") in
  run webScript <-
    (if arrayIncludes fileExtension HeuristicService.webScriptExtensions then
       let consoleLog :=
         HeuristicService.pushIf (includes "console.log" trimmedLine)
           (HeuristicService.issue QUALITY LOW
              "Console.log statement found. Remove debug statements before production."
              filePath lineNumber
              "Use proper logging library or remove debug statements"
              "console-log") in
       run magicNumberPattern <- evaluate HeuristicService.magicNumberPattern ;;
       run found <- testAt magicNumberPattern trimmedLine ;;
       ret (consoleLog
            ++ HeuristicService.pushIf (found && negb (includes "const" trimmedLine)
                                        && negb (includes "let" trimmedLine))
                 (HeuristicService.issue QUALITY MEDIUM
                    "Magic number detected. Consider using named constants."
                    filePath lineNumber
                    "Define constants for magic numbers to improve readability"
                    "magic-numbers"))
     else ret []) ;;
  ret (lineLength ++ technicalDebt ++ deepNesting ++ webScript).

Definition checkCodeQuality (content filePath fileExtension : string)
  : Run (list CodeIssue) :=
  let lines := splitOn newline content in
  forEach (qualityAt filePath fileExtension) lines.

(** The callback of [checkSecurity]: the four patterns are made anew for
    every line. *)
Definition securityAt (filePath fileExtension : string) (l : string) (index : nat)
  : Run (list CodeIssue) :=
  let lineNumber := index + 1 in
  let trimmedLine := trim l in
  run secretPatterns <- evaluateAll HeuristicService.secretPatterns ;;
  run secrets <-
    forEachOf (fun pattern =>
                 run found <- testAt pattern trimmedLine ;;
                 ret (HeuristicService.pushIf found
                        (HeuristicService.issue SECURITY CRITICAL
                           "Hardcoded secret detected. Secrets should be stored in environment variables."
                           filePath lineNumber
                           "Move secrets to environment variables or secure configuration"
                           "hardcoded-secrets")))
              secretPatterns ;;
  ret (secrets
       ++ HeuristicService.pushIf (includes "query" trimmedLine && includes "+" trimmedLine)
            (HeuristicService.issue SECURITY HIGH
               "Potential SQL injection vulnerability. Use parameterized queries."
               filePath lineNumber
               "Use parameterized queries or ORM to prevent SQL injection"
               "sql-injection")
       ++ (if arrayIncludes fileExtension (HeuristicService.webScriptExtensions ++ [".html"])
           then
             HeuristicService.pushIf (includes "innerHTML" trimmedLine
                                      && negb (includes "textContent" trimmedLine))
               (HeuristicService.issue SECURITY HIGH
                  "Potential XSS vulnerability. Avoid using innerHTML with user data."
                  filePath lineNumber
                  "Use textContent or properly sanitize HTML content"
                  "xss-vulnerability")
           else [])
       ++ HeuristicService.pushIf (includes "Math.random()" trimmedLine
                                   && (includes "crypto" trimmedLine
                                       || includes "password" trimmedLine
                                       || includes "token" trimmedLine))
            (HeuristicService.issue SECURITY HIGH
               "Math.random() is not cryptographically secure. Use crypto.randomBytes() for security-related randomness."
               filePath lineNumber
               "Use crypto.randomBytes() or crypto.getRandomValues() for secure randomness"
               "insecure-random")).

Definition checkSecurity (content filePath fileExtension : string) : Run (list CodeIssue) :=
  let lines := splitOn newline content in
  forEach (securityAt filePath fileExtension) lines.

(** [checkPerformance] and [checkCodeStyle] use string methods only and
    make no object. *)
Definition checkPerformance (content filePath fileExtension : string)
  : Run (list CodeIssue) :=
  ret (HeuristicService.checkPerformance content filePath fileExtension).

Definition checkCodeStyle (content filePath fileExtension : string) : Run (list CodeIssue) :=
  ret (HeuristicService.checkCodeStyle content filePath fileExtension).

(** The four pushes at the head of [analyzeFile], one after the other on
    the same heap. *)
Definition scan (content filePath fileExtension : string) : Run (list CodeIssue) :=
  run quality <- checkCodeQuality content filePath fileExtension ;;
  run security <- checkSecurity content filePath fileExtension ;;
  run performance <- checkPerformance content filePath fileExtension ;;
  run style <- checkCodeStyle content filePath fileExtension ;;
  ret (quality ++ security ++ performance ++ style).

(** A heap as an earlier scan of some other text has left it. *)
Definition usedHeap : Heap :=
  snd (scan "x = 1234" "/w/old.js" ".js" []).

End ScanRuns.

(* ===================================================================== *)
(** * What a run of the provider-aware service tells the user *)
(* ===================================================================== *)

Module Notices.
Import JS ReviewService.

(** The messages that [analyzeFile] and [analyzeDirectory] put out besides
    their result; the texts in front of the error are fixed. *)
Inductive Notice : Type :=
| ErrorMessage (errorMessage : string)
    (* vscode.window.showErrorMessage of analyzeFile, after its fixed prefix *)
| ProviderWarning (providerId errorMessage : string)
    (* console.warn(`Provider ${providerId} analysis failed:`, error) *)
| FileWarning (file errorMessage : string)
    (* console.warn(`Failed to analyze file ${file}:`, error) *)
| AnalysisError
    (* console.error("AI analysis failed:", error) *)
| ParseError.
    (* console.error("Failed to parse AI response:", e) *)

Section Service.
Variable readFile : string -> outcome string.
Variable extname : string -> string.
Variable complete : SupportedLanguage -> string -> Completion.
Variable thirdPartyProviders : OrderedMap Provider.

(** The two [catch] blocks of [performAIAnalysis]. *)
Definition performAIAnalysis (content : string) (language : SupportedLanguage)
  : list Notice :=
  match complete language content with
  | RequestFails => [AnalysisError]
  | NotJSON => [ParseError]
  | NoIssuesArray | IssuesArray _ => []
  end.

(** The [catch] inside the loop over the providers. *)
Definition providerStep (filePath content : string) (options : Options)
           (providerId : string) : list Notice :=
  match mapGet providerId thirdPartyProviders with
  | Some provider =>
      match provider_analyzeFile provider filePath content (analysisOptions options) with
      | Resolved _ => []
      | Thrown e => [ProviderWarning providerId e]
      end
  | None => []
  end.

(** What [analyzeFile] puts out: whatever makes it throw is shown in the
    editor before it is thrown again. *)
Definition analyzeFile (filePath : string) (options : option Options) : list Notice :=
  match readFile filePath with
  | Thrown e => [ErrorMessage e]
  | Resolved content =>
      let fileExtension := toLowerCase (extname filePath) in
      match supportedLanguages !! fileExtension with
      | None => [ErrorMessage ("Unsupported file type: " ++ fileExtension)]
      | Some language =>
          performAIAnalysis content language
          ++ match options with
             | Some o =>
                 if isTruthy (enableThirdParty o)
                 then flat_map (providerStep filePath content o)
                               (providersToUse thirdPartyProviders o)
                 else []
             | None => []
             end
      end
  end.

(** One round of the loop of [analyzeDirectory]: what the file's analysis
    puts out, and the warning of the loop's own [catch]. *)
Definition directoryStep (options : option Options) (f : string) : list Notice :=
  analyzeFile f options
  ++ match ReviewService.analyzeFile readFile extname complete thirdPartyProviders
             f options with
     | Resolved _ => []
     | Thrown e => [FileWarning f e]
     end.

(** The loop of [analyzeDirectory] over the files found. *)
Definition analyzeFiles (files : list string) (options : option Options) : list Notice :=
  flat_map (directoryStep options) files.

End Service.

End Notices.

(* ===================================================================== *)
(** * The primitives at work *)
(* ===================================================================== *)

Example split_examples :
  JS.splitWhiteSpace " if  (x) " = [""; "if"; "(x)"; ""]
  /\ JS.splitOn JS.newline "" = [""]
  /\ JS.trim "  a b  " = "a b".
Proof. repeat split; reflexivity. Qed.

Example extname_examples :
  map Node.extname ["/a/b.test.JS"; ".bashrc"; "a/.."; "x.c/"; "noext"; "/a.b/c"]
  = [".JS"; ""; ""; ".c"; ""; ""].
Proof. reflexivity. Qed.

Example magic_number_examples :
  map ruleId (HeuristicService.checkCodeQuality "x = 123a + 42;" "a.js" ".js")
  = [Some "magic-numbers"]
  /\ map ruleId (HeuristicService.checkCodeQuality "x = a1234;" "a.js" ".js")
     = [Some "magic-numbers"]
  /\ HeuristicService.checkCodeQuality "const limit = 5000;" "a.js" ".js" = [].
Proof. repeat split; reflexivity. Qed.

(** A pattern with the [g] flag remembers where its last match ended: the
    same object answers differently the second time.  The scanner never
    meets this, because it evaluates the literal anew for every line. *)
Lemma global_pattern_remembers :
  let re := HeuristicService.magicNumberPattern in
  fst (RegExp.test re "12") = true
  /\ fst (RegExp.test (snd (RegExp.test re "12")) "12") = false.
Proof. split; reflexivity. Qed.

(** The fuel of the greedy loop never runs out: any two amounts above the
    number of characters left give the same matches. *)
Lemma star_loop_fuel (step : RegExp.position -> list RegExp.position) :
  forall (n m : nat) (st : RegExp.position),
    RegExp.remaining st < n -> RegExp.remaining st < m ->
    RegExp.star_loop step n st = RegExp.star_loop step m st.
Proof.
  induction n as [|n IH]; intros m st Hn Hm; [lia|].
  destruct m as [|m]; [lia|]. simpl. f_equal.
  apply flat_map_ext. intros st'.
  destruct (Nat.ltb_spec (RegExp.remaining st') (RegExp.remaining st)); [|reflexivity].
  apply IH; lia.
Qed.

(* ===================================================================== *)
(** * Lists *)
(* ===================================================================== *)

Section ListFacts.
Context {A : Type}.

Lemma filter_twice (p : A -> bool) (l : list A) :
  List.filter p (List.filter p l) = List.filter p l.
Proof.
  induction l as [|x l IH]; simpl; [reflexivity|].
  destruct (p x) eqn:E; simpl; rewrite ?E, IH; reflexivity.
Qed.

Lemma filter_swap (p q : A -> bool) (l : list A) :
  List.filter p (List.filter q l) = List.filter q (List.filter p l).
Proof.
  induction l as [|x l IH]; simpl; [reflexivity|].
  destruct (q x) eqn:Eq, (p x) eqn:Ep; simpl; rewrite ?Eq, ?Ep, IH; reflexivity.
Qed.

Lemma countIf_cons (p : A -> bool) (x : A) (l : list A) :
  countIf p (x :: l) = (if p x then 1 else 0) + countIf p l.
Proof. unfold countIf; simpl; destruct (p x); reflexivity. Qed.

Lemma fold_count (p : A -> bool) (l : list A) (n : nat) :
  fold_left (fun acc x => if p x then acc + 1 else acc) l n = n + countIf p l.
Proof.
  revert n; induction l as [|x l IH]; intros n; simpl.
  - unfold countIf; simpl; lia.
  - rewrite IH, countIf_cons. destruct (p x); lia.
Qed.

End ListFacts.

(** Every issue has exactly one of the five severities. *)
Lemma severity_partition (l : list CodeIssue) :
  countIf (hasSeverity CRITICAL) l + countIf (hasSeverity HIGH) l
  + countIf (hasSeverity MEDIUM) l + countIf (hasSeverity LOW) l
  + countIf (hasSeverity INFO) l = List.length l.
Proof.
  induction l as [|i l IH]; [reflexivity|].
  rewrite !countIf_cons. simpl List.length.
  unfold hasSeverity at 1 3 5 7 9.
  destruct (severity i); simpl; lia.
Qed.

(* ===================================================================== *)
(** * The provider-aware service: what a run returns *)
(* ===================================================================== *)

Lemma supported_chain :
  ReviewService.initializeSupportedLanguages =
  <[".rs" := {| ReviewService.name := "Rust"; ReviewService.extensions := [".rs"]; ReviewService.aliases := ["rs"; "rust"] |}]>
  (<[".go" := {| ReviewService.name := "Go"; ReviewService.extensions := [".go"]; ReviewService.aliases := ["go"; "golang"] |}]>
  (<[".java" := {| ReviewService.name := "Java"; ReviewService.extensions := [".java"]; ReviewService.aliases := ["java"] |}]>
  (<[".py" := {| ReviewService.name := "Python"; ReviewService.extensions := [".py"]; ReviewService.aliases := ["py"; "python"] |}]>
  (<[".tsx" := {| ReviewService.name := "TypeScript"; ReviewService.extensions := [".ts"; ".tsx"]; ReviewService.aliases := ["ts"; "typescript"] |}]>
  (<[".ts" := {| ReviewService.name := "TypeScript"; ReviewService.extensions := [".ts"; ".tsx"]; ReviewService.aliases := ["ts"; "typescript"] |}]>
  (<[".jsx" := {| ReviewService.name := "JavaScript"; ReviewService.extensions := [".js"; ".jsx"]; ReviewService.aliases := ["js"; "javascript"] |}]>
  (<[".js" := {| ReviewService.name := "JavaScript"; ReviewService.extensions := [".js"; ".jsx"]; ReviewService.aliases := ["js"; "javascript"] |}]>
   ∅))))))).
Proof. reflexivity. Qed.

Lemma unsupported_lookup ext :
  ~ In ext Spec.supportedByAnalyzeFile ->
  ReviewService.initializeSupportedLanguages !! ext = None.
Proof.
  intros H. rewrite supported_chain.
  unfold Spec.supportedByAnalyzeFile in H. simpl in H.
  rewrite !lookup_insert_ne by (intros E; apply H; subst ext; auto 10).
  apply lookup_empty.
Qed.

Lemma supported_lookup ext :
  In ext Spec.supportedByAnalyzeFile ->
  is_Some (ReviewService.initializeSupportedLanguages !! ext).
Proof.
  intros H. rewrite supported_chain. simpl in H.
  repeat (destruct H as [<-|H];
          [ rewrite ?lookup_insert_ne by discriminate; rewrite lookup_insert_eq; eauto |]).
  destruct H.
Qed.

Lemma ts_language :
  ReviewService.supportedLanguages !! ".ts"
  = Some {| ReviewService.name := "TypeScript";
            ReviewService.extensions := [".ts"; ".tsx"];
            ReviewService.aliases := ["ts"; "typescript"] |}.
Proof. vm_compute. reflexivity. Qed.

Lemma js_language :
  ReviewService.supportedLanguages !! ".js"
  = Some {| ReviewService.name := "JavaScript";
            ReviewService.extensions := [".js"; ".jsx"];
            ReviewService.aliases := ["js"; "javascript"] |}.
Proof. vm_compute. reflexivity. Qed.

Section ServiceFacts.
Import JS ReviewService.
Variable readFile : string -> outcome string.
Variable extname : string -> string.
Variable complete : SupportedLanguage -> string -> Completion.
Variable registry : OrderedMap Provider.

(** The loop over the providers appends, in order, what each id
    contributes. *)
Lemma provider_loop filePath content o ids rs found :
  fold_left (providerStep registry filePath content o) ids (rs, found)
  = (rs ++ Spec.successes registry filePath content o ids,
     found ++ flat_map tp_issues (Spec.successes registry filePath content o ids)).
Proof.
  revert rs found. induction ids as [|i ids IH]; intros rs found; simpl.
  - rewrite !app_nil_r. reflexivity.
  - unfold providerStep at 2, Spec.attempt. simpl.
    destruct (mapGet i registry) as [p|]; simpl.
    + destruct (provider_analyzeFile p filePath content (analysisOptions o)) as [res|e]; simpl.
      * rewrite IH, <- !app_assoc. reflexivity.
      * apply IH.
    + apply IH.
Qed.

(** A readable file of a supported type always yields a result, and this
    is the result. *)
Lemma analyzeFile_resolved filePath content language options :
  readFile filePath = Resolved content ->
  supportedLanguages !! toLowerCase (extname filePath) = Some language ->
  let ai := performAIAnalysis complete content filePath language in
  let rs := Spec.successes registry filePath content (Spec.optionsOrDefault options)
              (Spec.runOrder registry options) in
  analyzeFile readFile extname complete registry filePath options
  = Resolved {| summary := generateSummary (ai ++ flat_map tp_issues rs);
                issues := ai ++ flat_map tp_issues rs;
                metrics := Metrics.calculateMetrics content;
                thirdPartyResults := rs |}.
Proof.
  intros Hread Hlang. unfold analyzeFile. rewrite Hread, Hlang.
  destruct options as [o|]; simpl.
  - destruct (isTruthy (enableThirdParty o)) eqn:E; simpl.
    + rewrite provider_loop. reflexivity.
    + rewrite app_nil_r. reflexivity.
  - rewrite app_nil_r. reflexivity.
Qed.

(** Every registered id in the list either has an entry or failed. *)
Lemma successes_length filePath content o ids :
  List.length (Spec.successes registry filePath content o ids)
  + countIf (Spec.fails registry filePath content o) ids
  = countIf (Spec.isRegistered registry) ids.
Proof.
  induction ids as [|i ids IH]; [reflexivity|].
  unfold Spec.successes in *. simpl. rewrite !countIf_cons, length_app.
  unfold Spec.attempt at 1, Spec.fails at 1, Spec.isRegistered at 1.
  destruct (mapGet i registry) as [p|]; simpl; [|lia].
  destruct (provider_analyzeFile p filePath content (analysisOptions o)); simpl; lia.
Qed.

Lemma contributions_of_successes filePath content o ids :
  flat_map (Spec.contribution registry filePath content o) ids
  = flat_map tp_issues (Spec.successes registry filePath content o ids).
Proof.
  unfold Spec.successes, Spec.contribution.
  induction ids as [|i ids IH]; simpl; [reflexivity|].
  rewrite flat_map_app, IH. reflexivity.
Qed.

(** A file whose analysis throws leaves the directory totals alone. *)
Lemma directoryStep_thrown options acc f e :
  analyzeFile readFile extname complete registry f options = Thrown e ->
  directoryStep readFile extname complete registry options acc f = acc.
Proof. intros H. unfold directoryStep. rewrite H. reflexivity. Qed.

End ServiceFacts.

(** Registering keeps the order of first registration: a new id goes to
    the end, a known id keeps its place. *)
Lemma registration_order (p : ReviewService.Provider)
      (m : ReviewService.OrderedMap ReviewService.Provider) :
  ReviewService.mapKeys (ReviewService.registerProvider p m)
  = if Spec.isRegistered m (ReviewService.provider_id p)
    then ReviewService.mapKeys m
    else ReviewService.mapKeys m ++ [ReviewService.provider_id p].
Proof.
  unfold ReviewService.registerProvider, Spec.isRegistered, ReviewService.mapKeys.
  induction m as [|[k v] m IH]; simpl; [reflexivity|].
  destruct (String.eqb (ReviewService.provider_id p) k) eqn:E; simpl.
  - apply String.eqb_eq in E. subst k. reflexivity.
  - rewrite IH. destruct (ReviewService.mapGet _ m); reflexivity.
Qed.

(** The additive AI mapper yields one of four severities, never [INFO]. *)
Lemma ai_severity_not_info (s : string) :
  ReviewService.mapLegacySeverity s <> INFO.
Proof.
  unfold ReviewService.mapLegacySeverity.
  repeat match goal with |- context [String.eqb ?a ?b] => destruct (String.eqb a b) end;
    discriminate.
Qed.

(* ===================================================================== *)
(** * Provider failures and the order of the merged issues *)
(* ===================================================================== *)

(** C1, as amended.  With third-party analysis enabled, a provider whose
    [analyzeFile] throws never aborts the run of a readable, supported
    file: the run resolves; [thirdPartyResults] holds exactly the results
    of the providers that resolved, in the order they were run, so every
    registered provider in the list either has an entry or failed and has
    none; and [issues] is the AI issues followed by the issues of those
    results.  With three providers of which one fails this gives two
    entries. *)
Theorem provider_failure_is_skipped :
  forall (readFile : string -> outcome string) (extname : string -> string)
         (complete : ReviewService.SupportedLanguage -> string -> ReviewService.Completion)
         (registry : ReviewService.OrderedMap ReviewService.Provider)
         (filePath content : string) (language : ReviewService.SupportedLanguage)
         (o : ReviewService.Options),
    readFile filePath = Resolved content ->
    ReviewService.supportedLanguages !! JS.toLowerCase (extname filePath) = Some language ->
    ReviewService.enableThirdParty o = Some true ->
    exists r,
      ReviewService.analyzeFile readFile extname complete registry filePath (Some o) = Resolved r
      /\ ReviewService.thirdPartyResults r
         = Spec.successes registry filePath content o (ReviewService.providersToUse registry o)
      /\ List.length (ReviewService.thirdPartyResults r)
         + countIf (Spec.fails registry filePath content o) (ReviewService.providersToUse registry o)
         = countIf (Spec.isRegistered registry) (ReviewService.providersToUse registry o)
      /\ ReviewService.issues r
         = ReviewService.performAIAnalysis complete content filePath language
           ++ flat_map ReviewService.tp_issues (ReviewService.thirdPartyResults r).
Proof.
  intros readFile extname complete registry filePath content language o Hread Hlang Hon.
  eexists. split.
  - apply analyzeFile_resolved; eassumption.
  - simpl. unfold Spec.runOrder, ReviewService.providersToUse. rewrite Hon. simpl.
    repeat split. apply successes_length.
Qed.

Lemma provider_failure_is_skipped_witness :
  exists r,
    ReviewService.analyzeFile Fixtures.readFile Node.extname Fixtures.quiet
      Fixtures.threeProviders "/w/a.ts" (Some Fixtures.withThirdParty) = Resolved r
    /\ List.length (ReviewService.thirdPartyResults r) = 2
    /\ map ReviewService.providerId (ReviewService.thirdPartyResults r) = ["alpha"; "gamma"]
    /\ map source (ReviewService.issues r) = [Some "alpha"; Some "gamma"].
Proof.
  destruct (provider_failure_is_skipped Fixtures.readFile Node.extname Fixtures.quiet
              Fixtures.threeProviders "/w/a.ts" "let x = 1" _ Fixtures.withThirdParty
              eq_refl ts_language eq_refl) as (r & Hr & Hres & _ & Hiss).
  exists r. split; [exact Hr|].
  rewrite Hiss, Hres. repeat split.
Defined.

(** Three registered providers, the second of which times out: the run
    resolves, but no result has three provider entries. *)
Lemma three_providers_one_failure_counterexample :
  Spec.fails Fixtures.threeProviders "/w/a.ts" "let x = 1" Fixtures.withThirdParty "beta" = true
  /\ ~ (exists r,
          ReviewService.analyzeFile Fixtures.readFile Node.extname Fixtures.quiet
            Fixtures.threeProviders "/w/a.ts" (Some Fixtures.withThirdParty) = Resolved r
          /\ List.length (ReviewService.thirdPartyResults r) = 3).
Proof.
  split; [reflexivity|].
  intros (r & Hr & Hlen).
  rewrite (analyzeFile_resolved Fixtures.readFile Node.extname Fixtures.quiet
             Fixtures.threeProviders "/w/a.ts" "let x = 1" _ (Some Fixtures.withThirdParty)
             eq_refl ts_language) in Hr.
  injection Hr as <-. simpl in Hlen. discriminate Hlen.
Qed.

(** C2, as amended.  For every readable file of a supported type the
    service runs the AI analysis whatever the options are, and runs no
    heuristic scanner; the merged list is all AI issues first, then the
    issues of each provider that was run and resolved, in run order: the
    caller's list of ids, or the registration order when the caller gives
    none, and no provider at all unless third-party analysis is enabled. *)
Theorem merged_issues_order :
  forall (readFile : string -> outcome string) (extname : string -> string)
         (complete : ReviewService.SupportedLanguage -> string -> ReviewService.Completion)
         (registry : ReviewService.OrderedMap ReviewService.Provider)
         (filePath content : string) (language : ReviewService.SupportedLanguage)
         (options : option ReviewService.Options),
    readFile filePath = Resolved content ->
    ReviewService.supportedLanguages !! JS.toLowerCase (extname filePath) = Some language ->
    exists r,
      ReviewService.analyzeFile readFile extname complete registry filePath options = Resolved r
      /\ ReviewService.issues r
         = ReviewService.performAIAnalysis complete content filePath language
           ++ flat_map (Spec.contribution registry filePath content (Spec.optionsOrDefault options))
                       (Spec.runOrder registry options).
Proof.
  intros readFile extname complete registry filePath content language options Hread Hlang.
  eexists. split.
  - apply analyzeFile_resolved; eassumption.
  - simpl. rewrite contributions_of_successes. reflexivity.
Qed.

Lemma merged_issues_order_witness :
  exists r,
    ReviewService.analyzeFile Fixtures.readFile Node.extname Fixtures.quiet
      Fixtures.threeProviders "/w/a.ts" (Some Fixtures.withThirdParty) = Resolved r
    /\ Spec.runOrder Fixtures.threeProviders (Some Fixtures.withThirdParty)
       = ["alpha"; "beta"; "gamma"]
    /\ map source (ReviewService.issues r) = [Some "alpha"; Some "gamma"].
Proof.
  destruct (merged_issues_order Fixtures.readFile Node.extname Fixtures.quiet
              Fixtures.threeProviders "/w/a.ts" "let x = 1" _ (Some Fixtures.withThirdParty)
              eq_refl ts_language) as (r & Hr & Hiss).
  exists r. split; [exact Hr|]. rewrite Hiss. repeat split.
Defined.

(** A JavaScript file with trailing white space: the heuristic scanner has
    a finding for it, yet the merged list of the service does not start
    with the heuristic findings. *)
Lemma heuristics_first_counterexample :
  HeuristicService.scan "x " "/w/pad.js" ".js" <> []
  /\ ~ (exists r,
          ReviewService.analyzeFile Fixtures.readFile Node.extname Fixtures.quiet
            Fixtures.threeProviders "/w/pad.js" None = Resolved r
          /\ ReviewService.issues r
             = HeuristicService.scan "x " "/w/pad.js" ".js"
               ++ ReviewService.performAIAnalysis Fixtures.quiet "x " "/w/pad.js"
                    {| ReviewService.name := "JavaScript";
                       ReviewService.extensions := [".js"; ".jsx"];
                       ReviewService.aliases := ["js"; "javascript"] |}
               ++ flat_map (Spec.contribution Fixtures.threeProviders "/w/pad.js" "x "
                              (Spec.optionsOrDefault None))
                           (Spec.runOrder Fixtures.threeProviders None)).
Proof.
  split; [vm_compute; discriminate|].
  intros (r & Hr & Hiss).
  rewrite (analyzeFile_resolved Fixtures.readFile Node.extname Fixtures.quiet
             Fixtures.threeProviders "/w/pad.js" "x " _ None eq_refl js_language) in Hr.
  injection Hr as <-. simpl in Hiss.
  vm_compute in Hiss. discriminate Hiss.
Qed.

(* ===================================================================== *)
(** * Unsupported file types *)
(* ===================================================================== *)

(** A file of an unsupported type can be dropped from the list of files
    found. *)
Lemma unsupported_file_is_dropped :
  forall (readFile : string -> outcome string) (extname : string -> string)
         (complete : ReviewService.SupportedLanguage -> string -> ReviewService.Completion)
         (registry : ReviewService.OrderedMap ReviewService.Provider)
         (filePath : string) (options : option ReviewService.Options),
    ~ In (JS.toLowerCase (extname filePath)) Spec.supportedByAnalyzeFile ->
    forall before after,
      ReviewService.analyzeFiles readFile extname complete registry
        (before ++ filePath :: after) options
      = ReviewService.analyzeFiles readFile extname complete registry
          (before ++ after) options.
Proof.
  intros readFile extname complete registry filePath options Hext before after.
  pose proof (unsupported_lookup _ Hext) as Hnone.
  assert (Hthrow : exists e, ReviewService.analyzeFile readFile extname complete registry
                               filePath options = Thrown e).
  { unfold ReviewService.analyzeFile, ReviewService.supportedLanguages.
    destruct (readFile filePath); [rewrite Hnone|]; eauto. }
  destruct Hthrow as [e He].
  unfold ReviewService.analyzeFiles. rewrite !fold_left_app. simpl.
  rewrite (directoryStep_thrown _ _ _ _ _ _ _ e He). reflexivity.
Qed.

(** C10, as amended.  For every path whose lower-cased extension is none
    of [.js], [.jsx], [.ts], [.tsx], [.py], [.java], [.go], [.rs],
    [analyzeFile] of the provider-aware service yields no result.  When
    the file can be read it throws [Unsupported file type] with the
    extension; when it cannot, it throws the error of the read instead.
    Either way it shows the error in the editor.  A directory scan skips
    such a file wherever it stands among the files found: the result is
    that of the scan without it; but not silently: besides the message
    in the editor the scan logs a warning that names the file.  The
    walker does collect [.c] and [.cpp] entries, which are not among the
    supported languages. *)
Theorem unsupported_file_type_rejected :
  forall (readFile : string -> outcome string) (extname : string -> string)
         (complete : ReviewService.SupportedLanguage -> string -> ReviewService.Completion)
         (registry : ReviewService.OrderedMap ReviewService.Provider)
         (filePath : string) (options : option ReviewService.Options),
    ~ In (JS.toLowerCase (extname filePath)) Spec.supportedByAnalyzeFile ->
    (forall r, ReviewService.analyzeFile readFile extname complete registry filePath options
               <> Resolved r)
    /\ (forall content, readFile filePath = Resolved content ->
          ReviewService.analyzeFile readFile extname complete registry filePath options
          = Thrown ("Unsupported file type: " ++ JS.toLowerCase (extname filePath)))
    /\ (forall e, readFile filePath = Thrown e ->
          ReviewService.analyzeFile readFile extname complete registry filePath options
          = Thrown e)
    /\ (exists e,
          ReviewService.analyzeFile readFile extname complete registry filePath options
          = Thrown e
          /\ Notices.analyzeFile readFile extname complete registry filePath options
             = [Notices.ErrorMessage e]
          /\ forall before after,
               Notices.analyzeFiles readFile extname complete registry
                 (before ++ filePath :: after) options
               = Notices.analyzeFiles readFile extname complete registry before options
                 ++ [Notices.ErrorMessage e; Notices.FileWarning filePath e]
                 ++ Notices.analyzeFiles readFile extname complete registry after options)
    /\ (forall before after,
          ReviewService.analyzeFiles readFile extname complete registry
            (before ++ filePath :: after) options
          = ReviewService.analyzeFiles readFile extname complete registry
              (before ++ after) options)
    /\ (forall join dir entryName,
          In (JS.toLowerCase (extname entryName)) [".c"; ".cpp"] ->
          ReviewService.scanEntry extname join dir (ReviewService.FileEntry entryName)
          = Resolved [join dir entryName])
    /\ ReviewService.supportedLanguages !! ".c" = None
    /\ ReviewService.supportedLanguages !! ".cpp" = None.
Proof.
  intros readFile extname complete registry filePath options Hext.
  pose proof (unsupported_lookup _ Hext) as Hnone.
  assert (Hthrow : exists e,
             ReviewService.analyzeFile readFile extname complete registry filePath options
             = Thrown e
             /\ Notices.analyzeFile readFile extname complete registry filePath options
                = [Notices.ErrorMessage e]).
  { unfold ReviewService.analyzeFile, Notices.analyzeFile, ReviewService.supportedLanguages.
    destruct (readFile filePath); [rewrite Hnone|]; eauto. }
  destruct Hthrow as (e & He & Hshown).
  split; [intros r; rewrite He; discriminate|].
  split.
  { intros content Hread. unfold ReviewService.analyzeFile, ReviewService.supportedLanguages.
    rewrite Hread, Hnone. reflexivity. }
  split.
  { intros e' Hread. unfold ReviewService.analyzeFile. rewrite Hread. reflexivity. }
  split.
  { exists e. split; [exact He|]. split; [exact Hshown|].
    intros before after. unfold Notices.analyzeFiles.
    rewrite flat_map_app. cbn [flat_map]. f_equal.
    unfold Notices.directoryStep at 1. rewrite He, Hshown. reflexivity. }
  split.
  { apply unsupported_file_is_dropped. exact Hext. }
  split.
  { intros join dir entryName Hin. simpl.
    destruct Hin as [<-|[<-|[]]]; reflexivity. }
  split; apply unsupported_lookup; vm_compute; intuition discriminate.
Qed.

Lemma unsupported_file_type_rejected_witness :
  ReviewService.analyzeFile Fixtures.readFile Node.extname Fixtures.quiet
    Fixtures.threeProviders "/w/main.c" None
  = Thrown "Unsupported file type: .c".
Proof.
  refine (proj1 (proj2 (unsupported_file_type_rejected Fixtures.readFile Node.extname
            Fixtures.quiet Fixtures.threeProviders "/w/main.c" None _)) _ eq_refl).
  vm_compute. intuition discriminate.
Defined.

(** A path with an unsupported extension that cannot be read: the error
    is that of the read and does not mention the file type.  And the
    scan of a directory with one C file is not silent about it. *)
Lemma unreadable_file_counterexample :
  ~ In (JS.toLowerCase (Node.extname "/w/missing.c")) Spec.supportedByAnalyzeFile
  /\ ReviewService.analyzeFile Fixtures.readFile Node.extname Fixtures.quiet
       Fixtures.threeProviders "/w/missing.c" None
     = Thrown "ENOENT: no such file or directory, open '/w/missing.c'"
  /\ JS.includes "Unsupported file type"
       "ENOENT: no such file or directory, open '/w/missing.c'" = false
  /\ Notices.analyzeFiles Fixtures.readFile Node.extname Fixtures.quiet
       Fixtures.threeProviders ["/w/main.c"] None
     = [Notices.ErrorMessage "Unsupported file type: .c";
        Notices.FileWarning "/w/main.c" "Unsupported file type: .c"].
Proof.
  split; [vm_compute; intuition discriminate|].
  split; [reflexivity|]. split; reflexivity.
Qed.

(** A directory with a C file next to a TypeScript file: the walker
    collects both, the scan is that of the TypeScript file alone. *)
Example c_file_skipped_example :
  ReviewService.findFiles Node.extname Node.join "/w"
    (Resolved [ReviewService.FileEntry "main.c"; ReviewService.FileEntry "two.ts"])
  = Resolved ["/w/main.c"; "/w/two.ts"]
  /\ ReviewService.analyzeDirectory Fixtures.readFile Node.extname Node.join Fixtures.quiet []
       "/w" (Resolved [ReviewService.FileEntry "main.c"; ReviewService.FileEntry "two.ts"]) None
     = Resolved (ReviewService.analyzeFiles Fixtures.readFile Node.extname Fixtures.quiet []
                   ["/w/two.ts"] None).
Proof.
  split; [reflexivity|].
  unfold ReviewService.analyzeDirectory.
  change (ReviewService.findFiles Node.extname Node.join "/w"
            (Resolved [ReviewService.FileEntry "main.c"; ReviewService.FileEntry "two.ts"]))
    with (Resolved (A := list string) ([] ++ "/w/main.c" :: ["/w/two.ts"])).
  cbv beta iota. apply f_equal.
  apply (unsupported_file_is_dropped Fixtures.readFile Node.extname Fixtures.quiet []
           "/w/main.c" None).
  vm_compute. intuition discriminate.
Qed.

(* ===================================================================== *)
(** * Filtering and the summary *)
(* ===================================================================== *)

(** C3, as amended.  In the result that the review tool builds after the
    severity and type filters, the issues are the filtered issues, the
    summary is the one computed from that filtered list (never from the
    list before filtering), [totalIssues] is the length of the list, and
    the four severity counts together with the number of filtered issues
    of severity [info], for which the summary has no count, make up
    [totalIssues]. *)
Theorem filtered_summary_consistent :
  forall (result : ReviewService.CodeReviewResult) (severityFilter : string)
         (issueTypes : list string),
    let filtered := ReviewTool.filteredResult result severityFilter issueTypes in
    let s := ReviewService.summary filtered in
    ReviewService.issues filtered
      = ReviewTool.filterIssues (ReviewService.issues result) severityFilter issueTypes
    /\ s = generateSummary (ReviewService.issues filtered)
    /\ totalIssues s = List.length (ReviewService.issues filtered)
    /\ criticalIssues s + highIssues s + mediumIssues s + lowIssues s
       + countIf (hasSeverity INFO) (ReviewService.issues filtered)
       = totalIssues s.
Proof.
  intros result sf tys filtered s. subst s filtered. simpl.
  repeat split. apply severity_partition.
Qed.

(** A provider reports one issue of severity [info]: after filtering with
    the defaults the total is 1 and the four counts add up to 0. *)
Lemma info_issue_counterexample :
  exists r,
    ReviewService.analyzeFile Fixtures.readFile Node.extname Fixtures.quiet
      Fixtures.infoProvider "/w/a.ts" (Some Fixtures.withThirdParty) = Resolved r
    /\ let s := ReviewService.summary
                  (ReviewTool.filteredResult r "all" ReviewTool.defaultIssueTypes) in
       totalIssues s = 1
       /\ criticalIssues s + highIssues s + mediumIssues s + lowIssues s = 0.
Proof.
  eexists. split.
  - apply (analyzeFile_resolved Fixtures.readFile Node.extname Fixtures.quiet
             Fixtures.infoProvider "/w/a.ts" "let x = 1" _ (Some Fixtures.withThirdParty)
             eq_refl ts_language).
  - split; reflexivity.
Qed.

(** C8.  Filtering is idempotent: filtering an already filtered list with
    the same severity filter and the same issue types changes nothing. *)
Theorem filterIssues_idempotent :
  forall (issues : list CodeIssue) (severityFilter : string) (issueTypes : list string),
    ReviewTool.filterIssues (ReviewTool.filterIssues issues severityFilter issueTypes)
                            severityFilter issueTypes
    = ReviewTool.filterIssues issues severityFilter issueTypes.
Proof.
  intros issues sf tys. unfold ReviewTool.filterIssues.
  destruct (negb (String.eqb sf "all")).
  - rewrite (filter_swap (ReviewTool.typeAllowed _) _ (List.filter _ issues)).
    rewrite !filter_twice. reflexivity.
  - apply filter_twice.
Qed.

(* ===================================================================== *)
(** * Metrics *)
(* ===================================================================== *)

(** C5, as amended.  The complexity of a content is 1 plus the number of
    pieces of [content.split(/\s+/)] that are exactly one of [if], [else],
    [while], [for], [case], [catch], [&&], [||], [?]; a keyword glued to
    other characters is not counted. *)
Theorem complexity_counts_keyword_words :
  forall content : string,
    complexity (Metrics.calculateMetrics content) = 1 + Spec.keywordWords content.
Proof.
  intros content. unfold Metrics.calculateMetrics, Metrics.countComplexity, Spec.keywordWords.
  simpl. apply (fold_count (fun w => JS.arrayIncludes w Metrics.complexityKeywords)).
Qed.

(** [if(x){y()}] contains the keyword [if] once, and its complexity is the
    base value 1. *)
Lemma keyword_glued_counterexample :
  Spec.keywordOccurrences "if(x){y()}" = 1
  /\ complexity (Metrics.calculateMetrics "if(x){y()}") = 1.
Proof. split; reflexivity. Qed.

Section Rounding.
Open Scope R_scope.

(** Rounding commutes with subtracting an integer. *)
Lemma Math_round_minus_Z (x : R) (k : Z) :
  Metrics.Math_round (x - IZR k) = (Metrics.Math_round x - k)%Z.
Proof.
  unfold Metrics.Math_round. symmetry. apply Int_part_spec.
  rewrite minus_IZR.
  destruct (base_Int_part (x + / 2)) as [Hle Hgt].
  split; lra.
Qed.

Lemma Math_round_upper (x : R) (z : Z) :
  x + / 2 < IZR z -> (Metrics.Math_round x < z)%Z.
Proof.
  intros H. apply lt_IZR. unfold Metrics.Math_round.
  destruct (base_Int_part (x + / 2)) as [Hle _]. lra.
Qed.

Lemma Math_round_lower (x : R) (z : Z) :
  IZR z <= x - / 2 -> (z <= Metrics.Math_round x)%Z.
Proof.
  intros H. unfold Metrics.Math_round.
  destruct (base_Int_part (x + / 2)) as [_ Hgt].
  assert (Hlt : IZR z < IZR (Int_part (x + / 2)) + 1) by lra.
  rewrite <- plus_IZR in Hlt. apply lt_IZR in Hlt. lia.
Qed.

Lemma ln_2_bounds : / 2 < ln 2 < 1.
Proof.
  split; [exact ln_lt_2|].
  assert (H : ln 2 < ln (exp 1)).
  { apply ln_increasing; [lra|]. pose proof (exp_ineq1 1). lra. }
  rewrite ln_exp in H. exact H.
Qed.

End Rounding.

(** The directory index, for at least one line of code, in closed form. *)
Lemma directory_index_value (L C N : nat) :
  0 < L ->
  Metrics.calculateMaintainabilityIndex L C N = Finite (Spec.directoryFormula L C N).
Proof.
  intros HL. unfold Metrics.calculateMaintainabilityIndex, Spec.directoryFormula.
  destruct (Nat.eqb_spec L 0) as [->|_]; [lia|].
  f_equal. f_equal.
  replace (INR N * 2)%R with (IZR (2 * Z.of_nat N)).
  - apply Math_round_minus_Z.
  - rewrite mult_IZR, <- INR_IZR_INZ. lra.
Qed.

(** Without any line of code the logarithm is [-Infinity] and so the index
    is [Infinity]. *)
Lemma empty_directory_index (C N : nat) :
  Metrics.calculateMaintainabilityIndex 0 C N = Infinity.
Proof. reflexivity. Qed.

(** Two lines, complexity 1, no issue: the per-file formula with the
    penalty gives at least 165, the directory index at most 160. *)
Lemma index_differs_for_two_lines :
  Metrics.calculateMaintainabilityIndex 2 1 0 <> Finite (Spec.perFileFormulaWithPenalty 2 1 0).
Proof.
  rewrite directory_index_value by lia.
  unfold Spec.directoryFormula, Spec.perFileFormulaWithPenalty.
  intros H. injection H as H.
  pose proof ln_2_bounds as [Hlo Hhi].
  change (INR 2) with (1 + 1)%R in H. change (INR 1) with 1%R in H.
  replace (1 + 1)%R with 2%R in H by lra.
  assert (H1 : (Metrics.Math_round (171 - 5.2 * ln 2 - 0.23 * 1 - 16.2 * ln 2) < 161)%Z)
    by (apply Math_round_upper; lra).
  assert (H2 : (165 <= Metrics.Math_round (171 - 5.2 * ln 2 - 0.23 * 1))%Z)
    by (apply Math_round_lower; lra).
  lia.
Qed.

(** The scan of a directory whose only collected file is [/w/two.ts]. *)
Lemma two_line_totals :
  fold_left (ReviewService.directoryStep Fixtures.readFile Node.extname Fixtures.quiet [] None)
            ["/w/two.ts"] ReviewService.noTotals
  = {| ReviewService.allIssues := []; ReviewService.allThirdPartyResults := [];
       ReviewService.totalLoc := 2; ReviewService.totalComplexity := 1 |}.
Proof.
  simpl. unfold ReviewService.directoryStep.
  rewrite (analyzeFile_resolved Fixtures.readFile Node.extname Fixtures.quiet []
             "/w/two.ts" Fixtures.twoLines _ None eq_refl ts_language).
  reflexivity.
Qed.

Lemma two_line_scan :
  let r := ReviewService.analyzeFiles Fixtures.readFile Node.extname Fixtures.quiet []
             ["/w/two.ts"] None in
  linesOfCode (ReviewService.metrics r) = 2
  /\ complexity (ReviewService.metrics r) = 1
  /\ List.length (ReviewService.issues r) = 0.
Proof.
  unfold ReviewService.analyzeFiles. rewrite two_line_totals. simpl. auto.
Qed.

Example walker_example :
  ReviewService.findFiles Node.extname Node.join "/w"
    (Resolved [ReviewService.FileEntry "two.ts"; ReviewService.FileEntry "notes.md";
               ReviewService.Directory "node_modules" [ReviewService.FileEntry "x.js"];
               ReviewService.Directory "lib" [ReviewService.FileEntry "main.C"]])
  = Resolved ["/w/two.ts"; "/w/lib/main.C"].
Proof. reflexivity. Qed.

(** C4, as amended.  For every directory scan that finds at least one line
    of code, with total lines L, total complexity C and N issues, the
    aggregate maintainability index is the per-file expression with one
    more term, [16.2 ln L], rounded and then reduced by two points per
    issue: [max(0, round(171 - 5.2 ln L - 0.23 C - 16.2 ln L) - 2 N)], read
    over the real numbers. *)
Theorem directory_maintainability_formula :
  forall (readFile : string -> outcome string) (extname : string -> string)
         (complete : ReviewService.SupportedLanguage -> string -> ReviewService.Completion)
         (registry : ReviewService.OrderedMap ReviewService.Provider)
         (files : list string) (options : option ReviewService.Options),
    let r := ReviewService.analyzeFiles readFile extname complete registry files options in
    let L := linesOfCode (ReviewService.metrics r) in
    let C := complexity (ReviewService.metrics r) in
    let N := List.length (ReviewService.issues r) in
    0 < L ->
    maintainabilityIndex (ReviewService.metrics r) = Finite (Spec.directoryFormula L C N).
Proof.
  intros readFile extname complete registry files options r L C N HL.
  subst r L C N. unfold ReviewService.analyzeFiles in *. simpl in *.
  apply directory_index_value. exact HL.
Qed.

Lemma directory_maintainability_formula_witness :
  maintainabilityIndex
    (ReviewService.metrics
       (ReviewService.analyzeFiles Fixtures.readFile Node.extname Fixtures.quiet []
          ["/w/two.ts"] None))
  = Finite (Spec.directoryFormula 2 1 0).
Proof.
  pose proof (directory_maintainability_formula Fixtures.readFile Node.extname
                Fixtures.quiet [] ["/w/two.ts"] None) as H.
  cbv zeta in H.
  destruct two_line_scan as (HL & HC & HN).
  rewrite HL, HC, HN in H. apply H. lia.
Defined.

(** A directory scan over one file of two lines, complexity 1 and no
    issue: the aggregate index is not the per-file formula less the
    penalty. *)
Lemma same_formula_counterexample :
  let r := ReviewService.analyzeFiles Fixtures.readFile Node.extname Fixtures.quiet []
             ["/w/two.ts"] None in
  linesOfCode (ReviewService.metrics r) = 2
  /\ complexity (ReviewService.metrics r) = 1
  /\ List.length (ReviewService.issues r) = 0
  /\ maintainabilityIndex (ReviewService.metrics r)
     <> Finite (Spec.perFileFormulaWithPenalty 2 1 0).
Proof.
  intros r. destruct two_line_scan as (HL & HC & HN). fold r in HL, HC, HN.
  repeat split; try assumption.
  subst r. unfold ReviewService.analyzeFiles. rewrite two_line_totals. simpl.
  apply index_differs_for_two_lines.
Qed.

(* ===================================================================== *)
(** * The heuristic scanner *)
(* ===================================================================== *)

Lemma forEachFrom_In {A B : Type} (body : A -> nat -> list B) (lines : list A) :
  forall (k idx : nat) (l : A) (x : B),
    nth_error lines idx = Some l ->
    In x (body l (k + idx)) ->
    In x (HeuristicService.forEachFrom body k lines).
Proof.
  induction lines as [|l0 lines IH]; intros k idx l x Hnth Hin.
  - destruct idx; discriminate.
  - simpl. apply in_or_app. destruct idx as [|idx]; simpl in Hnth.
    + injection Hnth as ->. left. rewrite Nat.add_0_r in Hin. exact Hin.
    + right. apply (IH (S k) idx l x Hnth).
      replace (S k + idx) with (k + S idx) by lia. exact Hin.
Qed.

(** The second secret pattern, [api[_-]?key ...], matches the line. *)
Lemma apiKey_pattern_matches :
  fst (RegExp.test (nth 1 HeuristicService.secretPatterns (RegExp.literal RegExp.Eps false false))
                   Spec.apiKeyLine) = true.
Proof. vm_compute. reflexivity. Qed.

Lemma securityAt_apiKey filePath fileExtension l index :
  JS.trim l = Spec.apiKeyLine ->
  In (Spec.secretIssue filePath (index + 1))
     (HeuristicService.securityAt filePath fileExtension l index).
Proof.
  intros Htrim. unfold HeuristicService.securityAt. rewrite Htrim.
  apply in_or_app. left.
  unfold HeuristicService.secretPatterns. cbn [flat_map].
  apply in_or_app. right. apply in_or_app. left.
  pose proof apiKey_pattern_matches as H. cbn [nth HeuristicService.secretPatterns] in H.
  rewrite H. left. reflexivity.
Qed.

Lemma scan_of_apiKey_file :
  HeuristicService.scan Spec.apiKeyLine "/w/key.js" ".js" = [Spec.secretIssue "/w/key.js" 1].
Proof. vm_compute. reflexivity. Qed.

(** C6, as amended.  Scanning a file one of whose lines is, up to
    surrounding white space, [const apiKey = "sk-1234567890"] yields an
    issue of type security and severity critical with rule id
    [hardcoded-secrets], located at that line of that file; the issue has
    no [source] property. *)
Theorem hardcoded_secret_reported :
  forall (readFile : string -> outcome string) (extname : string -> string)
         (filePath content : string) (index : nat) (l : string),
    readFile filePath = Resolved content ->
    nth_error (JS.splitOn JS.newline content) index = Some l ->
    JS.trim l = Spec.apiKeyLine ->
    exists r i,
      HeuristicService.analyzeFile readFile extname filePath = Resolved r
      /\ In i (HeuristicService.issues r)
      /\ Spec.isHardcodedSecret i
      /\ file i = filePath /\ line i = index + 1
      /\ source i = None.
Proof.
  intros readFile extname filePath content index l Hread Hnth Htrim.
  unfold HeuristicService.analyzeFile. rewrite Hread.
  eexists. exists (Spec.secretIssue filePath (index + 1)).
  split; [reflexivity|]. split.
  - simpl. unfold HeuristicService.scan.
    apply in_or_app. right. apply in_or_app. left.
    unfold HeuristicService.checkSecurity, HeuristicService.forEach.
    apply (forEachFrom_In _ _ 0 index l _ Hnth).
    apply securityAt_apiKey. exact Htrim.
  - repeat split.
Qed.

Lemma hardcoded_secret_reported_witness :
  exists r i,
    HeuristicService.analyzeFile Fixtures.readFile Node.extname "/w/key.js" = Resolved r
    /\ In i (HeuristicService.issues r)
    /\ Spec.isHardcodedSecret i
    /\ file i = "/w/key.js" /\ line i = 1
    /\ source i = None.
Proof.
  exact (hardcoded_secret_reported Fixtures.readFile Node.extname "/w/key.js"
           Spec.apiKeyLine 0 Spec.apiKeyLine eq_refl eq_refl eq_refl).
Defined.

(** The file [/w/key.js] holds just that line: the scan resolves, and no
    issue of the hard-coded secret rule has the source [heuristic]. *)
Lemma heuristic_source_counterexample :
  exists r,
    HeuristicService.analyzeFile Fixtures.readFile Node.extname "/w/key.js" = Resolved r
    /\ ~ (exists i, In i (HeuristicService.issues r)
                    /\ Spec.isHardcodedSecret i
                    /\ source i = Some "heuristic").
Proof.
  eexists. split; [reflexivity|].
  cbn [HeuristicService.issues].
  change (JS.toLowerCase (Node.extname "/w/key.js")) with ".js".
  rewrite scan_of_apiKey_file.
  intros (i & [<-|[]] & _ & Hsrc). discriminate Hsrc.
Qed.

(* ===================================================================== *)
(** * Two scans on one heap *)
(* ===================================================================== *)

Section HeapFacts.
Import JS RegExp ScanRuns.

Lemma fst_bind {A B : Type} (m : Run A) (k : A -> Run B) (heap : Heap) :
  fst (bind m k heap) = fst (k (fst (m heap)) (snd (m heap))).
Proof. unfold bind. destruct (m heap). reflexivity. Qed.

Lemma snd_bind {A B : Type} (m : Run A) (k : A -> Run B) (heap : Heap) :
  snd (bind m k heap) = snd (k (fst (m heap)) (snd (m heap))).
Proof. unfold bind. destruct (m heap). reflexivity. Qed.

(** [test] on an object reads and writes that object only. *)
Lemma testAt_middle (before after : Heap) (re : RegExp.t) (s : string) :
  testAt (List.length before) s (before ++ re :: after)
  = (fst (test re s), before ++ snd (test re s) :: after).
Proof.
  unfold testAt, Heap. rewrite list_lookup_middle by reflexivity.
  destruct (test re s) as [answer re']. simpl. f_equal.
  rewrite <- (Nat.add_0_r (List.length before)), insert_app_r. reflexivity.
Qed.

(** A literal that is tested right after it was evaluated answers as
    the new object does, whatever else the heap holds. *)
Lemma test_of_literal (re : RegExp.t) (s : string) (heap : Heap) :
  bind (evaluate re) (fun address => testAt address s) heap
  = (fst (test re s), heap ++ [snd (test re s)]).
Proof. unfold bind, evaluate. apply testAt_middle. Qed.

Lemma evaluateAll_heap (res : list RegExp.t) :
  forall heap, evaluateAll res heap = (seq (List.length heap) (List.length res), heap ++ res).
Proof.
  induction res as [|re rest IH]; intros heap; simpl.
  - unfold ret. rewrite app_nil_r. reflexivity.
  - unfold bind, evaluate. rewrite IH. unfold ret.
    rewrite length_app, <- app_assoc. simpl. rewrite Nat.add_1_r. reflexivity.
Qed.

Lemma testing_middle (s : string) (found : bool -> list CodeIssue)
      (before after : Heap) (re : RegExp.t) :
  bind (testAt (List.length before) s) (fun hit => ret (found hit)) (before ++ re :: after)
  = (found (fst (test re s)), before ++ snd (test re s) :: after).
Proof. unfold bind. rewrite testAt_middle. reflexivity. Qed.

(** Testing the objects of an array one after the other: each answers
    as its literal does. *)
Lemma forEachOf_tests (s : string) (found : bool -> list CodeIssue) (res : list RegExp.t) :
  forall (before after : Heap),
    fst (forEachOf (fun pattern => bind (testAt pattern s) (fun hit => ret (found hit)))
                   (seq (List.length before) (List.length res))
                   (before ++ res ++ after))
    = flat_map (fun re => found (fst (test re s))) res.
Proof.
  induction res as [|re rest IH]; intros before after; [reflexivity|].
  cbn [forEachOf seq List.length flat_map app].
  rewrite fst_bind, testing_middle. cbn [fst snd].
  rewrite fst_bind. unfold ret at 1. cbn [fst].
  f_equal.
  replace (before ++ snd (test re s) :: rest ++ after)
    with ((before ++ [snd (test re s)]) ++ rest ++ after)
    by (rewrite <- app_assoc; reflexivity).
  replace (S (List.length before)) with (List.length (before ++ [snd (test re s)]))
    by (rewrite length_app; simpl; lia).
  apply IH.
Qed.

Lemma forEachFrom_pure {A B : Type} (body : A -> nat -> Run (list B))
      (pure : A -> nat -> list B) :
  (forall l index heap, fst (body l index heap) = pure l index) ->
  forall lines index heap,
    fst (ScanRuns.forEachFrom body index lines heap)
    = HeuristicService.forEachFrom pure index lines.
Proof.
  intros Hbody. induction lines as [|l rest IH]; intros index heap; [reflexivity|].
  cbn [ScanRuns.forEachFrom HeuristicService.forEachFrom].
  rewrite fst_bind, fst_bind. unfold ret. cbn [fst]. rewrite Hbody, IH. reflexivity.
Qed.

(** The callbacks give what the checks of [HeuristicService] give, on
    every heap. *)
Lemma qualityAt_pure filePath fileExtension l index heap :
  fst (ScanRuns.qualityAt filePath fileExtension l index heap)
  = HeuristicService.qualityAt filePath fileExtension l index.
Proof.
  unfold ScanRuns.qualityAt, HeuristicService.qualityAt. cbv zeta.
  rewrite fst_bind. unfold evaluate at 1. cbn [fst snd].
  rewrite fst_bind. unfold ret at 1. cbn [fst].
  destruct (arrayIncludes fileExtension HeuristicService.webScriptExtensions).
  - unfold bind at 1. unfold evaluate at 1.
    rewrite fst_bind, testAt_middle. unfold ret. cbn [fst snd]. reflexivity.
  - unfold ret. cbn [fst]. reflexivity.
Qed.

Lemma securityAt_pure filePath fileExtension l index heap :
  fst (ScanRuns.securityAt filePath fileExtension l index heap)
  = HeuristicService.securityAt filePath fileExtension l index.
Proof.
  unfold ScanRuns.securityAt, HeuristicService.securityAt. cbv zeta.
  rewrite fst_bind, evaluateAll_heap. cbn [fst snd].
  rewrite fst_bind. unfold ret at 1. cbn [fst].
  rewrite <- (app_nil_r (heap ++ HeuristicService.secretPatterns)), <- app_assoc.
  rewrite (forEachOf_tests (trim l)
             (fun hit => HeuristicService.pushIf hit _)).
  reflexivity.
Qed.

Lemma scan_pure content filePath fileExtension heap :
  fst (ScanRuns.scan content filePath fileExtension heap)
  = HeuristicService.scan content filePath fileExtension.
Proof.
  unfold ScanRuns.scan, HeuristicService.scan.
  rewrite !fst_bind. unfold ret, ScanRuns.checkPerformance, ScanRuns.checkCodeStyle.
  cbn [fst snd].
  unfold ScanRuns.checkCodeQuality, ScanRuns.checkSecurity, ScanRuns.forEach.
  rewrite (forEachFrom_pure _ (HeuristicService.qualityAt filePath fileExtension))
    by (intros; apply qualityAt_pure).
  rewrite (forEachFrom_pure _ (HeuristicService.securityAt filePath fileExtension))
    by (intros; apply securityAt_pure).
  reflexivity.
Qed.

End HeapFacts.

(** An object with the [g] flag that is shared between two tests answers
    differently the second time: the heap is state that a check could
    carry from one line, or one scan, to the next. *)
Example shared_object_remembers :
  let heap := snd (ScanRuns.evaluate HeuristicService.magicNumberPattern []) in
  fst (ScanRuns.testAt 0 "12" heap) = true
  /\ fst (ScanRuns.testAt 0 "12" (snd (ScanRuns.testAt 0 "12" heap))) = false.
Proof. split; reflexivity. Qed.

(** A scan leaves its objects behind, some with a [lastIndex] that has
    moved. *)
Example scan_leaves_objects :
  List.length ScanRuns.usedHeap = 6
  /\ option_map RegExp.lastIndex (ScanRuns.usedHeap !! 1) = Some 8.
Proof. split; reflexivity. Qed.

(** C7.  The heuristic scan is deterministic.  The regular expressions
    of the checks are objects on a heap that outlasts a scan; a second
    scan of the same content, path and extension, run on the heap as the
    first scan left it, yields the same issue list as the first: the same
    length, the same order and the same issue, field by field, at every
    position.  The list is the same on every heap, because each check
    evaluates its literals anew and tests only the objects it has just
    made. *)
Theorem scan_deterministic :
  forall (content filePath fileExtension : string) (heap : ScanRuns.Heap),
    let first := ScanRuns.scan content filePath fileExtension heap in
    let second := ScanRuns.scan content filePath fileExtension (snd first) in
    fst second = fst first
    /\ List.length (fst second) = List.length (fst first)
    /\ (forall k, nth_error (fst second) k = nth_error (fst first) k)
    /\ (forall other, fst (ScanRuns.scan content filePath fileExtension other) = fst first).
Proof.
  intros content filePath fileExtension heap first second.
  assert (H : forall other,
             fst (ScanRuns.scan content filePath fileExtension other) = fst first).
  { intros other. subst first. rewrite !scan_pure. reflexivity. }
  subst second. rewrite H. auto.
Qed.

Lemma scan_deterministic_witness :
  fst (ScanRuns.scan "x = 1234" "/w/old.js" ".js" ScanRuns.usedHeap)
  = fst (ScanRuns.scan "x = 1234" "/w/old.js" ".js" []).
Proof.
  exact (proj1 (scan_deterministic "x = 1234" "/w/old.js" ".js" [])).
Defined.

(* ===================================================================== *)
(** * Provider configuration *)
(* ===================================================================== *)

Section NumberFacts.

Lemma truthy_not_NaN (n : JSNumber) : Number.truthy n = true -> Number.isNaN n = false.
Proof. destruct n; simpl; congruence. Qed.

(** A number that is neither [NaN], nor below [lo], nor above [hi] lies
    between the two. *)
Lemma number_within (lo hi : Z) (n : JSNumber) :
  Number.isNaN n = false ->
  Number.lessThan n lo = false -> Number.greaterThan n hi = false ->
  Number.within lo hi n.
Proof.
  destruct n as [q| | |]; simpl; try discriminate.
  intros _ Hlo Hhi. apply negb_false_iff in Hlo, Hhi.
  apply Qle_bool_iff in Hlo, Hhi. split; assumption.
Qed.

(** And the other way round. *)
Lemma within_number (lo hi : Z) (n : JSNumber) :
  Number.within lo hi n ->
  Number.isNaN n = false
  /\ Number.lessThan n lo = false /\ Number.greaterThan n hi = false.
Proof.
  destruct n as [q| | |]; simpl; try contradiction.
  intros [Hlo Hhi]. apply Qle_bool_iff in Hlo, Hhi. rewrite Hlo, Hhi. auto.
Qed.

End NumberFacts.

Section ConfigFacts.
Import ProviderConfig.
Variable parsesAsURL : string -> bool.

Lemma isEmpty_false {A : Type} (l : list A) : isEmpty l = false <-> l <> [].
Proof. destruct l; simpl; split; congruence. Qed.

Lemma missing_key_reported t config key :
  In key (requiredConfig t) -> hasValue config key = false ->
  In ("Missing required configuration: " ++ key)%string (requiredErrors t config).
Proof.
  intros Hin Hval. unfold requiredErrors. apply in_flat_map.
  exists key. split; [exact Hin|]. rewrite Hval. left. reflexivity.
Qed.

Lemma bad_endpoint_reported config ep :
  endpoint config = Some ep -> ep <> "" -> parsesAsURL ep = false ->
  endpointErrors parsesAsURL config = ["Invalid endpoint URL format"].
Proof.
  intros He Hne Hp. unfold endpointErrors. rewrite He, Hp.
  destruct (String.eqb ep "") eqn:E; [apply String.eqb_eq in E; contradiction|].
  reflexivity.
Qed.

Lemma bad_timeout_reported config n :
  timeout config = Some n -> Number.truthy n = true ->
  Number.lessThan n 1000 = true \/ Number.greaterThan n 300000 = true ->
  timeoutErrors config = ["Timeout must be between 1000ms and 300000ms"].
Proof.
  intros Ht Hz Hr. unfold timeoutErrors. rewrite Ht, Hz.
  destruct Hr as [-> | ->]; rewrite ?orb_true_r; reflexivity.
Qed.

Lemma bad_retry_reported config n :
  retryAttempts config = Some n -> Number.truthy n = true ->
  Number.lessThan n 0 = true \/ Number.greaterThan n 10 = true ->
  retryErrors config = ["Retry attempts must be between 0 and 10"].
Proof.
  intros Ht Hz Hr. unfold retryErrors. rewrite Ht, Hz.
  destruct Hr as [-> | ->]; rewrite ?orb_true_r; reflexivity.
Qed.

(** A call that resolves has stored the configuration under the id and
    nothing else. *)
Lemma setProviderConfig_accepts st providerId config :
  fst (setProviderConfig parsesAsURL st providerId config) = Resolved tt ->
  snd (setProviderConfig parsesAsURL st providerId config)
  = {| providers := <[providerId := config]> (providers st);
       enabledProviders := enabledProviders st |}
  /\ getProviderConfig (snd (setProviderConfig parsesAsURL st providerId config)) providerId
     = Some config
  /\ exists t, lookupTemplate providerId = OwnTemplate t
               /\ requiredErrors t config = [] /\ endpointErrors parsesAsURL config = []
               /\ timeoutErrors config = [] /\ retryErrors config = [].
Proof.
  unfold setProviderConfig, validateProviderConfig, getProviderConfig.
  destruct (lookupTemplate providerId) as [t| |]; simpl; try discriminate.
  destruct (requiredErrors t config ++ endpointErrors parsesAsURL config
            ++ timeoutErrors config ++ retryErrors config) eqn:E; simpl; try discriminate.
  intros _. split; [reflexivity|]. split; [apply lookup_insert_eq|].
  exists t. split; [reflexivity|].
  apply app_eq_nil in E as [E1 E]. apply app_eq_nil in E as [E2 E].
  apply app_eq_nil in E as [E3 E4]. auto.
Qed.
End ConfigFacts.

Section RejectionFacts.
Import ProviderConfig.
Variable parsesAsURL : string -> bool.

(** A validation that fails makes [setProviderConfig] throw, with the
    errors joined by commas, and the settings stay as they were. *)
Lemma failed_validation_throws st providerId config v :
  validateProviderConfig parsesAsURL providerId config = Resolved v ->
  isValid v = false ->
  setProviderConfig parsesAsURL st providerId config
  = (Thrown ("Configuration validation failed: " ++ JS.join ", " (errors v)), st).
Proof.
  intros Hv Hbad. unfold setProviderConfig. rewrite Hv, Hbad. reflexivity.
Qed.

(** A call that does not resolve leaves the settings alone. *)
Lemma unresolved_leaves_settings st providerId config :
  fst (setProviderConfig parsesAsURL st providerId config) <> Resolved tt ->
  snd (setProviderConfig parsesAsURL st providerId config) = st.
Proof.
  unfold setProviderConfig.
  destruct (validateProviderConfig parsesAsURL providerId config) as [v|e]; [|reflexivity].
  destruct (isValid v); simpl; [congruence | reflexivity].
Qed.

End RejectionFacts.

(** C9, as amended.  Setting a provider configuration is validated and
    atomic.  [setProviderConfig] runs [validateProviderConfig]; whenever
    that reports the configuration as invalid the call throws
    [Configuration validation failed:] followed by the errors joined by
    commas, and whenever the call does not resolve the stored settings
    are unchanged.  For an id without a template, such as [vendorX], the
    validation always fails, with the one error [Unknown provider] and
    the id, which names no field; for an id that names a member of
    [Object.prototype] the validation itself throws, and so does the
    call.  For an id with a template the call
    throws exactly when the list of errors is not empty and otherwise
    stores the configuration; the list holds a message for every
    offending field: a required key that is absent or falsy, an endpoint
    that is not empty and does not parse as a URL, a truthy timeout
    (neither 0 nor [NaN]) below 1000 or above 300000, truthy retry
    attempts below 0 or above 10. *)
Theorem setProviderConfig_rejects_atomically :
  forall (parsesAsURL : string -> bool) (st : ProviderConfig.Settings)
         (providerId : string) (config : ProviderConfig.ThirdPartyProviderConfig),
    (fst (ProviderConfig.setProviderConfig parsesAsURL st providerId config) <> Resolved tt ->
     snd (ProviderConfig.setProviderConfig parsesAsURL st providerId config) = st)
    /\ (forall v,
          ProviderConfig.validateProviderConfig parsesAsURL providerId config = Resolved v ->
          ProviderConfig.isValid v = false ->
          ProviderConfig.setProviderConfig parsesAsURL st providerId config
          = (Thrown ("Configuration validation failed: "
                     ++ JS.join ", " (ProviderConfig.errors v)), st))
    /\ (ProviderConfig.lookupTemplate providerId = ProviderConfig.Undefined ->
        ProviderConfig.setProviderConfig parsesAsURL st providerId config
        = (Thrown ("Configuration validation failed: Unknown provider: " ++ providerId), st))
    /\ (ProviderConfig.lookupTemplate providerId = ProviderConfig.Inherited ->
        exists e,
          ProviderConfig.setProviderConfig parsesAsURL st providerId config = (Thrown e, st))
    /\ (forall t, ProviderConfig.lookupTemplate providerId = ProviderConfig.OwnTemplate t ->
        exists errs,
          ProviderConfig.validateProviderConfig parsesAsURL providerId config
          = Resolved {| ProviderConfig.isValid := ProviderConfig.isEmpty errs;
                        ProviderConfig.errors := errs |}
          /\ (errs <> [] ->
              ProviderConfig.setProviderConfig parsesAsURL st providerId config
              = (Thrown ("Configuration validation failed: " ++ JS.join ", " errs), st))
          /\ (errs = [] ->
              ProviderConfig.setProviderConfig parsesAsURL st providerId config
              = (Resolved tt,
                 {| ProviderConfig.providers :=
                      <[providerId := config]> (ProviderConfig.providers st);
                    ProviderConfig.enabledProviders := ProviderConfig.enabledProviders st |}))
          /\ (forall key, In key (ProviderConfig.requiredConfig t) ->
                ProviderConfig.hasValue config key = false ->
                In ("Missing required configuration: " ++ key)%string errs)
          /\ (forall ep, ProviderConfig.endpoint config = Some ep -> ep <> "" ->
                parsesAsURL ep = false -> In "Invalid endpoint URL format" errs)
          /\ (forall n, ProviderConfig.timeout config = Some n ->
                Number.truthy n = true ->
                Number.lessThan n 1000 = true \/ Number.greaterThan n 300000 = true ->
                In "Timeout must be between 1000ms and 300000ms" errs)
          /\ (forall n, ProviderConfig.retryAttempts config = Some n ->
                Number.truthy n = true ->
                Number.lessThan n 0 = true \/ Number.greaterThan n 10 = true ->
                In "Retry attempts must be between 0 and 10" errs)).
Proof.
  intros parse st providerId config.
  split; [apply unresolved_leaves_settings|].
  split; [intros v; apply failed_validation_throws|].
  split.
  { intros Hl. apply (failed_validation_throws parse st providerId config
                        {| ProviderConfig.isValid := false;
                           ProviderConfig.errors := [("Unknown provider: " ++ providerId)%string] |});
      [|reflexivity].
    unfold ProviderConfig.validateProviderConfig. rewrite Hl. reflexivity. }
  split.
  { intros Hl. eexists.
    unfold ProviderConfig.setProviderConfig, ProviderConfig.validateProviderConfig.
    rewrite Hl. reflexivity. }
  intros t Hl.
  exists (ProviderConfig.requiredErrors t config
          ++ ProviderConfig.endpointErrors parse config
          ++ ProviderConfig.timeoutErrors config
          ++ ProviderConfig.retryErrors config).
  set (errs := ProviderConfig.requiredErrors t config ++ _).
  assert (Hv : ProviderConfig.validateProviderConfig parse providerId config
               = Resolved {| ProviderConfig.isValid := ProviderConfig.isEmpty errs;
                             ProviderConfig.errors := errs |}).
  { unfold ProviderConfig.validateProviderConfig. rewrite Hl. reflexivity. }
  split; [exact Hv|]. split; [|split].
  - intros Hne. apply (failed_validation_throws parse st providerId config _ Hv).
    simpl. destruct errs; [contradiction | reflexivity].
  - intros He. unfold ProviderConfig.setProviderConfig. rewrite Hv, He. reflexivity.
  - subst errs. split; [|split; [|split]].
    + intros key Hin Hval. apply in_or_app. left.
      apply missing_key_reported; assumption.
    + intros ep He Hne Hp. apply in_or_app. right. apply in_or_app. left.
      rewrite (bad_endpoint_reported parse config ep He Hne Hp). left. reflexivity.
    + intros n Ht Hz Hr. apply in_or_app. right. apply in_or_app. right.
      apply in_or_app. left.
      rewrite (bad_timeout_reported config n Ht Hz Hr). left. reflexivity.
    + intros n Ht Hz Hr. apply in_or_app. right. apply in_or_app. right.
      apply in_or_app. right.
      rewrite (bad_retry_reported config n Ht Hz Hr). left. reflexivity.
Qed.

Lemma setProviderConfig_rejects_atomically_witness :
  ProviderConfig.setProviderConfig Node.hasScheme Fixtures.noSettings "sonarqube"
    Fixtures.sonarqubeBadEndpoint
  = (Thrown "Configuration validation failed: Invalid endpoint URL format", Fixtures.noSettings).
Proof.
  exact (proj1 (proj2 (setProviderConfig_rejects_atomically Node.hasScheme Fixtures.noSettings
                         "sonarqube" Fixtures.sonarqubeBadEndpoint))
               {| ProviderConfig.isValid := false;
                  ProviderConfig.errors := ["Invalid endpoint URL format"] |}
               eq_refl eq_refl).
Defined.

(** The scenario of the specification: [vendorX] has no template, so the
    error names the provider and not the endpoint. *)
Lemma vendorX_counterexample :
  fst (ProviderConfig.setProviderConfig Node.hasScheme Fixtures.noSettings "vendorX"
         Fixtures.onlyBadEndpoint)
  = Thrown "Configuration validation failed: Unknown provider: vendorX"
  /\ JS.includes "endpoint" "Configuration validation failed: Unknown provider: vendorX" = false.
Proof. split; reflexivity. Qed.

(** A timeout of 0 is falsy, so the range check is skipped and the
    configuration is stored; the per-field validator of the settings page
    rejects the same value. *)
Lemma zero_timeout_is_stored :
  fst (ProviderConfig.setProviderConfig Node.hasScheme Fixtures.noSettings "eslint"
         Fixtures.zeroTimeout) = Resolved tt
  /\ ProviderConfig.getProviderConfig
       (snd (ProviderConfig.setProviderConfig Node.hasScheme Fixtures.noSettings "eslint"
               Fixtures.zeroTimeout)) "eslint" = Some Fixtures.zeroTimeout
  /\ ProviderConfig.timeoutFieldRejected (Some (Number.integer 0)) = true.
Proof.
  split; [reflexivity|]. split; [|reflexivity].
  apply (setProviderConfig_accepts Node.hasScheme). reflexivity.
Qed.

(* ===================================================================== *)
(** * The settings manager: invariants and round trips *)
(* ===================================================================== *)

Section ManagerFacts.
Import ProviderConfig SettingsManager.
Variable parsesAsURL : string -> bool.

Lemma addEnabled_configured (configured : gmap string ThirdPartyProviderConfig)
      (ids : list string) :
  forall (acc : gset string) (x : string),
    x ∈ fold_left (fun s providerId =>
                     match configured !! providerId with
                     | Some _ => {[providerId]} ∪ s
                     | None => s
                     end) ids acc ->
    x ∈ acc \/ (In x ids /\ is_Some (configured !! x)).
Proof.
  induction ids as [|i ids IH]; intros acc x Hx; simpl in *; [left; exact Hx|].
  apply IH in Hx. destruct Hx as [Hx|[Hin Hs]]; [|right; split; [right|]; assumption].
  destruct (configured !! i) eqn:E; [|left; exact Hx].
  apply elem_of_union in Hx as [Hx|Hx]; [|left; exact Hx].
  apply elem_of_singleton in Hx. subst x. right. split; [left; reflexivity|].
  rewrite E. eauto.
Qed.

Lemma addEnabled_complete (configured : gmap string ThirdPartyProviderConfig)
      (ids : list string) :
  forall (acc : gset string) (x : string),
    (x ∈ acc \/ (In x ids /\ is_Some (configured !! x))) ->
    x ∈ fold_left (fun s providerId =>
                     match configured !! providerId with
                     | Some _ => {[providerId]} ∪ s
                     | None => s
                     end) ids acc.
Proof.
  induction ids as [|i ids IH]; intros acc x Hx; simpl in *.
  - destruct Hx as [Hx|[[] _]]. exact Hx.
  - apply IH. destruct Hx as [Hx|[[->|Hin] Hs]].
    + left. destruct (configured !! i); [apply elem_of_union; right|]; exact Hx.
    + left. destruct Hs as [c Hc]. rewrite Hc. apply elem_of_union. left.
      apply elem_of_singleton. reflexivity.
    + right. split; assumption.
Qed.

Lemma execute_keeps_configured (st : Settings) (c : Command) :
  enabledAreConfigured st -> enabledAreConfigured (snd (execute parsesAsURL st c)).
Proof.
  intros Hst. destruct c as [i cfg|i|i|i|bundle]; simpl.
  - unfold setProviderConfig.
    destruct (validateProviderConfig parsesAsURL i cfg) as [v|e]; simpl; [|exact Hst].
    destruct (isValid v); simpl; [|exact Hst].
    intros x Hx. simpl in *. destruct (decide (i = x)) as [->|Hne].
    + rewrite lookup_insert_eq. eauto.
    + rewrite lookup_insert_ne by exact Hne. apply Hst. exact Hx.
  - intros x Hx. simpl in *. apply elem_of_difference in Hx as [Hx Hne].
    rewrite lookup_delete_ne.
    + apply Hst. exact Hx.
    + intros ->. apply Hne. apply elem_of_singleton. reflexivity.
  - unfold enableProvider. destruct (providers st !! i) eqn:E; simpl; [|exact Hst].
    intros x Hx. simpl in *. apply elem_of_union in Hx as [Hx|Hx].
    + apply elem_of_singleton in Hx. subst x. rewrite E. eauto.
    + apply Hst. exact Hx.
  - intros x Hx. simpl in *. apply elem_of_difference in Hx as [Hx _]. apply Hst. exact Hx.
  - unfold importConfig.
    destruct (validateEntries parsesAsURL (bundleProviders bundle)); simpl; [|exact Hst].
    intros x Hx. simpl in *. unfold addEnabled in Hx.
    apply addEnabled_configured in Hx as [Hx|[_ Hs]]; [|exact Hs].
    apply not_elem_of_empty in Hx. destruct Hx.
Qed.

Lemma calls_keep (P : Settings -> Prop) :
  (forall st c, P st -> P (snd (execute parsesAsURL st c))) ->
  forall cs st, P st -> P (fold_left (fun st c => snd (execute parsesAsURL st c)) cs st).
Proof.
  intros Hstep cs. induction cs as [|c cs IH]; intros st Hst; simpl; [exact Hst|].
  apply IH. apply Hstep. exact Hst.
Qed.

(** A valid configuration, field by field. *)
Lemma valid_withinBounds providerId config :
  validateProviderConfig parsesAsURL providerId config
  = Resolved {| isValid := true; errors := [] |} ->
  exists t, lookupTemplate providerId = OwnTemplate t /\ withinBounds parsesAsURL t config.
Proof.
  unfold validateProviderConfig.
  destruct (lookupTemplate providerId) as [t| |]; try discriminate.
  intros [= Hv He]. exists t. split; [reflexivity|].
  apply app_eq_nil in He as [E1 He]. apply app_eq_nil in He as [E2 He].
  apply app_eq_nil in He as [E3 E4].
  unfold withinBounds. split; [|split; [|split]].
  - intros key Hin. destruct (hasValue config key) eqn:Hk; [reflexivity|].
    exfalso. unfold requiredErrors in E1.
    assert (Hi : In ("Missing required configuration: " ++ key)%string
                    (flat_map (fun required =>
                       if negb (hasValue config required)
                       then [("Missing required configuration: " ++ required)%string]
                       else []) (requiredConfig t))).
    { apply in_flat_map. exists key. split; [exact Hin|]. rewrite Hk. left. reflexivity. }
    rewrite E1 in Hi. destruct Hi.
  - intros e Hend. unfold endpointErrors in E2. rewrite Hend in E2.
    destruct (String.eqb_spec e ""); [left; assumption|].
    destruct (parsesAsURL e); [right; reflexivity|discriminate].
  - intros n Hn. unfold timeoutErrors in E3. rewrite Hn in E3.
    destruct (Number.truthy n) eqn:Hz; [right | left; reflexivity].
    destruct (Number.lessThan n 1000) eqn:Hlo; [discriminate|].
    destruct (Number.greaterThan n 300000) eqn:Hhi; [discriminate|].
    apply number_within; [apply truthy_not_NaN | |]; assumption.
  - intros n Hn. unfold retryErrors in E4. rewrite Hn in E4.
    destruct (Number.truthy n) eqn:Hz; [right | left; reflexivity].
    destruct (Number.lessThan n 0) eqn:Hlo; [discriminate|].
    destruct (Number.greaterThan n 10) eqn:Hhi; [discriminate|].
    apply number_within; [apply truthy_not_NaN | |]; assumption.
Qed.

End ManagerFacts.

Section ManagerInvariants.
Import ProviderConfig SettingsManager.
Variable parsesAsURL : string -> bool.

Lemma valid_shape providerId config v :
  validateProviderConfig parsesAsURL providerId config = Resolved v ->
  isValid v = true -> v = {| isValid := true; errors := [] |}.
Proof.
  unfold validateProviderConfig.
  destruct (lookupTemplate providerId) as [t| |]; try discriminate.
  - intros [= <-]. simpl. destruct (requiredErrors t config ++ _); [reflexivity|discriminate].
  - intros [= <-]. discriminate.
Qed.

Lemma validateEntries_each entries :
  validateEntries parsesAsURL entries = Resolved tt ->
  forall providerId config, In (providerId, config) entries ->
    validateProviderConfig parsesAsURL providerId config
    = Resolved {| isValid := true; errors := [] |}.
Proof.
  induction entries as [|[i c] entries IH]; simpl; intros Hall providerId config Hin.
  - destruct Hin.
  - destruct (validateProviderConfig parsesAsURL i c) as [v|e] eqn:Hv; [|discriminate].
    destruct (isValid v) eqn:Hok; simpl in Hall; [|discriminate].
    destruct Hin as [[= <- <-]|Hin].
    + rewrite Hv. f_equal. eapply valid_shape; eassumption.
    + apply IH; assumption.
Qed.

Lemma validateEntries_all entries :
  (forall providerId config, In (providerId, config) entries ->
     validateProviderConfig parsesAsURL providerId config
     = Resolved {| isValid := true; errors := [] |}) ->
  validateEntries parsesAsURL entries = Resolved tt.
Proof.
  induction entries as [|[i c] entries IH]; simpl; intros Hall; [reflexivity|].
  rewrite (Hall i c) by (left; reflexivity). simpl.
  apply IH. intros providerId config Hin. apply Hall. right. exact Hin.
Qed.

Lemma fold_insert_lookup (entries : list (string * ThirdPartyProviderConfig)) :
  forall (acc : gmap string ThirdPartyProviderConfig) providerId config,
    fold_left (fun m entry => <[fst entry := snd entry]> m) entries acc !! providerId
    = Some config ->
    In (providerId, config) entries \/ acc !! providerId = Some config.
Proof.
  induction entries as [|[i c] entries IH]; intros acc providerId config H; simpl in *.
  - right. exact H.
  - apply IH in H as [H|H]; [left; right; exact H|].
    destruct (decide (i = providerId)) as [->|Hne].
    + rewrite lookup_insert_eq in H. injection H as ->. left. left. reflexivity.
    + rewrite lookup_insert_ne in H by exact Hne. right. exact H.
Qed.

Lemma fold_insert_keys (entries : list (string * ThirdPartyProviderConfig)) :
  forall (acc : gmap string ThirdPartyProviderConfig) providerId,
    is_Some (fold_left (fun m entry => <[fst entry := snd entry]> m) entries acc !! providerId)
    <-> In providerId (map fst entries) \/ is_Some (acc !! providerId).
Proof.
  induction entries as [|[i c] entries IH]; intros acc providerId; simpl.
  - split; [right; assumption|intros [[]|H]; exact H].
  - rewrite IH. destruct (decide (i = providerId)) as [->|Hne].
    + rewrite lookup_insert_eq. split; [intros _; left; left; reflexivity|].
      intros _. right. eauto.
    + rewrite lookup_insert_ne by exact Hne. split.
      * intros [H|H]; [left; right; exact H|right; exact H].
      * intros [[H|H]|H]; [contradiction|left; exact H|right; exact H].
Qed.

Lemma execute_keeps_valid (st : Settings) (c : Command) :
  allValid parsesAsURL st -> allValid parsesAsURL (snd (execute parsesAsURL st c)).
Proof.
  intros Hst. destruct c as [i cfg|i|i|i|bundle]; simpl.
  - unfold setProviderConfig.
    destruct (validateProviderConfig parsesAsURL i cfg) as [v|e] eqn:Hv; simpl; [|exact Hst].
    destruct (isValid v) eqn:Hok; simpl; [|exact Hst].
    intros x c Hx. simpl in Hx. destruct (decide (i = x)) as [->|Hne].
    + rewrite lookup_insert_eq in Hx. injection Hx as <-.
      rewrite Hv. f_equal. eapply valid_shape; eassumption.
    + rewrite lookup_insert_ne in Hx by exact Hne. apply Hst. exact Hx.
  - intros x c Hx. simpl in Hx. apply lookup_delete_Some in Hx as [_ Hx]. apply Hst. exact Hx.
  - unfold enableProvider. destruct (providers st !! i); simpl; exact Hst.
  - exact Hst.
  - unfold importConfig.
    destruct (validateEntries parsesAsURL (bundleProviders bundle)) as [[]|e] eqn:Hall;
      simpl; [|exact Hst].
    intros x c Hx. simpl in Hx. unfold setEntries in Hx.
    apply fold_insert_lookup in Hx as [Hx|Hx].
    + eapply validateEntries_each; eassumption.
    + rewrite lookup_empty in Hx. discriminate.
Qed.

End ManagerInvariants.

(** X1.  However the manager is driven, whether the calls succeed or throw, an
    enabled provider always has a stored configuration. *)
Theorem enabled_provider_is_configured :
  forall (parsesAsURL : string -> bool) (cs : list SettingsManager.Command)
         (providerId : string),
    SettingsManager.isProviderEnabled (SettingsManager.afterCalls parsesAsURL cs) providerId
    = true ->
    is_Some (ProviderConfig.getProviderConfig
               (SettingsManager.afterCalls parsesAsURL cs) providerId).
Proof.
  intros parse cs providerId Hen.
  unfold SettingsManager.isProviderEnabled in Hen. apply bool_decide_eq_true in Hen.
  unfold ProviderConfig.getProviderConfig.
  revert providerId Hen.
  change (SettingsManager.enabledAreConfigured (SettingsManager.afterCalls parse cs)).
  unfold SettingsManager.afterCalls.
  apply (calls_keep parse SettingsManager.enabledAreConfigured).
  - apply execute_keeps_configured.
  - intros x Hx. simpl in Hx. apply not_elem_of_empty in Hx. destruct Hx.
Qed.

(** X2.  A configuration that [setProviderConfig] accepts, and every
    configuration of a bundle that [importConfig] accepts, belongs to a
    provider with a template of its own and, as it is handed over,
    satisfies that template: every required key has a truthy value, the
    endpoint is empty or parses as a URL, the timeout is falsy (0 or
    [NaN]) or a number within 1000..300000, and the retry attempts are
    falsy or a number within 0..10. *)
Theorem accepted_configuration_within_bounds :
  forall (parsesAsURL : string -> bool) (st : ProviderConfig.Settings),
    (forall providerId config,
       fst (ProviderConfig.setProviderConfig parsesAsURL st providerId config) = Resolved tt ->
       exists t, ProviderConfig.lookupTemplate providerId = ProviderConfig.OwnTemplate t
                 /\ SettingsManager.withinBounds parsesAsURL t config)
    /\ (forall bundle providerId config,
          fst (SettingsManager.importConfig parsesAsURL st bundle) = Resolved tt ->
          In (providerId, config) (SettingsManager.bundleProviders bundle) ->
          exists t, ProviderConfig.lookupTemplate providerId = ProviderConfig.OwnTemplate t
                    /\ SettingsManager.withinBounds parsesAsURL t config).
Proof.
  intros parse st. split.
  - intros providerId config Hok. apply (valid_withinBounds parse).
    unfold ProviderConfig.setProviderConfig in Hok.
    destruct (ProviderConfig.validateProviderConfig parse providerId config) as [v|e] eqn:Hv;
      [|discriminate].
    destruct (ProviderConfig.isValid v) eqn:Hvalid; [|discriminate].
    f_equal. eapply valid_shape; eassumption.
  - intros bundle providerId config Hok Hin. apply (valid_withinBounds parse).
    unfold SettingsManager.importConfig in Hok.
    destruct (SettingsManager.validateEntries parse (SettingsManager.bundleProviders bundle))
      as [[]|e] eqn:Hall; [|discriminate].
    eapply validateEntries_each; eassumption.
Qed.


Lemma session_state :
  SettingsManager.afterCalls Node.hasScheme ManagerFixtures.session
  = ManagerFixtures.eslintOnly.
Proof. vm_compute. reflexivity. Qed.

Lemma enabled_provider_is_configured_witness :
  SettingsManager.isProviderEnabled
    (SettingsManager.afterCalls Node.hasScheme ManagerFixtures.session) "eslint" = true
  /\ is_Some (ProviderConfig.getProviderConfig
                (SettingsManager.afterCalls Node.hasScheme ManagerFixtures.session) "eslint").
Proof.
  assert (H : SettingsManager.isProviderEnabled
                (SettingsManager.afterCalls Node.hasScheme ManagerFixtures.session) "eslint"
              = true) by (vm_compute; reflexivity).
  split; [exact H|].
  exact (enabled_provider_is_configured Node.hasScheme ManagerFixtures.session "eslint" H).
Defined.

Lemma accepted_configuration_within_bounds_witness :
  exists t, ProviderConfig.lookupTemplate "semgrep" = ProviderConfig.OwnTemplate t
            /\ SettingsManager.withinBounds Node.hasScheme t ManagerFixtures.semgrepConfig.
Proof.
  apply (proj2 (accepted_configuration_within_bounds Node.hasScheme Fixtures.noSettings)
               ManagerFixtures.twoProviders "semgrep" ManagerFixtures.semgrepConfig).
  - reflexivity.
  - right. left. reflexivity.
Defined.

(** [NaN] is falsy: a timeout of [NaN] goes through the range check of
    [setProviderConfig] unchecked and is stored, while the field check of
    the settings page rejects it. *)
Lemma NaN_timeout_is_stored :
  fst (ProviderConfig.setProviderConfig Node.hasScheme Fixtures.noSettings "eslint"
         {| ProviderConfig.apiKey := None; ProviderConfig.endpoint := None;
            ProviderConfig.timeout := Some NaN; ProviderConfig.retryAttempts := None;
            ProviderConfig.customHeaders := None; ProviderConfig.rateLimits := None |})
  = Resolved tt
  /\ ProviderConfig.timeoutFieldRejected (Some NaN) = true.
Proof. split; reflexivity. Qed.

Section ManagerRoundTrips.
Import ProviderConfig SettingsManager.
Variable parsesAsURL : string -> bool.

Lemma setEntries_of_map (m : gmap string ThirdPartyProviderConfig) :
  setEntries (map_to_list m) = m.
Proof.
  apply map_eq. intros k. unfold setEntries.
  destruct (fold_left (fun (m0 : gmap string ThirdPartyProviderConfig) entry =>
                         <[fst entry := snd entry]> m0) (map_to_list m) ∅ !! k)
    as [v|] eqn:E.
  - apply fold_insert_lookup in E as [E|E].
    + symmetry. apply elem_of_map_to_list. apply list_elem_of_In. exact E.
    + rewrite lookup_empty in E. discriminate.
  - destruct (m !! k) as [v|] eqn:Hm; [|reflexivity].
    assert (Hs : is_Some (fold_left (fun (m0 : gmap string ThirdPartyProviderConfig) entry =>
                                       <[fst entry := snd entry]> m0)
                            (map_to_list m) ∅ !! k)).
    { apply fold_insert_keys. left. apply in_map_iff. exists (k, v). split; [reflexivity|].
      apply list_elem_of_In. apply elem_of_map_to_list. exact Hm. }
    rewrite E in Hs. destruct Hs as [x Hx]. discriminate.
Qed.

Lemma addEnabled_of_set (m : gmap string ThirdPartyProviderConfig) (s : gset string) :
  (forall x, x ∈ s -> is_Some (m !! x)) ->
  addEnabled m (elements s) = s.
Proof.
  intros Hs. apply set_eq. intros x. unfold addEnabled. split.
  - intros Hx. apply addEnabled_configured in Hx as [Hx|[Hin _]].
    + apply not_elem_of_empty in Hx. destruct Hx.
    + apply elem_of_elements. apply list_elem_of_In. exact Hin.
  - intros Hx. apply addEnabled_complete. right. split.
    + apply list_elem_of_In. apply elem_of_elements. exact Hx.
    + apply Hs. exact Hx.
Qed.

End ManagerRoundTrips.

(** X3.  Exporting the settings and importing the bundle again, into the same
    or any other manager, gives exactly the exported settings back,
    provided they are as the manager keeps them: every stored
    configuration valid and every enabled provider configured. *)
Theorem export_import_round_trip :
  forall (parsesAsURL : string -> bool) (st other : ProviderConfig.Settings),
    SettingsManager.allValid parsesAsURL st ->
    SettingsManager.enabledAreConfigured st ->
    SettingsManager.importConfig parsesAsURL other (SettingsManager.exportConfig st)
    = (Resolved tt, st).
Proof.
  intros parse st other Hvalid Hen.
  unfold SettingsManager.importConfig, SettingsManager.exportConfig.
  cbn [SettingsManager.bundleProviders SettingsManager.bundleEnabled].
  rewrite validateEntries_all.
  - rewrite setEntries_of_map, addEnabled_of_set by exact Hen.
    destruct st. reflexivity.
  - intros providerId config Hin. apply Hvalid.
    apply elem_of_map_to_list. apply list_elem_of_In. exact Hin.
Qed.

Lemma export_import_round_trip_witness :
  SettingsManager.importConfig Node.hasScheme Fixtures.noSettings
    (SettingsManager.exportConfig
       (SettingsManager.afterCalls Node.hasScheme ManagerFixtures.session))
  = (Resolved tt, SettingsManager.afterCalls Node.hasScheme ManagerFixtures.session).
Proof.
  apply export_import_round_trip.
  - unfold SettingsManager.afterCalls.
    apply (calls_keep Node.hasScheme (SettingsManager.allValid Node.hasScheme)).
    + apply execute_keeps_valid.
    + intros x c Hx. simpl in Hx. rewrite lookup_empty in Hx. discriminate.
  - unfold SettingsManager.afterCalls.
    apply (calls_keep Node.hasScheme SettingsManager.enabledAreConfigured).
    + apply execute_keeps_configured.
    + intros x Hx. simpl in Hx. apply not_elem_of_empty in Hx. destruct Hx.
Defined.

(** X4.  [importConfig] is all or nothing and replaces rather than merges: when
    it throws, the settings are untouched; when it resolves, the configured
    providers are exactly those of the bundle, whatever was stored before,
    and the enabled ones are exactly the listed ids that the bundle
    configures. *)
Theorem importConfig_replaces_or_leaves :
  forall (parsesAsURL : string -> bool) (st : ProviderConfig.Settings)
         (bundle : SettingsManager.ConfigBundle),
    match SettingsManager.importConfig parsesAsURL st bundle with
    | (Thrown _, st') => st' = st
    | (Resolved _, st') =>
        (forall providerId,
           is_Some (ProviderConfig.getProviderConfig st' providerId)
           <-> In providerId (map fst (SettingsManager.bundleProviders bundle)))
        /\ (forall providerId,
              SettingsManager.isProviderEnabled st' providerId = true
              <-> In providerId (SettingsManager.bundleEnabled bundle)
                  /\ In providerId (map fst (SettingsManager.bundleProviders bundle)))
    end.
Proof.
  intros parse st bundle. unfold SettingsManager.importConfig.
  destruct (SettingsManager.validateEntries parse (SettingsManager.bundleProviders bundle));
    [|reflexivity].
  assert (Hkeys : forall providerId,
             is_Some (SettingsManager.setEntries (SettingsManager.bundleProviders bundle)
                      !! providerId)
             <-> In providerId (map fst (SettingsManager.bundleProviders bundle))).
  { intros providerId. unfold SettingsManager.setEntries. rewrite fold_insert_keys.
    rewrite lookup_empty. split; [intros [H|[x Hx]]; [exact H|discriminate]|left; assumption]. }
  split; [exact Hkeys|].
  intros providerId. unfold SettingsManager.isProviderEnabled.
  cbn [ProviderConfig.enabledProviders]. rewrite bool_decide_eq_true.
  unfold SettingsManager.addEnabled. split.
  - intros Hx. apply addEnabled_configured in Hx as [Hx|[Hin Hs]].
    + apply not_elem_of_empty in Hx. destruct Hx.
    + split; [exact Hin|]. apply Hkeys. exact Hs.
  - intros [Hin Hk]. apply addEnabled_complete. right. split; [exact Hin|].
    apply Hkeys. exact Hk.
Qed.

(** X5.  The life of one provider that was neither configured nor enabled:
    once its configuration is accepted it can be enabled; removing it
    brings back the settings as they were, and enabling it then throws and
    changes nothing. *)
Theorem configure_enable_remove :
  forall (parsesAsURL : string -> bool) (st : ProviderConfig.Settings)
         (providerId : string) (config : ProviderConfig.ThirdPartyProviderConfig),
    ProviderConfig.getProviderConfig st providerId = None ->
    SettingsManager.isProviderEnabled st providerId = false ->
    fst (ProviderConfig.setProviderConfig parsesAsURL st providerId config) = Resolved tt ->
    let configured := snd (ProviderConfig.setProviderConfig parsesAsURL st providerId config) in
    let enabled := SettingsManager.enableProvider configured providerId in
    let removed := SettingsManager.removeProviderConfig (snd enabled) providerId in
    fst enabled = Resolved tt
    /\ SettingsManager.isProviderEnabled (snd enabled) providerId = true
    /\ ProviderConfig.getProviderConfig (snd enabled) providerId = Some config
    /\ snd removed = st
    /\ SettingsManager.enableProvider (snd removed) providerId
       = (Thrown ("Provider " ++ providerId ++ " is not configured"), st).
Proof.
  intros parse st providerId config Hnone Hoff Hset. cbv zeta.
  destruct (setProviderConfig_accepts parse st providerId config Hset) as (Hst & _ & _).
  rewrite Hst. clear Hst.
  unfold ProviderConfig.getProviderConfig in *.
  unfold SettingsManager.isProviderEnabled in Hoff. apply bool_decide_eq_false in Hoff.
  assert (Hen : SettingsManager.enableProvider
                  {| ProviderConfig.providers :=
                       <[providerId := config]> (ProviderConfig.providers st);
                     ProviderConfig.enabledProviders := ProviderConfig.enabledProviders st |}
                  providerId
                = (Resolved tt,
                   {| ProviderConfig.providers :=
                        <[providerId := config]> (ProviderConfig.providers st);
                      ProviderConfig.enabledProviders :=
                        {[providerId]} ∪ ProviderConfig.enabledProviders st |})).
  { unfold SettingsManager.enableProvider. cbn [ProviderConfig.providers].
    rewrite lookup_insert_eq. reflexivity. }
  rewrite !Hen. cbn [fst snd].
  assert (Hback : snd (SettingsManager.removeProviderConfig
                         {| ProviderConfig.providers :=
                              <[providerId := config]> (ProviderConfig.providers st);
                            ProviderConfig.enabledProviders :=
                              {[providerId]} ∪ ProviderConfig.enabledProviders st |}
                         providerId) = st).
  { unfold SettingsManager.removeProviderConfig. cbn [snd ProviderConfig.providers
      ProviderConfig.enabledProviders].
    rewrite delete_insert_id by exact Hnone.
    replace (({[providerId]} ∪ ProviderConfig.enabledProviders st) ∖ {[providerId]})
      with (ProviderConfig.enabledProviders st) by set_solver.
    destruct st. reflexivity. }
  split; [reflexivity|]. split.
  { unfold SettingsManager.isProviderEnabled. apply bool_decide_eq_true.
    cbn [ProviderConfig.enabledProviders]. set_solver. }
  split; [cbn [ProviderConfig.providers]; apply lookup_insert_eq|].
  split; [exact Hback|].
  rewrite Hback. unfold SettingsManager.enableProvider. rewrite Hnone. reflexivity.
Qed.

Lemma configure_enable_remove_witness :
  SettingsManager.enableProvider
    (snd (SettingsManager.removeProviderConfig
            (snd (SettingsManager.enableProvider
                    (snd (ProviderConfig.setProviderConfig Node.hasScheme Fixtures.noSettings
                            "eslint" ManagerFixtures.eslintConfig)) "eslint")) "eslint"))
    "eslint"
  = (Thrown "Provider eslint is not configured", Fixtures.noSettings).
Proof.
  exact (proj2 (proj2 (proj2 (proj2
           (configure_enable_remove Node.hasScheme Fixtures.noSettings "eslint"
              ManagerFixtures.eslintConfig eq_refl eq_refl eq_refl))))).
Defined.


Section ValidatorFacts.
Import ProviderConfig SettingsManager.

Lemma validateConfig_requiredErrors (t : ProviderConfigTemplate) config :
  validateConfig (requiredConfig t) config
  = match requiredErrors t config with
    | [] => Resolved tt
    | msg :: _ => Thrown msg
    end.
Proof.
  unfold requiredErrors. induction (requiredConfig t) as [|key rest IH]; simpl; [reflexivity|].
  destruct (hasValue config key); simpl; [exact IH|reflexivity].
Qed.

Lemma mapGet_In {V : Type} (k : string) (v : V) (m : ReviewService.OrderedMap V) :
  ReviewService.mapGet k m = Some v -> In (k, v) m.
Proof.
  induction m as [|[k' v'] m IH]; simpl; [discriminate|].
  destruct (String.eqb_spec k k') as [->|_].
  - intros [= ->]. left. reflexivity.
  - intros H. right. apply IH. exact H.
Qed.

Lemma own_template_listed providerId t :
  lookupTemplate providerId = OwnTemplate t -> In (providerId, t) PROVIDER_TEMPLATES.
Proof.
  unfold lookupTemplate.
  destruct (ReviewService.mapGet providerId PROVIDER_TEMPLATES) as [t'|] eqn:E.
  - intros [= <-]. apply mapGet_In. exact E.
  - destruct (JS.arrayIncludes providerId objectPrototypeKeys); discriminate.
Qed.

(** The required keys of every template are [apiKey] and [endpoint] at
    most. *)
Lemma required_keys_known providerId t :
  lookupTemplate providerId = OwnTemplate t ->
  forall key, In key (requiredConfig t) -> key = "apiKey" \/ key = "endpoint".
Proof.
  intros Ht key Hin. apply own_template_listed in Ht.
  unfold PROVIDER_TEMPLATES in Ht. simpl in Ht.
  repeat (destruct Ht as [[= <- <-]|Ht]; [simpl in Hin; intuition auto|]).
  destruct Ht.
Qed.

Lemma no_required_errors (t : ProviderConfigTemplate) config :
  (forall key, In key (requiredConfig t) -> hasValue config key = true) ->
  requiredErrors t config = [].
Proof.
  unfold requiredErrors. generalize (requiredConfig t) as keys.
  induction keys as [|key rest IH]; intros Hall; [reflexivity|].
  simpl. rewrite (Hall key) by (left; reflexivity). simpl.
  apply IH. intros k Hin. apply Hall. right. exact Hin.
Qed.

End ValidatorFacts.

(** X6.  A configuration that [setProviderConfig] accepts also passes the
    check that a provider makes when it is initialised; and when that check
    throws for a missing key, [setProviderConfig] throws too, with that
    message first in its list. *)
Theorem accepted_configuration_initialises :
  forall (parsesAsURL : string -> bool) (st : ProviderConfig.Settings)
         (providerId : string) (t : ProviderConfig.ProviderConfigTemplate)
         (config : ProviderConfig.ThirdPartyProviderConfig),
    ProviderConfig.lookupTemplate providerId = ProviderConfig.OwnTemplate t ->
    (fst (ProviderConfig.setProviderConfig parsesAsURL st providerId config) = Resolved tt ->
     SettingsManager.validateConfig (ProviderConfig.requiredConfig t) config = Resolved tt)
    /\ (forall msg,
          SettingsManager.validateConfig (ProviderConfig.requiredConfig t) config = Thrown msg ->
          exists others,
            ProviderConfig.setProviderConfig parsesAsURL st providerId config
            = (Thrown ("Configuration validation failed: " ++ JS.join ", " (msg :: others)), st)).
Proof.
  intros parse st providerId t config Ht.
  rewrite validateConfig_requiredErrors. split.
  - intros Hset. destruct (setProviderConfig_accepts parse st providerId config Hset)
      as (_ & _ & t' & Ht' & Hreq & _).
    rewrite Ht in Ht'. injection Ht' as <-. rewrite Hreq. reflexivity.
  - intros msg Hmsg.
    unfold ProviderConfig.setProviderConfig, ProviderConfig.validateProviderConfig.
    rewrite Ht.
    destruct (ProviderConfig.requiredErrors t config) as [|m rest]; [discriminate|].
    injection Hmsg as ->. simpl. eexists. reflexivity.
Qed.

Lemma accepted_configuration_initialises_witness :
  SettingsManager.validateConfig ["apiKey"] ManagerFixtures.semgrepConfig = Resolved tt.
Proof.
  refine (proj1 (accepted_configuration_initialises Node.hasScheme Fixtures.noSettings
                   "semgrep" _ ManagerFixtures.semgrepConfig eq_refl) eq_refl).
Defined.

(** What the four field checks give to the validator of the store. *)
Lemma field_checks_suffice :
  forall (parsesAsURL : string -> bool) (st : ProviderConfig.Settings)
         (providerId : string) (config : ProviderConfig.ThirdPartyProviderConfig),
    (forall fieldName, In fieldName ["apiKey"; "endpoint"; "timeout"; "retryAttempts"] ->
       SettingsManager.validateConfigField parsesAsURL providerId fieldName config
       = Resolved None) ->
    fst (ProviderConfig.setProviderConfig parsesAsURL st providerId config) = Resolved tt
    /\ ProviderConfig.getProviderConfig
         (snd (ProviderConfig.setProviderConfig parsesAsURL st providerId config)) providerId
       = Some config.
Proof.
  intros parse st providerId config Hfields.
  assert (Hk := Hfields "apiKey" ltac:(simpl; auto)).
  assert (He := Hfields "endpoint" ltac:(simpl; auto)).
  assert (Ht := Hfields "timeout" ltac:(simpl; auto)).
  assert (Hr := Hfields "retryAttempts" ltac:(simpl; auto)).
  unfold SettingsManager.validateConfigField in *.
  destruct (ProviderConfig.lookupTemplate providerId) as [t| |] eqn:Hl; try discriminate.
  assert (Hreq : ProviderConfig.requiredErrors t config = []).
  { apply no_required_errors.
    intros key Hin. destruct (required_keys_known providerId t Hl key Hin) as [-> | ->].
    - destruct (JS.arrayIncludes "apiKey" (ProviderConfig.requiredConfig t)) eqn:Hinc.
        + destruct (ProviderConfig.hasValue config "apiKey"); [reflexivity|discriminate].
        + exfalso. unfold JS.arrayIncludes in Hinc.
          assert (Hex : existsb (String.eqb "apiKey") (ProviderConfig.requiredConfig t) = true).
          { apply existsb_exists. exists "apiKey". split; [exact Hin|apply String.eqb_refl]. }
          congruence.
      - destruct (JS.arrayIncludes "endpoint" (ProviderConfig.requiredConfig t)) eqn:Hinc.
        + destruct (ProviderConfig.hasValue config "endpoint"); [reflexivity|discriminate].
        + exfalso. unfold JS.arrayIncludes in Hinc.
          assert (Hex : existsb (String.eqb "endpoint") (ProviderConfig.requiredConfig t) = true).
          { apply existsb_exists. exists "endpoint". split; [exact Hin|apply String.eqb_refl]. }
          congruence. }
  assert (Hend : ProviderConfig.endpointErrors parse config = []).
  { unfold ProviderConfig.endpointErrors.
    destruct (JS.arrayIncludes "endpoint" (ProviderConfig.requiredConfig t)
              && negb (ProviderConfig.hasValue config "endpoint")); [discriminate|].
    simpl in He. destruct (ProviderConfig.endpoint config) as [e|]; [|reflexivity].
    destruct (negb (String.eqb e "") && negb (parse e)); [discriminate|reflexivity]. }
  assert (Htime : ProviderConfig.timeoutErrors config = []).
  { unfold ProviderConfig.timeoutErrors.
    destruct (JS.arrayIncludes "timeout" (ProviderConfig.requiredConfig t)
              && negb (ProviderConfig.hasValue config "timeout")); [discriminate|].
    simpl in Ht. destruct (ProviderConfig.timeout config) as [n|]; [|reflexivity].
    destruct (Number.isNaN n || Number.lessThan n 1000 || Number.greaterThan n 300000)
      eqn:Hn; [discriminate|].
    apply orb_false_iff in Hn as [Hn Hhi]. apply orb_false_iff in Hn as [_ Hlo].
    rewrite Hlo, Hhi, andb_false_r. reflexivity. }
  assert (Hretry : ProviderConfig.retryErrors config = []).
  { unfold ProviderConfig.retryErrors.
    destruct (JS.arrayIncludes "retryAttempts" (ProviderConfig.requiredConfig t)
              && negb (ProviderConfig.hasValue config "retryAttempts")); [discriminate|].
    simpl in Hr. destruct (ProviderConfig.retryAttempts config) as [n|]; [|reflexivity].
    destruct (Number.isNaN n || Number.lessThan n 0 || Number.greaterThan n 10)
      eqn:Hn; [discriminate|].
    apply orb_false_iff in Hn as [Hn Hhi]. apply orb_false_iff in Hn as [_ Hlo].
    rewrite Hlo, Hhi, andb_false_r. reflexivity. }
  unfold ProviderConfig.setProviderConfig, ProviderConfig.validateProviderConfig,
    ProviderConfig.getProviderConfig.
  rewrite Hl, Hreq, Hend, Htime, Hretry. simpl.
  split; [reflexivity|apply lookup_insert_eq].
Qed.

(** X7.  The field validators of the settings page are at least as strict as
    the validator behind [setProviderConfig]: a configuration whose
    [apiKey], [endpoint], [timeout] and [retryAttempts] all pass
    [validateConfigField] is accepted and stored by [setProviderConfig]. *)
Theorem fields_valid_then_accepted :
  forall (parsesAsURL : string -> bool) (st : ProviderConfig.Settings)
         (providerId : string) (config : ProviderConfig.ThirdPartyProviderConfig),
    (forall fieldName, In fieldName ["apiKey"; "endpoint"; "timeout"; "retryAttempts"] ->
       SettingsManager.validateConfigField parsesAsURL providerId fieldName config
       = Resolved None) ->
    fst (ProviderConfig.setProviderConfig parsesAsURL st providerId config) = Resolved tt
    /\ ProviderConfig.getProviderConfig
         (snd (ProviderConfig.setProviderConfig parsesAsURL st providerId config)) providerId
       = Some config.
Proof.
  intros parsesAsURL st providerId config Hfields.
  exact (field_checks_suffice parsesAsURL st providerId config Hfields).
Qed.

Lemma fields_valid_then_accepted_witness :
  fst (ProviderConfig.setProviderConfig Node.hasScheme Fixtures.noSettings "semgrep"
         ManagerFixtures.semgrepConfig) = Resolved tt.
Proof.
  apply (fields_valid_then_accepted Node.hasScheme Fixtures.noSettings "semgrep"
           ManagerFixtures.semgrepConfig).
  intros fieldName [<-|[<-|[<-|[<-|[]]]]]; reflexivity.
Defined.

Lemma field_name_cases (f : string) :
  f = "endpoint" \/ f = "timeout" \/ f = "retryAttempts" \/ f = "apiKey"
  \/ (String.eqb f "endpoint" = false /\ String.eqb f "timeout" = false
      /\ String.eqb f "retryAttempts" = false /\ String.eqb f "apiKey" = false).
Proof.
  destruct (String.eqb_spec f "endpoint"); [auto|].
  destruct (String.eqb_spec f "timeout"); [auto|].
  destruct (String.eqb_spec f "retryAttempts"); [auto|].
  destruct (String.eqb_spec f "apiKey"); [auto 6|].
  do 4 right. auto.
Qed.

(** X8.  The default configuration that the settings page offers for a
    provider passes every field validator and is accepted by
    [setProviderConfig], as long as the three example endpoints parse as
    URLs. *)
Theorem default_configuration_accepted :
  forall (parsesAsURL : string -> bool) (st : ProviderConfig.Settings)
         (providerId : string) (t : ProviderConfig.ProviderConfigTemplate)
         (config : ProviderConfig.ThirdPartyProviderConfig),
    parsesAsURL "https://sonarqube.example.com" = true ->
    parsesAsURL "https://semgrep.dev/api/v1" = true ->
    parsesAsURL "https://api.github.com" = true ->
    ProviderConfig.lookupTemplate providerId = ProviderConfig.OwnTemplate t ->
    SettingsManager.generateDefaultConfig providerId = Some config ->
    (forall fieldName,
       SettingsManager.validateConfigField parsesAsURL providerId fieldName config
       = Resolved None)
    /\ fst (ProviderConfig.setProviderConfig parsesAsURL st providerId config) = Resolved tt.
Proof.
  intros parse st providerId t config H1 H2 H3 Ht Hc.
  assert (Hfields : forall fieldName,
             SettingsManager.validateConfigField parse providerId fieldName config
             = Resolved None).
  { intros fieldName. unfold SettingsManager.validateConfigField.
    unfold SettingsManager.generateDefaultConfig in Hc. rewrite Ht in *.
    apply own_template_listed in Ht. unfold ProviderConfig.PROVIDER_TEMPLATES in Ht.
    unfold JS.arrayIncludes.
    destruct Ht as [Ht|[Ht|[Ht|[Ht|[Ht|[]]]]]]; injection Ht as <- <-;
      vm_compute in Hc; injection Hc as <-;
      cbn [ProviderConfig.requiredConfig existsb ProviderConfig.endpoint ProviderConfig.timeout
           ProviderConfig.retryAttempts ProviderConfig.apiKey];
      destruct (field_name_cases fieldName)
        as [-> | [-> | [-> | [-> | (E1 & E2 & E3 & E4)]]]];
      try (vm_compute; rewrite ?H1, ?H2, ?H3; reflexivity);
      rewrite ?E1, ?E2, ?E3, ?E4; reflexivity. }
  split; [exact Hfields|].
  apply field_checks_suffice. intros fieldName _. apply Hfields.
Qed.

Lemma default_configuration_accepted_witness :
  fst (ProviderConfig.setProviderConfig Node.hasScheme Fixtures.noSettings "codeql"
         {| ProviderConfig.apiKey := Some "your-github-token";
            ProviderConfig.endpoint := Some "https://api.github.com";
            ProviderConfig.timeout := Some (Number.integer 120000);
            ProviderConfig.retryAttempts := Some (Number.integer 2);
            ProviderConfig.customHeaders := Some [("Accept", "application/vnd.github.v3+json")];
            ProviderConfig.rateLimits := None |}) = Resolved tt.
Proof.
  exact (proj2 (default_configuration_accepted Node.hasScheme Fixtures.noSettings "codeql" _ _
                  eq_refl eq_refl eq_refl eq_refl eq_refl)).
Defined.

(* ===================================================================== *)
(** * The review tool: filters, grade and grouping *)
(* ===================================================================== *)

Section ToolFacts.
Import ReviewTool ToolReport.

(** The index of a severity in the tool's scale is its rank. *)
Lemma indexOf_severity (s : SeverityLevel) :
  indexOf s severityLevels = severityRank s.
Proof. destruct s; reflexivity. Qed.

(** [filterIssues] keeps the issues of a selected type whose rank
    reaches the threshold of the filter. *)
Lemma filterIssues_by_rank (issues : list CodeIssue) (severityFilter : string)
      (issueTypes : list string) :
  filterIssues issues severityFilter issueTypes
  = List.filter (fun i => (threshold severityFilter <=? severityRank (severity i))%Z)
      (List.filter (typeAllowed (map mapLegacyIssueType issueTypes)) issues).
Proof.
  unfold filterIssues, threshold.
  destruct (String.eqb severityFilter "all"); cbn [negb].
  - induction (List.filter _ issues) as [|i l IH]; simpl; [reflexivity|].
    destruct (severity i); simpl; rewrite <- IH; reflexivity.
  - rewrite indexOf_severity.
    apply List.filter_ext. intros i. rewrite indexOf_severity. reflexivity.
Qed.

Lemma filter_filter_weaker {A : Type} (p q : A -> bool) (l : list A) :
  (forall x, q x = true -> p x = true) ->
  List.filter q (List.filter p l) = List.filter q l.
Proof.
  intros H. induction l as [|x l IH]; simpl; [reflexivity|].
  destruct (p x) eqn:Ep; simpl.
  - rewrite IH. reflexivity.
  - destruct (q x) eqn:Eq; [|exact IH].
    apply H in Eq. congruence.
Qed.

Lemma countIf_filter {A : Type} (p q : A -> bool) (l : list A) :
  countIf p (List.filter q l) = countIf (fun x => p x && q x) l.
Proof.
  unfold countIf. induction l as [|x l IH]; simpl; [reflexivity|].
  destruct (q x) eqn:Eq, (p x) eqn:Ep; simpl; rewrite ?Ep; simpl; rewrite ?IH; reflexivity.
Qed.

Lemma threshold_range (severityFilter : string) :
  (0 <= threshold severityFilter <= 4)%Z.
Proof.
  unfold threshold. destruct (String.eqb severityFilter "all"); [lia|].
  destruct (mapLegacySeverity severityFilter); simpl; lia.
Qed.

(** A name of the schema is mapped to the type of that name. *)
Lemma mapLegacyIssueType_named (n : string) (t : CodeReviewType) :
  In n issueTypeNames ->
  (mapLegacyIssueType n = t <-> n = typeValue t).
Proof.
  intros H. simpl in H.
  repeat (destruct H as [<-|H]; [destruct t; vm_compute; split; congruence|]).
  destruct H.
Qed.

Lemma typeAllowed_named (issueTypes : list string) (i : CodeIssue) :
  (forall n, In n issueTypes -> In n issueTypeNames) ->
  typeAllowed (map mapLegacyIssueType issueTypes) i
  = JS.arrayIncludes (typeValue (type i)) issueTypes.
Proof.
  intros H. unfold typeAllowed, JS.arrayIncludes.
  induction issueTypes as [|n l IH]; simpl; [reflexivity|].
  rewrite IH by (intros; apply H; right; assumption). f_equal.
  assert (Hn := mapLegacyIssueType_named n (type i) (H n (or_introl eq_refl))).
  destruct (String.eqb_spec (typeValue (type i)) n) as [E|E].
  - apply bool_decide_eq_true. apply Hn. congruence.
  - apply bool_decide_eq_false. intros E'. apply Hn in E'. congruence.
Qed.

(** In the first tool's scale a severity sits one below its rank, and so
    does every filter of the schema. *)
Lemma legacy_index_of_severity (s : SeverityLevel) :
  indexOf (severityValue s) LegacyTool.severityLevels = (severityRank s - 1)%Z.
Proof. destruct s; reflexivity. Qed.

Lemma legacy_index_of_filter (severityFilter : string) :
  In severityFilter severityFilters ->
  String.eqb severityFilter "all" = false ->
  indexOf severityFilter LegacyTool.severityLevels = (threshold severityFilter - 1)%Z.
Proof.
  intros H. simpl in H.
  repeat (destruct H as [<-|H]; [vm_compute; congruence|]).
  destruct H.
Qed.

End ToolFacts.

(** X9.  Filtering twice with the stricter filter last is filtering once
    with the stricter filter. *)
Theorem stricter_filter_composes :
  forall (issues : list CodeIssue) (first second : string) (issueTypes : list string),
    In first ToolReport.severityFilters ->
    In second ToolReport.severityFilters ->
    (ToolReport.threshold first <= ToolReport.threshold second)%Z ->
    ReviewTool.filterIssues (ReviewTool.filterIssues issues first issueTypes) second issueTypes
    = ReviewTool.filterIssues issues second issueTypes.
Proof.
  intros issues first second issueTypes _ _ Hle.
  rewrite !filterIssues_by_rank.
  set (T := ReviewTool.typeAllowed _).
  induction issues as [|i issues IH]; [reflexivity|].
  cbn [List.filter].
  destruct (T i) eqn:Et; cbn [List.filter]; [|exact IH].
  destruct (Z.leb_spec (ToolReport.threshold first) (ToolReport.severityRank (severity i)))
    as [H1|H1]; cbn [List.filter]; rewrite ?Et; cbn [List.filter].
  - rewrite IH. reflexivity.
  - rewrite IH.
    destruct (Z.leb_spec (ToolReport.threshold second)
                         (ToolReport.severityRank (severity i))); [lia|reflexivity].
Qed.

Lemma stricter_filter_composes_witness :
  ReviewTool.filterIssues
    (ReviewTool.filterIssues [ReviewFixtures.secret; ReviewFixtures.trailing] "low"
       ReviewTool.defaultIssueTypes)
    "high" ReviewTool.defaultIssueTypes
  = ReviewTool.filterIssues [ReviewFixtures.secret; ReviewFixtures.trailing] "high"
      ReviewTool.defaultIssueTypes.
Proof.
  apply stricter_filter_composes; [simpl; auto 10 | simpl; auto 10 |].
  vm_compute. discriminate.
Defined.

(** X10.  The filter [info] lets through what [all] lets through. *)
Theorem info_filter_keeps_all :
  forall (issues : list CodeIssue) (issueTypes : list string),
    ReviewTool.filterIssues issues "info" issueTypes
    = ReviewTool.filterIssues issues "all" issueTypes.
Proof.
  intros issues issueTypes. rewrite !filterIssues_by_rank. reflexivity.
Qed.

(** X11.  No severity filter removes a critical issue of a selected type: the
    critical count of the filtered summary is the number of critical
    issues of the selected types in the service's result. *)
Theorem critical_issues_survive :
  forall (result : ReviewService.CodeReviewResult) (severityFilter : string)
         (issueTypes : list string),
    In severityFilter ToolReport.severityFilters ->
    (forall n, In n issueTypes -> In n ToolReport.issueTypeNames) ->
    criticalIssues (ReviewService.summary
                      (ReviewTool.filteredResult result severityFilter issueTypes))
    = countIf (fun i => hasSeverity CRITICAL i
                        && ReviewTool.typeAllowed
                             (map ReviewTool.mapLegacyIssueType issueTypes) i)
        (ReviewService.issues result).
Proof.
  intros result severityFilter issueTypes _ _. simpl.
  rewrite filterIssues_by_rank, !countIf_filter.
  unfold countIf. f_equal. apply List.filter_ext. intros i.
  unfold hasSeverity.
  destruct (bool_decide_reflect (severity i = CRITICAL)) as [E|E]; simpl; [|reflexivity].
  rewrite E. simpl.
  pose proof (threshold_range severityFilter) as [_ H].
  apply Z.leb_le in H. rewrite H. reflexivity.
Qed.

Lemma critical_issues_survive_witness :
  criticalIssues (ReviewService.summary
                    (ReviewTool.filteredResult
                       {| ReviewService.summary :=
                            generateSummary [ReviewFixtures.secret; ReviewFixtures.trailing];
                          ReviewService.issues := [ReviewFixtures.secret; ReviewFixtures.trailing];
                          ReviewService.metrics :=
                            {| linesOfCode := 2; complexity := 1;
                               maintainabilityIndex := Finite 167 |};
                          ReviewService.thirdPartyResults := [] |}
                       "critical" ["security"]))
  = 1.
Proof.
  rewrite critical_issues_survive.
  - reflexivity.
  - simpl. auto 10.
  - intros n [<-|[]]. simpl. auto 10.
Defined.

(** X12.  With the default issue types no [BUG] and no [MAINTAINABILITY]
    issue is ever shown, whatever the severity filter. *)
Theorem default_types_hide_bug_and_maintainability :
  forall (issues : list CodeIssue) (severityFilter : string) (i : CodeIssue),
    In severityFilter ToolReport.severityFilters ->
    In i (ReviewTool.filterIssues issues severityFilter ReviewTool.defaultIssueTypes) ->
    type i <> BUG /\ type i <> MAINTAINABILITY.
Proof.
  intros issues severityFilter i _ H.
  rewrite filterIssues_by_rank in H.
  apply filter_In in H as [H _]. apply filter_In in H as [_ H].
  unfold ReviewTool.typeAllowed in H. simpl in H.
  destruct (type i); split; try discriminate; simpl in H; discriminate.
Qed.

Lemma default_types_hide_bug_and_maintainability_witness :
  type ReviewFixtures.secret <> BUG /\ type ReviewFixtures.secret <> MAINTAINABILITY.
Proof.
  apply (default_types_hide_bug_and_maintainability
           [ReviewFixtures.secret; ReviewFixtures.trailing] "high").
  - simpl. auto 10.
  - vm_compute. left. reflexivity.
Defined.

(** X13.  On the values of its schema the tool's [filterIssues] agrees with
    the [filterIssues] of the first tool, which compares strings. *)
Theorem filterIssues_agrees_with_first_tool :
  forall (issues : list CodeIssue) (severityFilter : string) (issueTypes : list string),
    In severityFilter ToolReport.severityFilters ->
    (forall n, In n issueTypes -> In n ToolReport.issueTypeNames) ->
    ReviewTool.filterIssues issues severityFilter issueTypes
    = LegacyTool.filterIssues issues severityFilter issueTypes.
Proof.
  intros issues severityFilter issueTypes Hs Ht.
  rewrite filterIssues_by_rank. unfold LegacyTool.filterIssues.
  rewrite (List.filter_ext _ _ (fun i => typeAllowed_named issueTypes i Ht)).
  destruct (String.eqb severityFilter "all") eqn:E; cbn [negb].
  - unfold ToolReport.threshold. rewrite E.
    induction (List.filter _ issues) as [|i l IH]; simpl; [reflexivity|].
    destruct (severity i); simpl; rewrite IH; reflexivity.
  - rewrite (legacy_index_of_filter _ Hs E).
    apply List.filter_ext. intros i. rewrite legacy_index_of_severity.
    destruct (Z.leb_spec (ToolReport.threshold severityFilter)
                         (ToolReport.severityRank (severity i)));
      symmetry; [apply Z.leb_le|apply Z.leb_gt]; lia.
Qed.

Lemma filterIssues_agrees_with_first_tool_witness :
  ReviewTool.filterIssues [ReviewFixtures.secret; ReviewFixtures.trailing] "medium"
    ["security"; "style"]
  = LegacyTool.filterIssues [ReviewFixtures.secret; ReviewFixtures.trailing] "medium"
      ["security"; "style"].
Proof.
  apply filterIssues_agrees_with_first_tool.
  - simpl. auto 10.
  - intros n [<-|[<-|[]]]; simpl; auto 10.
Defined.

Section GroupFacts.
Import ReviewService ToolReport.

Lemma mapGet_mapSet {V : Type} (k k' : string) (v : V) (m : OrderedMap V) :
  mapGet k' (mapSet k v m) = if String.eqb k' k then Some v else mapGet k' m.
Proof.
  induction m as [|[k0 v0] m IH]; simpl.
  - destruct (String.eqb k' k); reflexivity.
  - destruct (String.eqb_spec k k0) as [->|Hne]; simpl.
    + destruct (String.eqb k' k0); reflexivity.
    + rewrite IH. destruct (String.eqb_spec k' k0) as [->|Hne'].
      * destruct (String.eqb_spec k0 k); [congruence|reflexivity].
      * reflexivity.
Qed.

Lemma sum_mapSet (k : string) (v : nat) (m : OrderedMap nat) :
  list_sum (map snd (mapSet k v m)) + match mapGet k m with Some n => n | None => 0 end
  = list_sum (map snd m) + v.
Proof.
  induction m as [|[k0 v0] m IH]; simpl; [lia|].
  destruct (String.eqb k k0); simpl; lia.
Qed.

Lemma keys_mapSet {V : Type} (k : string) (v : V) (m : OrderedMap V) :
  mapKeys (mapSet k v m)
  = if existsb (String.eqb k) (mapKeys m) then mapKeys m else mapKeys m ++ [k].
Proof.
  unfold mapKeys. induction m as [|[k0 v0] m IH]; simpl; [reflexivity|].
  destruct (String.eqb_spec k k0) as [->|Hne]; simpl; [reflexivity|].
  rewrite IH. destruct (existsb _ _); reflexivity.
Qed.

Lemma typeValue_inj (t t' : CodeReviewType) :
  typeValue t = typeValue t' -> t = t'.
Proof. destruct t, t'; simpl; intros H; try reflexivity; discriminate. Qed.

Lemma grouped_step (groups : OrderedMap nat) (seen : list CodeIssue) (issue : CodeIssue) :
  grouped groups seen ->
  grouped (mapSet (typeValue (type issue))
                  (match mapGet (typeValue (type issue)) groups with
                   | Some n => n | None => 0 end + 1) groups)
          (seen ++ [issue]).
Proof.
  intros (Hget & Hsum & Hnd).
  assert (Hcount : forall t, countIf (hasType t) (seen ++ [issue])
                             = countIf (hasType t) seen + (if hasType t issue then 1 else 0)).
  { intros t. unfold countIf. rewrite List.filter_app, length_app. simpl.
    destruct (hasType t issue); reflexivity. }
  split; [|split].
  - intros t. rewrite mapGet_mapSet, Hcount. unfold hasType at 2 4.
    destruct (String.eqb_spec (typeValue t) (typeValue (type issue))) as [E|E].
    + apply typeValue_inj in E. subst t.
      rewrite bool_decide_eq_true_2 by reflexivity.
      rewrite Hget. destruct (countIf (hasType (type issue)) seen) eqn:Ec; simpl.
      * reflexivity.
      * replace (n + 1 =? 0) with false by (symmetry; apply Nat.eqb_neq; lia).
        reflexivity.
    + rewrite bool_decide_eq_false_2 by congruence.
      rewrite Nat.add_0_r. apply Hget.
  - pose proof (sum_mapSet (typeValue (type issue))
                  (match mapGet (typeValue (type issue)) groups with
                   | Some n => n | None => 0 end + 1) groups) as H.
    rewrite length_app. simpl. lia.
  - rewrite keys_mapSet.
    destruct (existsb _ (mapKeys groups)) eqn:E; [exact Hnd|].
    apply NoDup_app; repeat split.
    + exact Hnd.
    + intros x Hx Hx'. apply list_elem_of_In in Hx, Hx'. simpl in Hx'.
      destruct Hx' as [<-|[]].
      assert (existsb (String.eqb (typeValue (type issue))) (mapKeys groups) = true).
      { apply existsb_exists. exists (typeValue (type issue)). split; [exact Hx|].
        apply String.eqb_refl. }
      congruence.
    + apply NoDup_singleton.
Qed.

Lemma grouped_fold (issues seen : list CodeIssue) (groups : OrderedMap nat) :
  grouped groups seen ->
  grouped (fold_left (fun groups issue =>
                        let k := typeValue (type issue) in
                        mapSet k (match mapGet k groups with Some n => n | None => 0 end + 1)
                               groups)
                     issues groups)
          (seen ++ issues).
Proof.
  revert seen groups. induction issues as [|i issues IH]; intros seen groups H; simpl.
  - rewrite app_nil_r. exact H.
  - replace (seen ++ i :: issues) with ((seen ++ [i]) ++ issues)
      by (rewrite <- app_assoc; reflexivity).
    apply IH. apply grouped_step. exact H.
Qed.

End GroupFacts.

(** X14.  [groupIssuesByType] counts every issue once: the entry of a type is
    the number of issues of that type and is absent when there is none,
    the counts add up to the number of issues, and no key comes twice. *)
Theorem groupIssuesByType_counts :
  forall (issues : list CodeIssue),
    (forall t, ReviewService.mapGet (typeValue t) (ToolReport.groupIssuesByType issues)
               = if countIf (ToolReport.hasType t) issues =? 0 then None
                 else Some (countIf (ToolReport.hasType t) issues))
    /\ list_sum (map snd (ToolReport.groupIssuesByType issues)) = List.length issues
    /\ NoDup (ReviewService.mapKeys (ToolReport.groupIssuesByType issues)).
Proof.
  intros issues. unfold ToolReport.groupIssuesByType.
  apply (grouped_fold issues [] []).
  split; [|split]; [intros t; reflexivity | reflexivity | apply NoDup_nil; exact I].
Qed.

Lemma atLeast_mono (index index' : JSInteger) (k : Z) :
  ToolReport.indexLe index index' ->
  ToolReport.atLeast index k = true -> ToolReport.atLeast index' k = true.
Proof.
  destruct index as [a|], index' as [b|]; simpl; intros Hle H;
    try reflexivity; try contradiction.
  apply Z.leb_le in H. apply Z.leb_le. lia.
Qed.

Lemma grade_condition_mono (index index' : JSInteger) (total total' : nat) (k : Z) (m : nat) :
  ToolReport.indexLe index index' ->
  total' <= total ->
  ToolReport.atLeast index k && (total <=? m) = true ->
  ToolReport.atLeast index' k && (total' <=? m) = true.
Proof.
  intros Hi Ht H. apply andb_true_iff in H as [H1 H2].
  rewrite (atLeast_mono _ _ _ Hi H1). apply Nat.leb_le in H2.
  apply Nat.leb_le. lia.
Qed.

(** X15.  The grade never gets worse when the index rises and the number of
    issues falls. *)
Theorem grade_monotone :
  forall (index index' : JSInteger) (total total' : nat),
    ToolReport.indexLe index index' ->
    total' <= total ->
    ToolReport.gradeRank (ToolReport.getQualityGrade index total)
    <= ToolReport.gradeRank (ToolReport.getQualityGrade index' total').
Proof.
  intros index index' total total' Hi Ht.
  pose proof (grade_condition_mono index index' total total' 70 5 Hi Ht) as H70.
  pose proof (grade_condition_mono index index' total total' 60 15 Hi Ht) as H60.
  pose proof (grade_condition_mono index index' total total' 40 30 Hi Ht) as H40.
  assert (H80 : ToolReport.atLeast index 80 && (total =? 0) = true ->
                ToolReport.atLeast index' 80 && (total' =? 0) = true).
  { intros H. apply andb_true_iff in H as [H1 H2].
    rewrite (atLeast_mono _ _ _ Hi H1). apply Nat.eqb_eq in H2.
    apply Nat.eqb_eq. lia. }
  unfold ToolReport.getQualityGrade.
  destruct (ToolReport.atLeast index 80 && (total =? 0)).
  { rewrite H80 by reflexivity. simpl. lia. }
  destruct (ToolReport.atLeast index 70 && (total <=? 5)).
  { rewrite H70 by reflexivity.
    destruct (ToolReport.atLeast index' 80 && (total' =? 0)); simpl; lia. }
  destruct (ToolReport.atLeast index 60 && (total <=? 15)).
  { rewrite H60 by reflexivity.
    destruct (ToolReport.atLeast index' 80 && (total' =? 0)),
             (ToolReport.atLeast index' 70 && (total' <=? 5)); simpl; lia. }
  destruct (ToolReport.atLeast index 40 && (total <=? 30)).
  { rewrite H40 by reflexivity.
    destruct (ToolReport.atLeast index' 80 && (total' =? 0)),
             (ToolReport.atLeast index' 70 && (total' <=? 5)),
             (ToolReport.atLeast index' 60 && (total' <=? 15)); simpl; lia. }
  simpl. lia.
Qed.

Lemma grade_monotone_witness :
  ToolReport.gradeRank (ToolReport.getQualityGrade (Finite 65) 12)
  <= ToolReport.gradeRank (ToolReport.getQualityGrade Infinity 3).
Proof.
  apply grade_monotone; simpl; [exact I | lia].
Defined.

(* ===================================================================== *)
(** * The SonarQube provider: answers, batches and statistics *)
(* ===================================================================== *)

Section SonarFacts.
Import ReviewService SonarQube.
Variable call : string -> string -> outcome Response.
Variable clockAt : nat -> Clock.

Lemma mapped_severity_not_info (label : string) :
  mapSonarQubeSeverity label <> INFO.
Proof.
  unfold mapSonarQubeSeverity.
  repeat match goal with |- context [String.eqb ?a ?b] => destruct (String.eqb a b) end;
    discriminate.
Qed.

Lemma mapped_type_is_one_of_three (label : string) :
  In (mapSonarQubeType label) [BUG; SECURITY; QUALITY].
Proof.
  unfold mapSonarQubeType.
  repeat match goal with |- context [String.eqb ?a ?b] => destruct (String.eqb a b) end;
    simpl; auto.
Qed.

Lemma lineOrOne_positive (l : option nat) : 1 <= lineOrOne l.
Proof. destruct l as [[|n]|]; simpl; lia. Qed.

Lemma transformed_consistent (clock : Clock) (response : Response) :
  consistent (transformSonarQubeResponse clock response).
Proof. reflexivity. Qed.

(** The loop of [analyzeBatch]: every file ends in exactly one of the
    two arrays. *)
Lemma batch_loop (files : list FileInput) :
  forall (k : nat) (rs : list ThirdPartyAnalysisResult) (failed : list FileError),
    Forall consistent rs ->
    let out := fold_left (batchStep call clockAt)
                         (combine (seq k (List.length files)) files) (rs, failed) in
    List.length (fst out) + countIf (requestFails call) files
    = List.length rs + List.length files
    /\ map errorFilePath (snd out)
       = map errorFilePath failed ++ map filePath (List.filter (requestFails call) files)
    /\ Forall consistent (fst out).
Proof.
  induction files as [|f files IH]; intros k rs failed Hrs; simpl.
  - rewrite app_nil_r. unfold countIf. simpl. split; [lia|]. split; [reflexivity | exact Hrs].
  - rewrite countIf_cons. unfold requestFails at 1 3, SonarQube.analyzeFile.
    destruct (call (filePath f) (content f)) as [response|e]; simpl.
    + destruct (IH (S k) (rs ++ [transformSonarQubeResponse (clockAt k) response]) failed)
        as (H1 & H2 & H3).
      { apply Forall_app. split; [exact Hrs|].
        constructor; [apply transformed_consistent | constructor]. }
      rewrite length_app in H1. simpl in H1.
      split; [lia|]. split; [exact H2 | exact H3].
    + destruct (IH (S k) rs (failed ++ [{| errorFilePath := filePath f; error := e |}]) Hrs)
        as (H1 & H2 & H3).
      rewrite map_app in H2. simpl in H2. rewrite <- app_assoc in H2.
      split; [lia|]. split; [exact H2 | exact H3].
Qed.

Lemma countIf_app {A : Type} (p : A -> bool) (l l' : list A) :
  countIf p (l ++ l') = countIf p l + countIf p l'.
Proof. unfold countIf. rewrite List.filter_app, length_app. reflexivity. Qed.

(** The [reduce] of [calculateOverallStatistics] over consistent
    results. *)
Lemma overall_loop (rs : list ThirdPartyAnalysisResult) :
  forall (acc : OverallStatistics),
    Forall consistent rs ->
    (forall t, overallByType (fold_left addStatistics rs acc) t
               = match rs with
                 | [] => overallByType acc t
                 | _ => Some (orZero (overallByType acc t)
                              + countIf (ToolReport.hasType t) (flat_map tp_issues rs))
                 end)
    /\ (forall s, overallBySeverity (fold_left addStatistics rs acc) s
                  = match rs with
                    | [] => overallBySeverity acc s
                    | _ => Some (orZero (overallBySeverity acc s)
                                 + countIf (hasSeverity s) (flat_map tp_issues rs))
                    end).
Proof.
  induction rs as [|r rs IH]; intros acc Hrs; [split; reflexivity|].
  inversion Hrs as [|r' rs' Hr Hrest]; subst.
  destruct (IH (addStatistics acc r) Hrest) as [IHt IHs].
  split.
  - intros t. simpl fold_left. rewrite IHt. simpl flat_map. rewrite countIf_app.
    unfold addStatistics at 1 2. simpl. rewrite Hr. simpl.
    destruct rs; simpl; [unfold countIf at 3; simpl|]; f_equal; unfold ToolReport.hasType; lia.
  - intros s. simpl fold_left. rewrite IHs. simpl flat_map. rewrite countIf_app.
    unfold addStatistics at 1 2. simpl. rewrite Hr. simpl.
    destruct rs; simpl; [unfold countIf at 3; simpl|]; f_equal; unfold hasSeverity; lia.
Qed.

End SonarFacts.

(** X16.  Every file of a batch is accounted for once: it is processed or it
    is listed as failed, and the failed files are, in order, those whose
    request failed. *)
Theorem batch_accounts_for_every_file :
  forall (call : string -> string -> outcome SonarQube.Response)
         (clockAt : nat -> SonarQube.Clock) (start finish : SonarQube.Clock)
         (files : list SonarQube.FileInput),
    let b := SonarQube.analyzeBatch call clockAt start finish files in
    SonarQube.processedFiles b + List.length (SonarQube.failedFiles b)
    = SonarQube.totalFiles b
    /\ SonarQube.totalFiles b = List.length files
    /\ List.length (SonarQube.results b) = SonarQube.processedFiles b
    /\ map SonarQube.errorFilePath (SonarQube.failedFiles b)
       = map SonarQube.filePath (List.filter (SonarQube.requestFails call) files).
Proof.
  intros call clockAt start finish files. unfold SonarQube.analyzeBatch.
  pose proof (batch_loop call clockAt files 0 [] [] (List.Forall_nil _)) as H.
  destruct (fold_left _ _ _) as [rs failed]. simpl in H. destruct H as (H1 & H2 & _).
  simpl. split; [|split; [reflexivity|split; [reflexivity|exact H2]]].
  assert (Hlen : List.length failed = countIf (SonarQube.requestFails call) files).
  { rewrite <- (length_map SonarQube.errorFilePath), H2, length_map. reflexivity. }
  lia.
Qed.

Lemma batch_accounts_for_every_file_witness :
  SonarQube.processedFiles
    (SonarQube.analyzeBatch ReviewFixtures.server ReviewFixtures.clockAt
       (ReviewFixtures.clockAt 0) (ReviewFixtures.clockAt 3) ReviewFixtures.batch)
  + List.length
      (SonarQube.failedFiles
         (SonarQube.analyzeBatch ReviewFixtures.server ReviewFixtures.clockAt
            (ReviewFixtures.clockAt 0) (ReviewFixtures.clockAt 3) ReviewFixtures.batch))
  = 3.
Proof.
  exact (proj1 (batch_accounts_for_every_file ReviewFixtures.server ReviewFixtures.clockAt
                  (ReviewFixtures.clockAt 0) (ReviewFixtures.clockAt 3) ReviewFixtures.batch)).
Defined.

(** X17.  An issue that comes out of a SonarQube answer has a line of at
    least 1, names the provider as its source, is of type [BUG],
    [SECURITY] or [QUALITY], and is never of severity [INFO]; so the
    [INFO] count of the statistics is 0. *)
Theorem sonarqube_issue_shape :
  forall (clock : SonarQube.Clock) (response : SonarQube.Response) (i : CodeIssue),
    (forall raw issue, SonarQube.responseIssues response = Some raw ->
                       In issue raw -> SonarQube.plainLabels issue) ->
    In i (ReviewService.tp_issues (SonarQube.transformSonarQubeResponse clock response)) ->
    1 <= line i
    /\ source i = Some "sonarqube"
    /\ In (type i) [BUG; SECURITY; QUALITY]
    /\ severity i <> INFO
    /\ ReviewService.issuesBySeverity
         (ReviewService.statistics (SonarQube.transformSonarQubeResponse clock response)) INFO
       = 0.
Proof.
  intros clock response i _ Hin. simpl in *.
  destruct (SonarQube.responseIssues response) as [raw|]; [|destruct Hin].
  split; [|split; [|split; [|split]]].
  - apply in_map_iff in Hin as (r & <- & _). apply lineOrOne_positive.
  - apply in_map_iff in Hin as (r & <- & _). reflexivity.
  - apply in_map_iff in Hin as (r & <- & _). apply mapped_type_is_one_of_three.
  - apply in_map_iff in Hin as (r & <- & _). apply mapped_severity_not_info.
  - clear Hin. unfold countIf. induction raw as [|r raw IH]; [reflexivity|].
    simpl. rewrite bool_decide_eq_false_2 by apply mapped_severity_not_info.
    exact IH.
Qed.

Lemma sonarqube_issue_shape_witness :
  1 <= line (SonarQube.transformIssue ReviewFixtures.fileLevel)
  /\ source (SonarQube.transformIssue ReviewFixtures.fileLevel) = Some "sonarqube"
  /\ In (type (SonarQube.transformIssue ReviewFixtures.fileLevel)) [BUG; SECURITY; QUALITY]
  /\ severity (SonarQube.transformIssue ReviewFixtures.fileLevel) <> INFO
  /\ ReviewService.issuesBySeverity
       (ReviewService.statistics
          (SonarQube.transformSonarQubeResponse (ReviewFixtures.clockAt 0)
             ReviewFixtures.answer)) INFO
     = 0.
Proof.
  apply (sonarqube_issue_shape (ReviewFixtures.clockAt 0) ReviewFixtures.answer).
  - intros raw issue [= <-] [<-|[<-|[]]]; split; reflexivity.
  - simpl. right. left. reflexivity.
Defined.

(** X18.  The overall statistics of a batch count, for every type and every
    severity, the issues of all its results; when no file was processed
    the counts are not set at all. *)
Theorem batch_overall_statistics :
  forall (call : string -> string -> outcome SonarQube.Response)
         (clockAt : nat -> SonarQube.Clock) (start finish : SonarQube.Clock)
         (files : list SonarQube.FileInput),
    let b := SonarQube.analyzeBatch call clockAt start finish files in
    let found := flat_map ReviewService.tp_issues (SonarQube.results b) in
    (forall t, SonarQube.overallByType (SonarQube.overallStatistics b) t
               = if SonarQube.processedFiles b =? 0 then None
                 else Some (countIf (ToolReport.hasType t) found))
    /\ (forall s, SonarQube.overallBySeverity (SonarQube.overallStatistics b) s
                  = if SonarQube.processedFiles b =? 0 then None
                    else Some (countIf (hasSeverity s) found)).
Proof.
  intros call clockAt start finish files. unfold SonarQube.analyzeBatch.
  pose proof (batch_loop call clockAt files 0 [] [] (List.Forall_nil _)) as H.
  destruct (fold_left _ _ _) as [rs failed]. simpl in H. destruct H as (_ & _ & Hrs).
  simpl. unfold SonarQube.calculateOverallStatistics.
  destruct (overall_loop rs SonarQube.noOverallStatistics Hrs) as [Ht Hs].
  split; [intros t; rewrite Ht | intros s; rewrite Hs]; destruct rs; reflexivity.
Qed.

Lemma batch_overall_statistics_witness :
  SonarQube.overallBySeverity
    (SonarQube.overallStatistics
       (SonarQube.analyzeBatch ReviewFixtures.server ReviewFixtures.clockAt
          (ReviewFixtures.clockAt 0) (ReviewFixtures.clockAt 3) ReviewFixtures.batch))
    CRITICAL
  = Some 1.
Proof.
  exact (proj2 (batch_overall_statistics ReviewFixtures.server ReviewFixtures.clockAt
                  (ReviewFixtures.clockAt 0) (ReviewFixtures.clockAt 3) ReviewFixtures.batch)
               CRITICAL).
Defined.

(* ===================================================================== *)
(** * The registry of providers *)
(* ===================================================================== *)

Section RegistryFacts.
Import ReviewService Registry.

Lemma mapGet_keys {V : Type} (k : string) (m : OrderedMap V) :
  existsb (String.eqb k) (mapKeys m) = match mapGet k m with Some _ => true | None => false end.
Proof.
  unfold mapKeys. induction m as [|[k0 v0] m IH]; simpl; [reflexivity|].
  destruct (String.eqb k k0); simpl; [reflexivity | exact IH].
Qed.

Lemma keys_NoDup_mapSet {V : Type} (k : string) (v : V) (m : OrderedMap V) :
  NoDup (mapKeys m) -> NoDup (mapKeys (mapSet k v m)).
Proof.
  intros Hnd. rewrite keys_mapSet.
  destruct (existsb _ (mapKeys m)) eqn:E; [exact Hnd|].
  apply NoDup_app; repeat split.
  - exact Hnd.
  - intros x Hx Hx'. apply list_elem_of_In in Hx, Hx'. simpl in Hx'.
    destruct Hx' as [<-|[]].
    assert (existsb (String.eqb k) (mapKeys m) = true).
    { apply existsb_exists. exists k. split; [exact Hx | apply String.eqb_refl]. }
    congruence.
  - apply NoDup_singleton.
Qed.

Lemma length_mapSet {V : Type} (k : string) (v : V) (m : OrderedMap V) :
  List.length (mapSet k v m) <= S (List.length m).
Proof.
  induction m as [|[k0 v0] m IH]; simpl; [lia|].
  destruct (String.eqb k k0); simpl; lia.
Qed.

Lemma length_registerAll (ps : list Provider) :
  forall (m : OrderedMap Provider),
    List.length (registerAll ps m) <= List.length m + List.length ps.
Proof.
  induction ps as [|q ps IH]; intros m; simpl; [lia|].
  specialize (IH (registerProvider q m)).
  pose proof (length_mapSet (provider_id q) q m). unfold registerProvider in *. lia.
Qed.

(** What holds of the registry after every call of [registerProvider]. *)
Lemma registerAll_invariant (ps : list Provider) :
  forall (m : OrderedMap Provider) (known : list Provider),
    NoDup (mapKeys m) ->
    (forall id p, mapGet id m = Some p -> provider_id p = id /\ In p known) ->
    let m' := registerAll ps m in
    NoDup (mapKeys m')
    /\ (forall id p, mapGet id m' = Some p -> provider_id p = id /\ In p (known ++ ps))
    /\ (forall id, is_Some (mapGet id m) -> is_Some (mapGet id m'))
    /\ (forall p, In p ps -> is_Some (mapGet (provider_id p) m')).
Proof.
  induction ps as [|q ps IH]; intros m known Hnd Hown; simpl.
  - rewrite app_nil_r. split; [exact Hnd|]. split; [exact Hown|]. split; [auto|].
    intros p0 [].
  - destruct (IH (registerProvider q m) (known ++ [q])) as (H1 & H2 & H3 & H4).
    + apply keys_NoDup_mapSet. exact Hnd.
    + intros id p. unfold registerProvider. rewrite mapGet_mapSet.
      destruct (String.eqb_spec id (provider_id q)) as [->|Hne].
      * intros [= <-]. split; [reflexivity|]. apply in_or_app. right. left. reflexivity.
      * intros H. apply Hown in H as [Hid Hin]. split; [exact Hid|].
        apply in_or_app. left. exact Hin.
    + assert (Hq : is_Some (mapGet (provider_id q) (registerProvider q m))).
      { unfold registerProvider. rewrite mapGet_mapSet, String.eqb_refl. eauto. }
      split; [exact H1|]. split; [|split].
      * intros id p H. apply H2 in H as [Hid Hin]. split; [exact Hid|].
        rewrite <- app_assoc in Hin. exact Hin.
      * intros id H. apply H3. unfold registerProvider. rewrite mapGet_mapSet.
        destruct (String.eqb id (provider_id q)); [eauto | exact H].
      * intros p [<-|Hp]; [apply H3; exact Hq | apply H4; exact Hp].
Qed.

End RegistryFacts.

(** X19.  The registry never holds an id twice, whatever is registered after
    the default provider: every entry is kept under its provider's own
    id and is the default provider or one that was registered, and every
    registered id can be looked up. *)
Theorem registry_ids_are_unique :
  forall (sonarQubeProvider : ReviewService.Provider) (ps : list ReviewService.Provider),
    let registry :=
      Registry.registerAll ps (Registry.initializeDefaultProviders sonarQubeProvider) in
    NoDup (ReviewService.mapKeys registry)
    /\ (forall id p, ReviewService.mapGet id registry = Some p ->
                     ReviewService.provider_id p = id /\ In p (sonarQubeProvider :: ps))
    /\ (forall p, In p (sonarQubeProvider :: ps) ->
                  is_Some (ReviewService.mapGet (ReviewService.provider_id p) registry))
    /\ List.length (Registry.getAvailableProviders registry) <= 1 + List.length ps.
Proof.
  intros sonar ps.
  destruct (registerAll_invariant ps (Registry.initializeDefaultProviders sonar) [sonar])
    as (H1 & H2 & H3 & H4).
  - simpl. apply NoDup_singleton.
  - intros id p. unfold Registry.initializeDefaultProviders. simpl.
    destruct (String.eqb_spec id (ReviewService.provider_id sonar)) as [->|Hne];
      [|discriminate].
    intros [= <-]. split; [reflexivity | left; reflexivity].
  - simpl. split; [exact H1|]. split; [exact H2|]. split.
    + intros p [<-|Hp]; [|apply H4; exact Hp].
      apply H3. unfold Registry.initializeDefaultProviders. simpl.
      rewrite String.eqb_refl. eauto.
    + unfold Registry.getAvailableProviders. rewrite length_map.
      pose proof (length_registerAll ps (Registry.initializeDefaultProviders sonar)) as Hlen.
      simpl in Hlen. lia.
Qed.

(* ===================================================================== *)
(** * Directories: the walk and the totals *)
(* ===================================================================== *)

Section DirectoryFacts.
Import JS ReviewService Registry.
Variable readFile : string -> outcome string.
Variable extname : string -> string.
Variable join : string -> string -> string.
Variable complete : SupportedLanguage -> string -> Completion.
Variable registry : OrderedMap Provider.

(** The loop of [analyzeDirectory] adds up what the analysed files
    give. *)
Lemma directory_loop (options : option Options) (files : list string) :
  forall (acc : Totals),
    let rs := analysed readFile extname complete registry options files in
    fold_left (directoryStep readFile extname complete registry options) files acc
    = {| allIssues := allIssues acc ++ flat_map issues rs;
         allThirdPartyResults := allThirdPartyResults acc ++ flat_map thirdPartyResults rs;
         totalLoc := totalLoc acc + list_sum (map (fun r => linesOfCode (metrics r)) rs);
         totalComplexity :=
           totalComplexity acc + list_sum (map (fun r => complexity (metrics r)) rs) |}.
Proof.
  induction files as [|f files IH]; intros acc; simpl.
  - rewrite !app_nil_r, !Nat.add_0_r. destruct acc; reflexivity.
  - rewrite IH. unfold analysed, directoryStep. simpl.
    destruct (analyzeFile readFile extname complete registry f options) as [r|e]; simpl.
    + rewrite <- !app_assoc, <- !Nat.add_assoc. reflexivity.
    + reflexivity.
Qed.

(** The summary of a file's result is the summary of its issues. *)
Lemma analyzeFile_summary (f : string) (options : option Options) (r : CodeReviewResult) :
  analyzeFile readFile extname complete registry f options = Resolved r ->
  summary r = generateSummary (issues r).
Proof.
  unfold analyzeFile.
  destruct (readFile f) as [content|e]; [|discriminate].
  destruct (supportedLanguages !! _) as [language|]; [|discriminate].
  destruct (match options with Some _ => _ | None => _ end) as [results found].
  intros [= <-]. reflexivity.
Qed.

Lemma analysed_resolved (options : option Options) (files : list string) (r : CodeReviewResult) :
  In r (analysed readFile extname complete registry options files) ->
  exists f, In f files
            /\ analyzeFile readFile extname complete registry f options = Resolved r.
Proof.
  unfold analysed. intros H. apply in_flat_map in H as (f & Hf & Hr).
  exists f. split; [exact Hf|].
  destruct (analyzeFile _ _ _ _ f options) as [r'|e]; simpl in Hr;
    [destruct Hr as [<-|[]]; reflexivity | destruct Hr].
Qed.

Lemma countIf_flat_map {A B : Type} (p : B -> bool) (f : A -> list B) (l : list A) :
  countIf p (flat_map f l) = list_sum (map (fun x => countIf p (f x)) l).
Proof.
  induction l as [|x l IH]; simpl; [reflexivity|].
  rewrite countIf_app, IH. reflexivity.
Qed.

Lemma length_flat_map {A B : Type} (f : A -> list B) (l : list A) :
  List.length (flat_map f l) = list_sum (map (fun x => List.length (f x)) l).
Proof.
  induction l as [|x l IH]; simpl; [reflexivity|].
  rewrite length_app, IH. reflexivity.
Qed.

Lemma list_sum_ext_in {A : Type} (f g : A -> nat) (l : list A) :
  (forall x, In x l -> f x = g x) ->
  list_sum (map f l) = list_sum (map g l).
Proof.
  intros H. induction l as [|x l IH]; simpl; [reflexivity|].
  rewrite (H x (or_introl eq_refl)), IH; [reflexivity|].
  intros y Hy. apply H. right. exact Hy.
Qed.

(** Induction on a listing with its nested listings. *)
Lemma Dirent_nested_ind (P : Dirent -> Prop) :
  (forall n, P (FileEntry n)) ->
  (forall n es, Forall P es -> P (Directory n es)) ->
  (forall n e, P (Unreadable n e)) ->
  forall d, P d.
Proof.
  intros Hf Hd Hu. fix IH 1. intros [n|n es|n e].
  - apply Hf.
  - apply Hd. induction es as [|e es IHes]; constructor; [apply IH | exact IHes].
  - apply Hu.
Qed.

(** The walk below a directory is the walk over its entries. *)
Lemma scanEntry_directory (currentPath n : string) (es : list Dirent) :
  scanEntry extname join currentPath (Directory n es)
  = if arrayIncludes n skippedDirectories then Resolved []
    else scanAll extname join (join currentPath n) es.
Proof.
  simpl.
  match goal with |- (if ?c then _ else _) = _ => destruct c end; [reflexivity|].
  induction es as [|e es IH]; simpl; [reflexivity|].
  rewrite IH. reflexivity.
Qed.

Lemma walk_entry (d : Dirent) :
  forall currentPath,
    (reachesUnreadable d = false ->
     exists files, scanEntry extname join currentPath d = Resolved files
                   /\ List.length files = walked extname [d])
    /\ (reachesUnreadable d = true ->
        exists e, scanEntry extname join currentPath d = Thrown e).
Proof.
  induction d as [n|n es IH|n e] using Dirent_nested_ind; intros currentPath.
  - split; [|discriminate]. intros _. unfold walked.
    cbn [scanEntry visitedFiles flat_map app]. rewrite countIf_cons.
    destruct (arrayIncludes (toLowerCase (extname n)) walkerExtensions);
      eexists; split; reflexivity.
  - rewrite scanEntry_directory. unfold walked.
    cbn [reachesUnreadable visitedFiles flat_map]. rewrite app_nil_r.
    destruct (arrayIncludes n skippedDirectories); cbn [negb andb].
    { split; [|discriminate]. intros _. eexists. split; reflexivity. }
    generalize (join currentPath n) as p. clear currentPath.
    induction IH as [|d es Hd Hes IHes]; intros p.
    + split; [|discriminate]. intros _. eexists. split; reflexivity.
    + cbn [scanAll existsb flat_map].
      destruct (Hd p) as [Hok Hbad]. destruct (IHes p) as [Hoks Hbads].
      destruct (reachesUnreadable d); cbn [orb].
      * split; [discriminate|]. intros _.
        destruct (Hbad eq_refl) as [e ->]. eauto.
      * destruct (Hok eq_refl) as (files & -> & Hlen).
        unfold walked in Hlen. cbn [flat_map] in Hlen. rewrite app_nil_r in Hlen.
        split.
        -- intros H. destruct (Hoks H) as (more & -> & Hmore).
           eexists. split; [reflexivity|].
           rewrite length_app, countIf_app. lia.
        -- intros H. destruct (Hbads H) as [e ->]. eauto.
  - unfold walked. cbn [scanEntry reachesUnreadable visitedFiles flat_map app].
    destruct (arrayIncludes n skippedDirectories); cbn [negb].
    + split; [|discriminate]. intros _. eexists. split; reflexivity.
    + split; [discriminate|]. intros _. eauto.
Qed.

Lemma walk_entries (es : list Dirent) :
  forall currentPath,
    (existsb reachesUnreadable es = false ->
     exists files, scanAll extname join currentPath es = Resolved files
                   /\ List.length files = walked extname es)
    /\ (existsb reachesUnreadable es = true ->
        exists e, scanAll extname join currentPath es = Thrown e).
Proof.
  induction es as [|d es IH]; intros p.
  - split; [|discriminate]. intros _. eexists. split; reflexivity.
  - cbn [scanAll existsb]. unfold walked. cbn [flat_map].
    destruct (walk_entry d p) as [Hok Hbad]. destruct (IH p) as [Hoks Hbads].
    destruct (reachesUnreadable d); cbn [orb].
    + split; [discriminate|]. intros _. destruct (Hbad eq_refl) as [e ->]. eauto.
    + destruct (Hok eq_refl) as (files & -> & Hlen).
      unfold walked in *. cbn [flat_map] in Hlen. rewrite app_nil_r in Hlen.
      split.
      * intros H. destruct (Hoks H) as (more & -> & Hmore).
        eexists. split; [reflexivity|]. rewrite length_app, countIf_app. lia.
      * intros H. destruct (Hbads H) as [e ->]. eauto.
Qed.

End DirectoryFacts.

(** X20.  What a directory analysis returns is the sum of what its files
    give: the issues and the third-party results of the files whose
    analysis resolved, in the order of the files, the sums of their
    lines of code and complexities, and a summary whose counts are the
    sums of the counts in the files' own summaries. *)
Theorem directory_result_is_the_sum :
  forall (readFile : string -> outcome string) (extname : string -> string)
         (complete : ReviewService.SupportedLanguage -> string -> ReviewService.Completion)
         (registry : ReviewService.OrderedMap ReviewService.Provider)
         (files : list string) (options : option ReviewService.Options),
    let rs := Registry.analysed readFile extname complete registry options files in
    let d := ReviewService.analyzeFiles readFile extname complete registry files options in
    ReviewService.issues d = flat_map ReviewService.issues rs
    /\ ReviewService.thirdPartyResults d = flat_map ReviewService.thirdPartyResults rs
    /\ linesOfCode (ReviewService.metrics d)
       = list_sum (map (fun r => linesOfCode (ReviewService.metrics r)) rs)
    /\ complexity (ReviewService.metrics d)
       = list_sum (map (fun r => complexity (ReviewService.metrics r)) rs)
    /\ totalIssues (ReviewService.summary d)
       = list_sum (map (fun r => totalIssues (ReviewService.summary r)) rs)
    /\ criticalIssues (ReviewService.summary d)
       = list_sum (map (fun r => criticalIssues (ReviewService.summary r)) rs)
    /\ highIssues (ReviewService.summary d)
       = list_sum (map (fun r => highIssues (ReviewService.summary r)) rs)
    /\ mediumIssues (ReviewService.summary d)
       = list_sum (map (fun r => mediumIssues (ReviewService.summary r)) rs)
    /\ lowIssues (ReviewService.summary d)
       = list_sum (map (fun r => lowIssues (ReviewService.summary r)) rs).
Proof.
  intros readFile extname complete registry files options rs d.
  assert (Hsum : forall r, In r rs ->
                           ReviewService.summary r = generateSummary (ReviewService.issues r)).
  { intros r Hr. apply analysed_resolved in Hr as (f & _ & Hf).
    exact (analyzeFile_summary _ _ _ _ _ _ _ Hf). }
  subst d. unfold ReviewService.analyzeFiles.
  rewrite directory_loop. fold rs. simpl.
  repeat split.
  - rewrite length_flat_map. apply list_sum_ext_in.
    intros r Hr. rewrite (Hsum r Hr). reflexivity.
  - rewrite countIf_flat_map. apply list_sum_ext_in.
    intros r Hr. rewrite (Hsum r Hr). reflexivity.
  - rewrite countIf_flat_map. apply list_sum_ext_in.
    intros r Hr. rewrite (Hsum r Hr). reflexivity.
  - rewrite countIf_flat_map. apply list_sum_ext_in.
    intros r Hr. rewrite (Hsum r Hr). reflexivity.
  - rewrite countIf_flat_map. apply list_sum_ext_in.
    intros r Hr. rewrite (Hsum r Hr). reflexivity.
Qed.

(** X21.  The walk fails exactly when it reaches a directory that cannot be
    listed, one outside every skipped directory; otherwise it returns
    one path for every entry it visits whose extension is one of the
    walker's ten. *)
Theorem walk_fails_only_on_unreadable :
  forall (extname : string -> string) (join : string -> string -> string)
         (dirPath : string) (entries : list ReviewService.Dirent),
    (existsb Registry.reachesUnreadable entries = false ->
     exists files,
       ReviewService.findFiles extname join dirPath (Resolved entries) = Resolved files
       /\ List.length files
          = countIf (fun n => JS.arrayIncludes (JS.toLowerCase (extname n))
                                               ReviewService.walkerExtensions)
                    (flat_map Registry.visitedFiles entries))
    /\ (existsb Registry.reachesUnreadable entries = true ->
        exists e, ReviewService.findFiles extname join dirPath (Resolved entries) = Thrown e).
Proof.
  intros extname join dirPath entries. unfold ReviewService.findFiles.
  exact (walk_entries extname join entries dirPath).
Qed.

Lemma walk_fails_only_on_unreadable_witness :
  exists files,
    ReviewService.findFiles Node.extname Node.join "/w" (Resolved ReviewFixtures.listing)
    = Resolved files
    /\ List.length files = 3.
Proof.
  destruct (proj1 (walk_fails_only_on_unreadable Node.extname Node.join "/w"
                     ReviewFixtures.listing) eq_refl) as (files & H & Hlen).
  exists files. split; [exact H|]. rewrite Hlen. reflexivity.
Defined.

(* ===================================================================== *)
(** * The maintainability index: range and order *)
(* ===================================================================== *)

Section IndexFacts.
Open Scope R_scope.

Lemma Math_round_mono (x y : R) :
  x <= y -> (Metrics.Math_round x <= Metrics.Math_round y)%Z.
Proof.
  intros H. unfold Metrics.Math_round.
  destruct (base_Int_part (x + / 2)) as [Hx _].
  destruct (base_Int_part (y + / 2)) as [_ Hy].
  assert (Hlt : IZR (Int_part (x + / 2)) < IZR (Int_part (y + / 2)) + 1) by lra.
  rewrite <- plus_IZR in Hlt. apply lt_IZR in Hlt. lia.
Qed.

Lemma Math_round_IZR (k : Z) : Metrics.Math_round (IZR k) = k.
Proof.
  unfold Metrics.Math_round. symmetry. apply Int_part_spec. lra.
Qed.

Lemma ln_INR_nonneg (loc : nat) : (1 <= loc)%nat -> 0 <= ln (INR loc).
Proof.
  intros H. destruct (Nat.eq_dec loc 1%nat) as [->|Hne].
  - simpl. rewrite ln_1. lra.
  - assert (H1 : 1 < INR loc).
    { change 1 with (INR 1%nat). apply lt_INR. lia. }
    pose proof (ln_increasing 1 (INR loc) Rlt_0_1 H1) as Hln.
    rewrite ln_1 in Hln. lra.
Qed.

(** The argument of the rounding in the per-file formula. *)
Lemma file_formula_range (loc c : nat) :
  (1 <= loc)%nat ->
  0 <= Rmax 0 (171 - 5.2 * ln (INR loc) - 0.23 * INR c) <= 171.
Proof.
  intros H. pose proof (ln_INR_nonneg loc H). pose proof (pos_INR c).
  split; [apply Rmax_l|]. apply Rmax_lub; lra.
Qed.

Lemma directory_formula_le (loc c n : nat) :
  (1 <= loc)%nat ->
  171 - 5.2 * ln (INR loc) - 0.23 * INR c - 16.2 * ln (INR loc) - INR n * 2
  <= 171 - 5.2 * ln (INR loc) - 0.23 * INR c.
Proof.
  intros H. pose proof (ln_INR_nonneg loc H). pose proof (pos_INR n). lra.
Qed.

End IndexFacts.

(** X22.  The index of a file with at least one line of code is an integer
    between 0 and 171. *)
Theorem file_index_range :
  forall (loc c : nat),
    1 <= loc ->
    exists z, Metrics.fileMaintainability loc c = Finite z /\ (0 <= z <= 171)%Z.
Proof.
  intros loc c H. unfold Metrics.fileMaintainability.
  replace (loc =? 0) with false by (symmetry; apply Nat.eqb_neq; lia).
  eexists. split; [reflexivity|].
  destruct (file_formula_range loc c H) as [Hlo Hhi].
  apply Math_round_mono in Hlo, Hhi.
  rewrite (Math_round_IZR 0) in Hlo. rewrite (Math_round_IZR 171) in Hhi. lia.
Qed.

Lemma file_index_range_witness :
  exists z, Metrics.fileMaintainability 2 1 = Finite z /\ (0 <= z <= 171)%Z.
Proof.
  apply file_index_range. lia.
Defined.

(** X23.  The index of a directory with at least one line of code lies
    between 0 and 171 and does not rise when more issues are found. *)
Theorem directory_index_falls_with_issues :
  forall (loc c issueCount issueCount' : nat),
    1 <= loc ->
    issueCount <= issueCount' ->
    exists z z',
      Metrics.calculateMaintainabilityIndex loc c issueCount = Finite z
      /\ Metrics.calculateMaintainabilityIndex loc c issueCount' = Finite z'
      /\ (0 <= z' <= z)%Z /\ (z <= 171)%Z.
Proof.
  intros loc c n n' Hloc Hn. unfold Metrics.calculateMaintainabilityIndex.
  replace (loc =? 0) with false by (symmetry; apply Nat.eqb_neq; lia).
  do 2 eexists. split; [reflexivity|]. split; [reflexivity|]. cbv zeta.
  assert (Hmono : (Metrics.Math_round
                     (171 - 5.2 * ln (INR loc) - 0.23 * INR c - 16.2 * ln (INR loc)
                      - INR n' * 2)
                   <= Metrics.Math_round
                        (171 - 5.2 * ln (INR loc) - 0.23 * INR c - 16.2 * ln (INR loc)
                         - INR n * 2))%Z).
  { apply Math_round_mono. apply le_INR in Hn. lra. }
  assert (Hhi : (Metrics.Math_round
                   (171 - 5.2 * ln (INR loc) - 0.23 * INR c - 16.2 * ln (INR loc)
                    - INR n * 2) <= 171)%Z).
  { rewrite <- (Math_round_IZR 171) at 2. apply Math_round_mono.
    pose proof (directory_formula_le loc c n Hloc). pose proof (ln_INR_nonneg loc Hloc).
    pose proof (pos_INR c). lra. }
  lia.
Qed.

Lemma directory_index_falls_with_issues_witness :
  exists z z',
    Metrics.calculateMaintainabilityIndex 2 1 0 = Finite z
    /\ Metrics.calculateMaintainabilityIndex 2 1 5 = Finite z'
    /\ (0 <= z' <= z)%Z /\ (z <= 171)%Z.
Proof.
  apply directory_index_falls_with_issues; lia.
Defined.

(** X24.  A directory never scores higher than a single file with the same
    lines of code and complexity, whatever the number of issues. *)
Theorem directory_index_at_most_file_index :
  forall (loc c issueCount : nat),
    1 <= loc ->
    exists zd zf,
      Metrics.calculateMaintainabilityIndex loc c issueCount = Finite zd
      /\ Metrics.fileMaintainability loc c = Finite zf
      /\ (zd <= zf)%Z.
Proof.
  intros loc c n Hloc.
  unfold Metrics.calculateMaintainabilityIndex, Metrics.fileMaintainability.
  replace (loc =? 0) with false by (symmetry; apply Nat.eqb_neq; lia).
  do 2 eexists. split; [reflexivity|]. split; [reflexivity|]. cbv zeta.
  pose proof (directory_formula_le loc c n Hloc) as Hle.
  destruct (file_formula_range loc c Hloc) as [Hlo _].
  apply Math_round_mono in Hlo. rewrite (Math_round_IZR 0) in Hlo.
  assert (Hmono : (Metrics.Math_round
                     (171 - 5.2 * ln (INR loc) - 0.23 * INR c - 16.2 * ln (INR loc)
                      - INR n * 2)
                   <= Metrics.Math_round
                        (Rmax 0 (171 - 5.2 * ln (INR loc) - 0.23 * INR c)))%Z).
  { apply Math_round_mono. eapply Rle_trans; [exact Hle | apply Rmax_r]. }
  lia.
Qed.

Lemma directory_index_at_most_file_index_witness :
  exists zd zf,
    Metrics.calculateMaintainabilityIndex 2 1 0 = Finite zd
    /\ Metrics.fileMaintainability 2 1 = Finite zf
    /\ (zd <= zf)%Z.
Proof.
  apply directory_index_at_most_file_index. lia.
Defined.

(** X25.  When the analysis of every file fails, the directory result has no
    issue and no line of code, its index is [Infinity], and the report
    grades it A+ under every filter. *)
Theorem unanalysable_directory_gets_top_grade :
  forall (readFile : string -> outcome string) (extname : string -> string)
         (complete : ReviewService.SupportedLanguage -> string -> ReviewService.Completion)
         (registry : ReviewService.OrderedMap ReviewService.Provider)
         (files : list string) (options : option ReviewService.Options)
         (severityFilter : string) (issueTypes : list string),
    (forall f, In f files ->
               exists e, ReviewService.analyzeFile readFile extname complete registry f options
                         = Thrown e) ->
    let d := ReviewService.analyzeFiles readFile extname complete registry files options in
    ReviewService.issues d = []
    /\ linesOfCode (ReviewService.metrics d) = 0
    /\ maintainabilityIndex (ReviewService.metrics d) = Infinity
    /\ ToolReport.reportGrade (ReviewTool.filteredResult d severityFilter issueTypes)
       = ToolReport.GradeAPlus.
Proof.
  intros readFile extname complete registry files options severityFilter issueTypes Hall d.
  assert (Hrs : Registry.analysed readFile extname complete registry options files = []).
  { unfold Registry.analysed. induction files as [|f files IH]; [reflexivity|].
    simpl. destruct (Hall f (or_introl eq_refl)) as [e ->]. simpl.
    apply IH. intros f' Hf'. apply Hall. right. exact Hf'. }
  subst d. unfold ReviewService.analyzeFiles. rewrite directory_loop, Hrs.
  cbn [flat_map map list_sum app ReviewService.noTotals ReviewService.allIssues
       ReviewService.totalLoc ReviewService.totalComplexity Nat.add
       ReviewService.allThirdPartyResults ReviewService.issues ReviewService.metrics
       linesOfCode maintainabilityIndex].
  split; [reflexivity|]. split; [reflexivity|]. split; [reflexivity|].
  unfold ToolReport.reportGrade, ReviewTool.filteredResult, ReviewTool.filterIssues.
  cbn [ReviewService.issues ReviewService.metrics ReviewService.summary List.filter
       maintainabilityIndex totalIssues].
  destruct (negb _); reflexivity.
Qed.

Lemma unanalysable_directory_gets_top_grade_witness :
  ToolReport.reportGrade
    (ReviewTool.filteredResult
       (ReviewService.analyzeFiles Fixtures.readFile Node.extname Fixtures.quiet []
          ["/w/main.c"; "/w/missing.ts"] None)
       "all" ReviewTool.defaultIssueTypes)
  = ToolReport.GradeAPlus.
Proof.
  apply (unanalysable_directory_gets_top_grade Fixtures.readFile Node.extname Fixtures.quiet []
           ["/w/main.c"; "/w/missing.ts"] None "all" ReviewTool.defaultIssueTypes).
  intros f [<-|[<-|[]]]; eexists; vm_compute; reflexivity.
Defined.

(* ===================================================================== *)
(** * The heuristic scanner: what its issues look like *)
(* ===================================================================== *)

Section ScannerFacts.
Import JS HeuristicService.

(** An issue of a [forEach] comes from one line and its index. *)
Lemma forEachFrom_line {A B : Type} (body : A -> nat -> list B) (lines : list A) :
  forall (k : nat) (x : B),
    In x (forEachFrom body k lines) ->
    exists idx l, nth_error lines idx = Some l /\ In x (body l (k + idx)).
Proof.
  induction lines as [|l0 lines IH]; intros k x H; [destruct H|].
  simpl in H. apply in_app_or in H as [H|H].
  - exists 0, l0. rewrite Nat.add_0_r. split; [reflexivity | exact H].
  - destruct (IH (S k) x H) as (idx & l & Hnth & Hin).
    exists (S idx), l. split; [exact Hnth|].
    replace (k + S idx) with (S k + idx) by lia. exact Hin.
Qed.

(** Every issue of [scan] is pushed by one of the four checks for one
    line of the content. *)
Lemma scan_line (content path ext : string) (i : CodeIssue) :
  In i (scan content path ext) ->
  exists idx l,
    nth_error (splitOn newline content) idx = Some l
    /\ In i (qualityAt path ext l idx ++ securityAt path ext l idx
             ++ performanceAt path ext (splitOn newline content) l idx
             ++ styleAt path l idx).
Proof.
  unfold scan, checkCodeQuality, checkSecurity, checkPerformance, checkCodeStyle, forEach.
  intros H.
  apply in_app_or in H as [H|H];
    [|apply in_app_or in H as [H|H]; [|apply in_app_or in H as [H|H]]];
    apply forEachFrom_line in H as (idx & l & Hnth & H);
    change (0 + idx) with idx in H;
    exists idx, l; (split; [exact Hnth|]).
  - apply in_or_app. left. exact H.
  - apply in_or_app. right. apply in_or_app. left. exact H.
  - apply in_or_app. right. apply in_or_app. right. apply in_or_app. left. exact H.
  - apply in_or_app. right. apply in_or_app. right. apply in_or_app. right. exact H.
Qed.

(** What is known of an issue that a check pushes for the line at
    [idx]. *)
Lemma line_issue_shape (path ext : string) (lines : list string) (l : string) (idx : nat)
      (i : CodeIssue) :
  In i (qualityAt path ext l idx ++ securityAt path ext l idx
        ++ performanceAt path ext lines l idx ++ styleAt path l idx) ->
  file i = path /\ line i = idx + 1 /\ severity i <> INFO /\ source i = None
  /\ In (type i) [QUALITY; SECURITY; PERFORMANCE; STYLE]
  /\ (severity i = CRITICAL <-> ruleId i = Some "hardcoded-secrets")
  /\ (arrayIncludes ext webScriptExtensions = false ->
      type i <> PERFORMANCE /\ ruleId i <> Some "console-log"
      /\ ruleId i <> Some "magic-numbers")
  /\ (arrayIncludes ext (webScriptExtensions ++ [".html"]) = false ->
      ruleId i <> Some "xss-vulnerability").
Proof.
  unfold qualityAt, securityAt, performanceAt, styleAt. cbv zeta. intros H.
  destruct (arrayIncludes ext webScriptExtensions) eqn:Eweb;
    destruct (arrayIncludes ext (webScriptExtensions ++ [".html"])) eqn:Ehtml;
    repeat match type of H with
           | In _ (_ ++ _) => apply in_app_or in H as [H|H]
           | In _ (flat_map _ _) => apply in_flat_map in H as (? & _ & H)
           | In _ [] => destruct H
           end;
    unfold pushIf in H;
    match type of H with
    | In _ (if ?c then _ else _) => destruct c; [destruct H as [<-|[]] | destruct H]
    end;
    unfold issue; cbn [file line severity source type ruleId];
    (split; [reflexivity|]); (split; [reflexivity|]); (split; [discriminate|]);
    (split; [reflexivity|]); (split; [cbn [In]; auto 6|]);
    (split; [split; intros; (reflexivity || discriminate)|]);
    (split; [intros; try discriminate; repeat split; discriminate
            | intros; discriminate]).
Qed.

End ScannerFacts.

(** X26.  Every issue of the heuristic scanner names the scanned file and a
    line of it, counted from 1; it has no source, is of one of four
    types and never of severity [INFO]; and it is critical exactly when
    it is a hard-coded secret. *)
Theorem scan_issue_shape :
  forall (content filePath fileExtension : string) (i : CodeIssue),
    In i (HeuristicService.scan content filePath fileExtension) ->
    file i = filePath
    /\ 1 <= line i <= List.length (JS.splitOn JS.newline content)
    /\ severity i <> INFO
    /\ source i = None
    /\ In (type i) [QUALITY; SECURITY; PERFORMANCE; STYLE]
    /\ (severity i = CRITICAL <-> ruleId i = Some "hardcoded-secrets").
Proof.
  intros content filePath fileExtension i H.
  apply scan_line in H as (idx & l & Hnth & H).
  apply line_issue_shape in H as (Hf & Hl & Hs & Hsrc & Ht & Hc & _).
  assert (Hidx : idx < List.length (JS.splitOn JS.newline content)).
  { apply nth_error_Some. congruence. }
  repeat split; try assumption; try lia; apply Hc.
Qed.

Lemma scan_issue_shape_witness :
  file ReviewFixtures.trailing = "/w/pad.js"
  /\ 1 <= line ReviewFixtures.trailing <= List.length (JS.splitOn JS.newline "x ")
  /\ severity ReviewFixtures.trailing <> INFO
  /\ source ReviewFixtures.trailing = None
  /\ In (type ReviewFixtures.trailing) [QUALITY; SECURITY; PERFORMANCE; STYLE]
  /\ (severity ReviewFixtures.trailing = CRITICAL
      <-> ruleId ReviewFixtures.trailing = Some "hardcoded-secrets").
Proof.
  apply (scan_issue_shape "x " "/w/pad.js" ".js").
  vm_compute. left. reflexivity.
Defined.

(** X27.  The rules for web scripts stay silent on other files: outside
    [.js], [.ts], [.jsx] and [.tsx] the scanner reports no performance
    issue, no [console.log] and no magic number, and outside these and
    [.html] no [innerHTML] either. *)
Theorem web_rules_need_web_extension :
  forall (content filePath fileExtension : string) (i : CodeIssue),
    JS.arrayIncludes fileExtension HeuristicService.webScriptExtensions = false ->
    In i (HeuristicService.scan content filePath fileExtension) ->
    type i <> PERFORMANCE
    /\ ruleId i <> Some "console-log"
    /\ ruleId i <> Some "magic-numbers"
    /\ (fileExtension <> ".html" -> ruleId i <> Some "xss-vulnerability").
Proof.
  intros content filePath fileExtension i Hext H.
  apply scan_line in H as (idx & l & Hnth & H).
  apply line_issue_shape in H as (_ & _ & _ & _ & _ & _ & Hweb & Hhtml).
  destruct (Hweb Hext) as (H1 & H2 & H3).
  repeat split; try assumption.
  intros Hne. apply Hhtml. unfold JS.arrayIncludes in *.
  rewrite existsb_app, Hext. simpl.
  destruct (String.eqb_spec fileExtension ".html"); [contradiction | reflexivity].
Qed.

Lemma web_rules_need_web_extension_witness :
  type (HeuristicService.issue STYLE LOW "Trailing whitespace detected." "/w/notes.py" 1
          "Remove trailing whitespace" "trailing-whitespace") <> PERFORMANCE
  /\ ruleId (HeuristicService.issue STYLE LOW "Trailing whitespace detected." "/w/notes.py" 1
               "Remove trailing whitespace" "trailing-whitespace") <> Some "console-log"
  /\ ruleId (HeuristicService.issue STYLE LOW "Trailing whitespace detected." "/w/notes.py" 1
               "Remove trailing whitespace" "trailing-whitespace") <> Some "magic-numbers"
  /\ (".py" <> ".html" ->
      ruleId (HeuristicService.issue STYLE LOW "Trailing whitespace detected." "/w/notes.py" 1
                "Remove trailing whitespace" "trailing-whitespace")
      <> Some "xss-vulnerability").
Proof.
  apply (web_rules_need_web_extension "console.log(12345)  " "/w/notes.py" ".py").
  - reflexivity.
  - vm_compute. left. reflexivity.
Defined.

(** X28.  In the first tool the four counts of the filtered summary always
    add up to its total, whatever the filters: the scanner behind it
    never reports an [INFO] issue. *)
Theorem first_tool_summary_adds_up :
  forall (readFile : string -> outcome string) (extname : string -> string)
         (filePath : string) (result : HeuristicService.CodeReviewResult)
         (severityFilter : string) (issueTypes : list string),
    HeuristicService.analyzeFile readFile extname filePath = Resolved result ->
    let shown := HeuristicService.summary
                   (LegacyTool.filteredResult result severityFilter issueTypes) in
    totalIssues shown
    = criticalIssues shown + highIssues shown + mediumIssues shown + lowIssues shown.
Proof.
  intros readFile extname filePath result severityFilter issueTypes H.
  unfold HeuristicService.analyzeFile in H.
  destruct (readFile filePath) as [content|e]; [|discriminate].
  injection H as <-. cbn [HeuristicService.issues HeuristicService.summary
                           LegacyTool.filteredResult totalIssues criticalIssues
                           highIssues mediumIssues lowIssues].
  set (found := HeuristicService.scan content filePath _).
  set (shown := LegacyTool.filterIssues found severityFilter issueTypes).
  assert (Hsub : forall i, In i shown -> In i found).
  { intros i. unfold shown, LegacyTool.filterIssues.
    destruct (negb _); intros Hi; repeat (apply filter_In in Hi as [Hi _]); exact Hi. }
  assert (Hinfo : countIf (hasSeverity INFO) shown = 0).
  { unfold countIf. apply length_zero_iff_nil.
    destruct (List.filter _ shown) as [|i rest] eqn:E; [reflexivity|].
    assert (Hi : In i (List.filter (hasSeverity INFO) shown)) by (rewrite E; left; reflexivity).
    apply filter_In in Hi as [Hi Hs]. apply Hsub in Hi.
    apply scan_line in Hi as (idx & l & _ & Hi).
    apply line_issue_shape in Hi as (_ & _ & Hne & _).
    unfold hasSeverity in Hs. apply bool_decide_eq_true in Hs. contradiction. }
  pose proof (severity_partition shown). lia.
Qed.

Lemma first_tool_summary_adds_up_witness :
  exists result,
    HeuristicService.analyzeFile Fixtures.readFile Node.extname "/w/key.js" = Resolved result
    /\ totalIssues (HeuristicService.summary (LegacyTool.filteredResult result "high" ["security"]))
       = criticalIssues (HeuristicService.summary
                           (LegacyTool.filteredResult result "high" ["security"]))
         + highIssues (HeuristicService.summary
                         (LegacyTool.filteredResult result "high" ["security"]))
         + mediumIssues (HeuristicService.summary
                           (LegacyTool.filteredResult result "high" ["security"]))
         + lowIssues (HeuristicService.summary
                        (LegacyTool.filteredResult result "high" ["security"])).
Proof.
  eexists. split; [reflexivity|].
  apply (first_tool_summary_adds_up Fixtures.readFile Node.extname "/w/key.js").
  reflexivity.
Defined.
